(** * autograph: end-entity store, content-signature PKI signer, MAR options

    A shallow embedding of three pieces of the autograph signing service:

    - package [database]: the end-entity operations run inside a store
      transaction ([GetLabelOfLatestEE], [InsertEE]);
    - package [contentsignaturepki]: construction of the signer ([New]) and
      its [SignData] / [SignHash] / [makeTemplatedHash] / [getSignatureLen];
    - package [mar]: [GetOptions].

    Go values are modelled as follows: [int] and durations as [Z], unsigned
    store columns as [N], [[]byte] as [list byte], [string] as [string], a
    nil-able value as [option], a Go [error] result as [option error] with
    [None] for nil.  A call that can abort the goroutine has an [outcome]
    with a [Panic] case. *)

From Stdlib Require Import List String Ascii ZArith NArith Lia Bool.
From Stdlib.Strings Require Import Byte.
From Stdlib Require Import DecimalString.
Import ListNotations.

Local Open Scope string_scope.
Local Open Scope list_scope.

Set Warnings "-register-all".

(** ** Errors *)

(** Go errors.  The three sentinels are compared by identity in the sources
    ([err == sql.ErrNoRows]), so they are constructors of their own;
    [errorString] is what [errors.New] and [errors.Errorf] build and
    [withMessage] what [errors.Wrap] builds. *)
Inductive error : Type :=
| ErrNoRows
| ErrTxDone
| ErrNoSuitableEEFound
| errorString (msg : string)
| withMessage (cause : error) (msg : string).

(** An argument of a format verb. *)
Inductive fmtarg : Type :=
| argInt (z : Z)
| argString (s : string).

Definition doublequote : string := String (ascii_of_nat 34) EmptyString.

(** Rendering of one verb: [%d] prints a decimal, [%q] a quoted string, [%s]
    the string.  The escapes [%q] adds for special characters only change
    message texts and are left out. *)
Definition render (verb : ascii) (a : fmtarg) : string :=
  match a with
  | argInt z => NilZero.string_of_int (Z.to_int z)
  | argString s =>
      if Ascii.eqb verb "q"%char then doublequote ++ s ++ doublequote else s
  end.

Fixpoint Sprintf (format : string) (args : list fmtarg) : string :=
  match format with
  | EmptyString => EmptyString
  | String c rest =>
      if Ascii.eqb c "%"%char then
        match rest with
        | EmptyString => "%!(NOVERB)"
        | String verb rest' =>
            match args with
            | a :: args' => render verb a ++ Sprintf rest' args'
            | [] => "%!" ++ String verb "(MISSING)" ++ Sprintf rest' []
            end
        end
      else String c (Sprintf rest args)
  end.

Module errors.

Definition New (msg : string) : error := errorString msg.

Definition Errorf (format : string) (args : list fmtarg) : error :=
  errorString (Sprintf format args).

Definition Wrap (err : error) (msg : string) : error := withMessage err msg.

End errors.

(** [err.Error()]: a wrapped error prints its message, a colon and its
    cause. *)
Fixpoint Error (e : error) : string :=
  match e with
  | ErrNoRows => "sql: no rows in result set"
  | ErrTxDone => "sql: transaction has already been committed or rolled back"
  | ErrNoSuitableEEFound => "no suitable key found in database"
  | errorString msg => msg
  | withMessage cause msg => msg ++ ": " ++ Error cause
  end.

(** ** Package database *)

Module endentities.

(** One row of the [endentities] table, with the columns the statements of
    the package name.  Modelled from the spec: the schema is not part of
    the sources; the End-Entity Record gives [id] as store-assigned and
    [created_at] as the time the store saw the insertion. *)
Record row : Type := {
  id : N;
  x5u : option string;
  label : string;
  signer_id : string;
  hsm_handle : N;
  is_current : bool;
  created_at : Z
}.

End endentities.

Module database.

Import endentities.

(** A [Transaction] wraps an open [sql.Tx] and the id of its lock row.
    The store behind it is made explicit: [table] is [endentities] as the
    transaction sees it, [saved] its content when the transaction began
    (what [Rollback] goes back to), [done] tells that the [sql.Tx] was
    committed or rolled back, [serial] is the next row id, [now] the
    clock, and [driver] lists what the driver answers to the coming
    statements ([Some e]: the statement fails with [e]; an exhausted list
    answers no failure). *)
Record Transaction : Type := {
  ID : N;
  table : list row;
  saved : list row;
  done : bool;
  serial : N;
  now : Z;
  driver : list (option error)
}.

Definition with_table (t : list row) (tx : Transaction) : Transaction :=
  {| ID := ID tx; table := t; saved := saved tx; done := done tx;
     serial := serial tx; now := now tx; driver := driver tx |}.

Definition with_driver (d : list (option error)) (tx : Transaction)
  : Transaction :=
  {| ID := ID tx; table := table tx; saved := saved tx; done := done tx;
     serial := serial tx; now := now tx; driver := d |}.

(** The clock moves by [d] between two calls. *)
Definition elapse (d : Z) (tx : Transaction) : Transaction :=
  {| ID := ID tx; table := table tx; saved := saved tx; done := done tx;
     serial := serial tx; now := now tx + d; driver := driver tx |}.

(** [tx.Rollback()]: the changes are dropped and the [sql.Tx] is done. *)
Definition Rollback (tx : Transaction) : Transaction :=
  {| ID := ID tx; table := saved tx; saved := saved tx; done := true;
     serial := serial tx; now := now tx; driver := driver tx |}.

(** The driver's answer to the next statement. *)
Definition answer (tx : Transaction) : Transaction * option error :=
  if done tx then (tx, Some ErrTxDone)
  else match driver tx with
       | [] => (tx, None)
       | a :: d => (with_driver d tx, a)
       end.

(** The statements [InsertEE] executes. *)
Inductive statement : Type :=
| INSERT_INTO_endentities
    (x5u label signer_id : string) (hsm_handle : N) (is_current : bool)
| UPDATE_endentities_SET_is_current_FALSE (signer_id label : string).

(** [WHERE signer_id=$1 and label!=$2] *)
Definition other_key (signerID lbl : string) (r : row) : bool :=
  String.eqb (signer_id r) signerID && negb (String.eqb (label r) lbl).

Definition set_not_current (r : row) : row :=
  {| id := id r; x5u := x5u r; label := label r; signer_id := signer_id r;
     hsm_handle := hsm_handle r; is_current := false;
     created_at := created_at r |}.

Definition apply (st : statement) (tx : Transaction) : Transaction :=
  match st with
  | INSERT_INTO_endentities x l s h c =>
      {| ID := ID tx;
         table := table tx ++
                  [ {| id := serial tx; x5u := Some x; label := l;
                       signer_id := s; hsm_handle := h; is_current := c;
                       created_at := now tx |} ];
         saved := saved tx; done := done tx;
         serial := N.succ (serial tx); now := now tx;
         driver := driver tx |}
  | UPDATE_endentities_SET_is_current_FALSE s l =>
      with_table
        (map (fun r => if other_key s l r then set_not_current r else r)
             (table tx))
        tx
  end.

(** [tx.Exec(statement)]: a statement the driver refuses changes nothing. *)
Definition Exec (st : statement) (tx : Transaction)
  : Transaction * option error :=
  match answer tx with
  | (tx', Some e) => (tx', Some e)
  | (tx', None) => (apply st tx', None)
  end.

(** [WHERE is_current=TRUE AND signer_id=$1 AND created_at > $2] *)
Definition qualifies (signerID : string) (maxAge : Z) (r : row) : bool :=
  is_current r && String.eqb (signer_id r) signerID
  && (maxAge <? created_at r)%Z.

(** [ORDER BY created_at DESC LIMIT 1]: the row with the greatest
    [created_at]; among rows with equal stamps the store may return any,
    the model returns the one inserted first. *)
Fixpoint newest (rows : list row) : option row :=
  match rows with
  | [] => None
  | r :: rest =>
      match newest rest with
      | Some r' => if (created_at r <? created_at r')%Z then Some r'
                   else Some r
      | None => Some r
      end
  end.

(** [tx.QueryRow(SELECT label, x5u ...).Scan(&label, &nullableX5U)]: the
    values stored through the two pointers and the error of [Scan].  When
    the query fails or has no row nothing is stored. *)
Definition QueryRow_Scan (signerID : string) (maxAge : Z)
    (label0 : string) (nullableX5U0 : option string) (tx : Transaction)
  : Transaction * (string * option string * option error) :=
  match answer tx with
  | (tx', Some e) => (tx', (label0, nullableX5U0, Some e))
  | (tx', None) =>
      match newest (filter (qualifies signerID maxAge) (table tx')) with
      | Some r => (tx', (label r, x5u r, None))
      | None => (tx', (label0, nullableX5U0, Some ErrNoRows))
      end
  end.

(** [sql.NullString.Value()]: the string when valid, nil otherwise; its
    error is always nil. *)
Definition NullString_Value (ns : option string)
  : option string * option error :=
  (ns, None).

(** [GetLabelOfLatestEE] returns [(label, x5u, err)].  The short variable
    declaration [x5uValue, err := nullableX5U.Value()] stands in the
    function's own block, so it assigns the result [err]. *)
Definition GetLabelOfLatestEE (signerID : string) (youngerThan : Z)
    (tx : Transaction) : Transaction * (string * string * option error) :=
  let maxAge := (now tx - youngerThan)%Z in
  let '(tx, (label, nullableX5U, err)) :=
    QueryRow_Scan signerID maxAge "" None tx in
  match err with
  | Some ErrNoRows => (tx, ("", "", Some ErrNoSuitableEEFound))
  | _ =>
      let '(x5uValue, err) := NullString_Value nullableX5U in
      let x5u := match x5uValue with Some s => s | None => "" end in
      (tx, (label, x5u, err))
  end.

(** [InsertEE] inserts the row as current and marks the other keys of the
    signer as no longer current; either failure rolls back. *)
Definition InsertEE (x5u label signerID : string) (hsmHandle : N)
    (tx : Transaction) : Transaction * option error :=
  match Exec (INSERT_INTO_endentities x5u label signerID hsmHandle true)
             tx with
  | (tx, Some err) =>
      (Rollback tx,
       Some (errors.Wrap err "failed to insert new key in database"))
  | (tx, None) =>
      match Exec (UPDATE_endentities_SET_is_current_FALSE signerID label)
                 tx with
      | (tx, Some err) =>
          (Rollback tx,
           Some (errors.Wrap err
                   "failed to update is_current status of keys in database"))
      | (tx, None) => (tx, None)
      end
  end.

(** *** Vocabulary of the properties *)

(** One call of a sequence of insertions for a signer: the time gone by
    since the call before, and the arguments. *)
Record call : Type := {
  delay : Z;
  arg_x5u : string;
  arg_label : string;
  arg_hsmHandle : N
}.

(** The calls in order; the errors are collected. *)
Fixpoint InsertEEs (signerID : string) (calls : list call)
    (tx : Transaction) : Transaction * list (option error) :=
  match calls with
  | [] => (tx, [])
  | c :: rest =>
      let '(tx1, err) :=
        InsertEE (arg_x5u c) (arg_label c) signerID (arg_hsmHandle c)
                 (elapse (delay c) tx) in
      let '(tx2, errs) := InsertEEs signerID rest tx1 in
      (tx2, err :: errs)
  end.

(** The rows of a signer that are marked current. *)
Definition current_rows (signerID : string) (t : list row) : list row :=
  filter (fun r => is_current r && String.eqb (signer_id r) signerID) t.

(** The transaction is open and the driver refuses no coming statement. *)
Definition healthy (tx : Transaction) : Prop :=
  done tx = false /\ Forall (fun a => a = None) (driver tx).

(** No row of the signer carries the label. *)
Definition fresh (signerID lbl : string) (t : list row) : Prop :=
  forall r, In r t -> signer_id r = signerID -> label r <> lbl.

(** The row a successful [InsertEE] adds. *)
Definition inserted (x5u label signerID : string) (hsmHandle : N)
    (tx : Transaction) : row :=
  {| id := serial tx; x5u := Some x5u; label := label;
     signer_id := signerID; hsm_handle := hsmHandle; is_current := true;
     created_at := now tx |}.

(** A transaction whose next statement the driver refuses. *)
Definition refused (e : error) (tx : Transaction) : Transaction :=
  with_driver (Some e :: driver tx) tx.

(** An example state: one older current key of signer [remote-settings]
    and a current key of another signer. *)
Definition tx0 : Transaction :=
  {| ID := 7%N;
     table := [ {| id := 1%N; x5u := None; label := "rs-20190101";
                   signer_id := "remote-settings"; hsm_handle := 11%N;
                   is_current := true; created_at := 100%Z |};
                {| id := 2%N; x5u := Some "https://cdn/normandy.chain";
                   label := "normandy-20190102";
                   signer_id := "normandy"; hsm_handle := 12%N;
                   is_current := true; created_at := 200%Z |} ];
     saved := [];
     done := false; serial := 3%N; now := 1000%Z; driver := [] |}.

Definition calls0 : list call :=
  [ {| delay := 5%Z; arg_x5u := "https://cdn/a.chain";
       arg_label := "rs-20190201"; arg_hsmHandle := 21%N |};
    {| delay := 60%Z; arg_x5u := "https://cdn/b.chain";
       arg_label := "rs-20190301"; arg_hsmHandle := 22%N |} ].

End database.

(** ** Dynamic values *)

(** What a Go [interface{}] argument holds, as far as [encoding/json] tells
    values apart: numbers are kept by the literal they are written as, and
    [Unsupported] stands for the values [json.Marshal] refuses (channels,
    functions, complex numbers, NaN and infinities). *)
Inductive any : Type :=
| Nil
| Bool (b : bool)
| Integer (z : Z)
| Fraction (literal : string)
| Str (s : string)
| Slice (elems : list any)
| Map (entries : list (string * any))
| Unsupported (kind : string).

(** A call either returns or aborts the goroutine. *)
Inductive outcome (A : Type) : Type :=
| Return (a : A)
| Panic (msg : string).

Arguments Return {A} a.
Arguments Panic {A} msg.

(** ** Package contentsignaturepki *)

(** The hash functions of [crypto/sha256] and [crypto/sha512] ([New],
    [Write], [Sum(nil)] in one step) with their digest sizes. *)
Class Hashes : Type := {
  sha256_New : list byte -> list byte;
  sha512_New384 : list byte -> list byte;
  sha512_New : list byte -> list byte;
  sha256_Size : forall data, List.length (sha256_New data) = 32%nat;
  sha512_Size384 : forall data, List.length (sha512_New384 data) = 48%nat;
  sha512_Size : forall data, List.length (sha512_New data) = 64%nat
}.

(** A [crypto.Signer]: [Sign(rand, digest, opts)] gives a DER signature or
    an error. *)
Record Signer : Type := {
  Sign : list byte -> list byte + error
}.

(** A [crypto.PublicKey] as the type switch of [New] sees it; an ECDSA key
    carries the name of its curve ([Params().Name]). *)
Inductive PublicKey : Type :=
| ecdsa_PublicKey (curve : string)
| rsa_PublicKey
| other_PublicKey.

(** The two integers of a DER signature.  Modelled from the spec: the type
    [ecdsaAsn1Signature] is declared outside the sources; the Content
    Signature gives R and S as big integers. *)
Record ecdsaAsn1Signature : Type := {
  asn1_R : Z;
  asn1_S : Z
}.

(** [asn1.Unmarshal] at type [ecdsaAsn1Signature]. *)
Class ASN1 : Type := {
  asn1_Unmarshal : list byte -> ecdsaAsn1Signature + error
}.

Module signer.

(** Modelled from the spec: [signer.Configuration] is declared outside
    the sources; these are the fields of the Signer Configuration record
    that [New] and [Config] read and write.  [DB] is the store handle,
    absent when no store is configured. *)
Record Configuration : Type := {
  ID : string;
  Type_ : string;
  Mode : string;
  PrivateKey : string;
  PublicKey : string;
  X5U : string;
  Validity : Z;
  ClockSkewTolerance : Z;
  ChainUploadLocation : string;
  CaCert : string;
  DB : option string
}.

Definition zero : Configuration :=
  {| ID := ""; Type_ := ""; Mode := ""; PrivateKey := ""; PublicKey := "";
     X5U := ""; Validity := 0; ClockSkewTolerance := 0;
     ChainUploadLocation := ""; CaCert := ""; DB := None |}.

Definition set_Validity (v : Z) (c : Configuration) : Configuration :=
  {| ID := ID c; Type_ := Type_ c; Mode := Mode c;
     PrivateKey := PrivateKey c; PublicKey := PublicKey c; X5U := X5U c;
     Validity := v; ClockSkewTolerance := ClockSkewTolerance c;
     ChainUploadLocation := ChainUploadLocation c; CaCert := CaCert c;
     DB := DB c |}.

Definition set_Mode (m : string) (c : Configuration) : Configuration :=
  {| ID := ID c; Type_ := Type_ c; Mode := m;
     PrivateKey := PrivateKey c; PublicKey := PublicKey c; X5U := X5U c;
     Validity := Validity c; ClockSkewTolerance := ClockSkewTolerance c;
     ChainUploadLocation := ChainUploadLocation c; CaCert := CaCert c;
     DB := DB c |}.

Definition set_X5U (x : string) (c : Configuration) : Configuration :=
  {| ID := ID c; Type_ := Type_ c; Mode := Mode c;
     PrivateKey := PrivateKey c; PublicKey := PublicKey c; X5U := x;
     Validity := Validity c; ClockSkewTolerance := ClockSkewTolerance c;
     ChainUploadLocation := ChainUploadLocation c; CaCert := CaCert c;
     DB := DB c |}.

End signer.

Module contentsignaturepki.

Definition Type_ : string := "contentsignaturepki".
Definition P256ECDSA : string := "p256ecdsa".
Definition P256ECDSABYTESIZE : Z := 64.
Definition P384ECDSA : string := "p384ecdsa".
Definition P384ECDSABYTESIZE : Z := 96.
Definition P521ECDSA : string := "p521ecdsa".
Definition P521ECDSABYTESIZE : Z := 132.

(** ["Content-Signature:\x00"] *)
Definition SignaturePrefix : string :=
  "Content-Signature:" ++ String (ascii_of_nat 0) EmptyString.

Definition time_Hour : Z := 3600 * 1000000000.

(** The signer: the embedded [signer.Configuration] and its own fields.
    The keys are nil until [New] loads them. *)
Record ContentSigner : Type := {
  Configuration : signer.Configuration;
  issuerPriv : option Signer;
  eePriv : option Signer;
  issuerPub : option PublicKey;
  eePub : option PublicKey;
  eeLabel : string;
  validity : Z;
  clockSkewTolerance : Z;
  chainUploadLocation : string;
  chain : string;
  caCert : string;
  db : option string
}.

(** The promoted fields of the embedded configuration. *)
Definition ID (s : ContentSigner) : string := signer.ID (Configuration s).
Definition Mode (s : ContentSigner) : string :=
  signer.Mode (Configuration s).
Definition X5U (s : ContentSigner) : string := signer.X5U (Configuration s).

Definition set_Configuration (c : signer.Configuration) (s : ContentSigner)
  : ContentSigner :=
  {| Configuration := c; issuerPriv := issuerPriv s; eePriv := eePriv s;
     issuerPub := issuerPub s; eePub := eePub s; eeLabel := eeLabel s;
     validity := validity s; clockSkewTolerance := clockSkewTolerance s;
     chainUploadLocation := chainUploadLocation s; chain := chain s;
     caCert := caCert s; db := db s |}.

Definition set_issuer (priv : Signer) (pub : PublicKey) (s : ContentSigner)
  : ContentSigner :=
  {| Configuration := Configuration s; issuerPriv := Some priv;
     eePriv := eePriv s; issuerPub := Some pub; eePub := eePub s;
     eeLabel := eeLabel s; validity := validity s;
     clockSkewTolerance := clockSkewTolerance s;
     chainUploadLocation := chainUploadLocation s; chain := chain s;
     caCert := caCert s; db := db s |}.

(** [s.Mode = mode] *)
Definition with_Mode (mode : string) (s : ContentSigner) : ContentSigner :=
  set_Configuration (signer.set_Mode mode (Configuration s)) s.

(** Modelled from the spec: the type [ContentSignature] and its method
    [storeHashName] are declared outside the sources.  The Content
    Signature record has the length, mode, chain location, signer id, R
    and S (nil until populated) and the finished flag; the hash algorithm
    name is recorded on it. *)
Record ContentSignature : Type := {
  R : option Z;
  S : option Z;
  HashName : string;
  sig_Mode : string;
  sig_X5U : string;
  sig_ID : string;
  Len : Z;
  Finished : bool
}.

(** Modelled from the spec: [storeHashName] records which hash algorithm
    name was used on the signature. *)
Definition storeHashName (alg : string) (sig : ContentSignature)
  : ContentSignature :=
  {| R := R sig; S := S sig; HashName := alg; sig_Mode := sig_Mode sig;
     sig_X5U := sig_X5U sig; sig_ID := sig_ID sig; Len := Len sig;
     Finished := Finished sig |}.

(** [make([]byte, n)] *)
Definition make (n : nat) : list byte := repeat x00 n.

(** [copy(dst[lo:hi], src)] on the array behind [dst]: as many bytes as
    both the window and [src] hold are written, the rest stays. *)
Definition copy (dst : list byte) (lo hi : nat) (src : list byte)
  : list byte :=
  let n := Nat.min (hi - lo) (List.length src) in
  firstn lo dst ++ firstn n src ++ skipn (lo + n) dst.

(** [getSignatureLen]: the size of a signature of the mode, or -1 if the
    mode is unknown. *)
Definition getSignatureLen (mode : string) : Z :=
  if String.eqb mode P256ECDSA then P256ECDSABYTESIZE
  else if String.eqb mode P384ECDSA then P384ECDSABYTESIZE
  else if String.eqb mode P521ECDSA then P521ECDSABYTESIZE
  else (-1).


(** [getModeFromCurve]: the mode of the issuer's curve, or the empty
    string.  The method asserts that the issuer key is an ECDSA key. *)
Definition getModeFromCurve (s : ContentSigner) : outcome string :=
  match issuerPub s with
  | Some (ecdsa_PublicKey name) =>
      Return (if String.eqb name "P-256" then P256ECDSA
              else if String.eqb name "P-384" then P384ECDSA
              else if String.eqb name "P-521" then P521ECDSA
              else "")
  | _ => Panic "interface conversion: crypto.PublicKey is not *ecdsa.PublicKey"
  end.

Section Signing.

Context {hashes : Hashes} {asn1 : ASN1}.

(** [makeTemplatedHash]: the name of the hash function and the hash of
    the prefix followed by the data. *)
Definition makeTemplatedHash (data : list byte) (curvename : string)
  : string * list byte :=
  let prefix := list_byte_of_string SignaturePrefix in
  let templated := make (List.length prefix + List.length data) in
  let templated := copy templated 0 (List.length prefix) prefix in
  let templated :=
    copy templated (List.length prefix) (List.length templated) data in
  if String.eqb curvename P384ECDSA then
    ("sha384", sha512_New384 templated)
  else if String.eqb curvename P521ECDSA then
    ("sha512", sha512_New templated)
  else ("sha256", sha256_New templated).

(** [SignHash] returns [(sig, err)]; [sig] is the nil interface when an
    error is returned.  The assertion of the issuer key to a
    [crypto.Signer] aborts on a signer without key. *)
Definition SignHash (s : ContentSigner) (input : list byte)
    (options : any)
  : outcome (option ContentSignature * option error) :=
  let n := Z.of_nat (List.length input) in
  if negb (n =? 32)%Z && negb (n =? 48)%Z && negb (n =? 64)%Z then
    Return (None,
            Some (errors.Errorf
                    "contentsignaturepki: refusing to sign input hash. length %d, expected 32, 48 or 64"
                    [argInt n]))
  else
    let csig :=
      {| R := None; S := None; HashName := "";
         sig_Mode := Mode s; sig_X5U := X5U s; sig_ID := ID s;
         Len := getSignatureLen (Mode s); Finished := false |} in
    match issuerPriv s with
    | None =>
        Panic "interface conversion: interface is nil, not crypto.Signer"
    | Some priv =>
        match Sign priv input with
        | inr err =>
            Return (None,
                    Some (errors.Wrap err
                            "contentsignaturepki: failed to sign hash"))
        | inl asn1Sig =>
            match asn1_Unmarshal asn1Sig with
            | inr err =>
                Return (None,
                        Some (errors.Wrap err
                                "contentsignaturepki: failed to parse signature"))
            | inl ecdsaSig =>
                Return (Some {| R := Some (asn1_R ecdsaSig);
                                S := Some (asn1_S ecdsaSig);
                                HashName := HashName csig;
                                sig_Mode := sig_Mode csig;
                                sig_X5U := sig_X5U csig;
                                sig_ID := sig_ID csig;
                                Len := Len csig;
                                Finished := true |},
                        None)
            end
        end
    end.

(** [SignData]: the result of [SignHash] is asserted to a
    [*ContentSignature] before its error is looked at; the assertion
    aborts on the nil interface. *)
Definition SignData (s : ContentSigner) (input : list byte)
    (options : any)
  : outcome (option ContentSignature * option error) :=
  if (Z.of_nat (List.length input) <? 10)%Z then
    Return (None,
            Some (errors.Errorf
                    "contentsignaturepki: refusing to sign input data shorter than 10 bytes"
                    []))
  else
    let '(alg, hash) := makeTemplatedHash input (Mode s) in
    match SignHash s hash options with
    | Panic msg => Panic msg
    | Return (None, err) =>
        Panic "interface conversion: signer.Signature is nil, not *contentsignaturepki.ContentSignature"
    | Return (Some sig, err) => Return (Some (storeHashName alg sig), err)
    end.

(** The hash the specification gives to a mode: SHA-256 in P-256
    mode, SHA-384 in P-384 mode, SHA-512 in P-521 mode, each with its
    algorithm name. *)
Definition spec_hash (mode : string)
  : option (string * (list byte -> list byte)) :=
  if String.eqb mode P256ECDSA then Some ("sha256", sha256_New)
  else if String.eqb mode P384ECDSA then Some ("sha384", sha512_New384)
  else if String.eqb mode P521ECDSA then Some ("sha512", sha512_New)
  else None.

End Signing.

(** *** Construction *)

(** The result of a step of [New]: a value, the error [New] returns with a
    nil signer, or an abort. *)
Inductive result (A : Type) : Type :=
| Ok (a : A)
| Fail (err : error)
| Abort (msg : string).

Arguments Ok {A} a.
Arguments Fail {A} err.
Arguments Abort {A} msg.

Section Construction.

(** What lies outside the process: the store, the HSM, the place the
    chains are uploaded to. *)
Variable world : Type.

(** The methods [New] calls that are declared outside the sources.
    Each may change the world and, having a pointer receiver, the
    signer; an error comes with the signer as the call left it. *)
Record Collaborators : Type := {
  GetKeysAndRand :
    signer.Configuration -> world -> world * (Signer * PublicKey + error);
  findEE :
    ContentSigner -> signer.Configuration -> world ->
    world * (ContentSigner * option error);
  makeEE :
    ContentSigner -> signer.Configuration -> option PublicKey -> world ->
    world * (ContentSigner * option error);
  makeChainAndX5U :
    ContentSigner -> world -> world * (ContentSigner * option error);
  verifyX5U : string -> world -> world * option error
}.

Variable ext : Collaborators.

Definition M (A : Type) : Type := world -> world * result A.

Definition ret {A : Type} (a : A) : M A := fun w => (w, Ok a).

Definition fail {A : Type} (err : error) : M A := fun w => (w, Fail err).

Definition bind {A B : Type} (m : M A) (k : A -> M B) : M B :=
  fun w =>
    match m w with
    | (w', Ok a) => k a w'
    | (w', Fail err) => (w', Fail err)
    | (w', Abort msg) => (w', Abort msg)
    end.

Notation "x <- m ;; k" := (bind m (fun x => k))
  (at level 61, m at next level, right associativity).

(** A call that returns the signer and an error. *)
Definition call {A : Type} (f : world -> world * A) : M A :=
  fun w => let '(w', a) := f w in (w', Ok a).

Definition of_outcome {A : Type} (o : outcome A) : M A :=
  fun w => match o with
           | Return a => (w, Ok a)
           | Panic msg => (w, Abort msg)
           end.

(** The signer [New] starts from: the fields copied from the
    configuration, everything else zero. *)
Definition new_ContentSigner (conf : signer.Configuration)
  : ContentSigner :=
  {| Configuration :=
       {| signer.ID := signer.ID conf;
          signer.Type_ := signer.Type_ conf;
          signer.Mode := "";
          signer.PrivateKey := signer.PrivateKey conf;
          signer.PublicKey := signer.PublicKey conf;
          signer.X5U := signer.X5U conf;
          signer.Validity := 0; signer.ClockSkewTolerance := 0;
          signer.ChainUploadLocation := ""; signer.CaCert := "";
          signer.DB := None |};
     issuerPriv := None; eePriv := None; issuerPub := None;
     eePub := None; eeLabel := "";
     validity := signer.Validity conf;
     clockSkewTolerance := signer.ClockSkewTolerance conf;
     chainUploadLocation := signer.ChainUploadLocation conf;
     chain := ""; caCert := signer.CaCert conf;
     db := signer.DB conf |}.

(** Lines 313 to 337: the checks of the configuration, the issuer key
    and the mode. *)
Definition New_issuer (conf : signer.Configuration)
  : M (ContentSigner * signer.Configuration) :=
  let s := new_ContentSigner conf in
  if negb (String.eqb (signer.Type_ conf) Type_) then
    fail (errors.Errorf
            "contentsignaturepki: invalid type %q, must be %q"
            [argString (signer.Type_ conf); argString Type_])
  else if String.eqb (signer.ID conf) "" then
    fail (errors.New
            "contentsignaturepki: missing signer ID in signer configuration")
  else if String.eqb (signer.PrivateKey conf) "" then
    fail (errors.New
            "contentsignaturepki: missing private key in signer configuration")
  else
    keys <- call (GetKeysAndRand ext conf) ;;
    match keys with
    | inr err =>
        fail (errors.Wrap err
                (Sprintf "contentsignaturepki: failed to retrieve signer %q"
                         [argString (signer.PrivateKey conf)]))
    | inl (priv, pub) =>
        let s := set_issuer priv pub s in
        let conf :=
          if (signer.Validity conf =? 0)%Z
          then signer.set_Validity (720 * time_Hour) conf else conf in
        match issuerPub s with
        | Some (ecdsa_PublicKey _) =>
            mode <- of_outcome (getModeFromCurve s) ;;
            ret (set_Configuration
                   (signer.set_Mode mode (Configuration s)) s,
                 conf)
        | _ =>
            fail (errors.New
                    "contentsignaturepki: invalid key for CA cert, must be ecdsa")
        end
    end.

(** Lines 339 to 355: the end-entity is looked up, and made with its
    chain when the store has no suitable one. *)
Definition New_endentity (s : ContentSigner) (conf : signer.Configuration)
  : M ContentSigner :=
  found <- call (findEE ext s conf) ;;
  match found with
  | (s, None) => ret s
  | (s, Some ErrNoSuitableEEFound) =>
      made <- call (makeEE ext s conf (issuerPub s)) ;;
      match made with
      | (s, Some err) =>
          fail (errors.Wrap err
                  "contentsignaturepki: failed to make suitable end-entity")
      | (s, None) =>
          chained <- call (makeChainAndX5U ext s) ;;
          match chained with
          | (s, Some err) =>
              fail (errors.Wrap err
                      "contentsignaturepki: failed to make chain and x5u for end-entity")
          | (s, None) => ret s
          end
      end
  | (s, Some err) =>
      fail (errors.Wrap err
              "contentsignaturepki: failed to find suitable end-entity")
  end.

(** Lines 357 to 370: the chain location is verified; when it could not
    be retrieved a new chain is made and the signer returned. *)
Definition New_x5u (s : ContentSigner) : M ContentSigner :=
  verified <- call (verifyX5U ext (X5U s)) ;;
  match verified with
  | None => ret s
  | Some err =>
      if String.prefix "failed to retrieve x5u" (Error err) then
        chained <- call (makeChainAndX5U ext s) ;;
        match chained with
        | (s, Some err) =>
            fail (errors.Wrap err
                    "contentsignaturepki: failed to make chain and x5u for end-entity")
        | (s, None) => ret s
        end
      else
        fail (errors.Wrap err "contentsignaturepki: failed to verify x5u")
  end.

(** [New]: [Ok s] is the return of [s] with a nil error, [Fail err] the
    return of a nil signer with [err]. *)
Definition New (conf : signer.Configuration) : M ContentSigner :=
  loaded <- New_issuer conf ;;
  let '(s, conf) := loaded in
  s <- New_endentity s conf ;;
  New_x5u s.

End Construction.

Arguments Ok {A} a.
Arguments Fail {A} err.
Arguments Abort {A} msg.
Arguments GetKeysAndRand {world}.
Arguments findEE {world}.
Arguments makeEE {world}.
Arguments makeChainAndX5U {world}.
Arguments verifyX5U {world}.
Arguments New {world}.
Arguments New_issuer {world}.
Arguments New_endentity {world}.
Arguments New_x5u {world}.

(** The errors of the two size checks. *)
Definition InvalidInput : error :=
  errorString
    "contentsignaturepki: refusing to sign input data shorter than 10 bytes".

Definition InvalidHashLength (n : Z) : error :=
  errorString
    ("contentsignaturepki: refusing to sign input hash. length "
     ++ NilZero.string_of_int (Z.to_int n) ++ ", expected 32, 48 or 64").

End contentsignaturepki.

(** ** Package encoding/json, as far as [mar.GetOptions] uses it *)

Module json.

(** A number by its literal: [integer z] is the plain decimal of [z], any
    other literal (fraction, exponent, minus zero) is a [fraction]. *)
Inductive number : Type :=
| integer (z : Z)
| fraction (literal : string).

(** A JSON text, kept as the value it spells instead of as bytes. *)
Inductive value : Type :=
| null
| boolean (b : bool)
| num (n : number)
| str (s : string)
| array (elems : list value)
| object (members : list (string * value)).

(** [json.Marshal]: the members of a map come in the order of the
    entries. *)
Fixpoint Marshal (v : any) : value + error :=
  match v with
  | Nil => inl null
  | Bool b => inl (boolean b)
  | Integer z => inl (num (integer z))
  | Fraction l => inl (num (fraction l))
  | Str s => inl (str s)
  | Slice elems =>
      match
        (fix each (l : list any) : list value + error :=
           match l with
           | [] => inl []
           | x :: rest =>
               match Marshal x with
               | inr e => inr e
               | inl jx =>
                   match each rest with
                   | inr e => inr e
                   | inl jrest => inl (jx :: jrest)
                   end
               end
           end) elems
      with
      | inr e => inr e
      | inl js => inl (array js)
      end
  | Map entries =>
      match
        (fix each (l : list (string * any))
           : list (string * value) + error :=
           match l with
           | [] => inl []
           | (k, x) :: rest =>
               match Marshal x with
               | inr e => inr e
               | inl jx =>
                   match each rest with
                   | inr e => inr e
                   | inl jrest => inl ((k, jx) :: jrest)
                   end
               end
           end) entries
      with
      | inr e => inr e
      | inl ms => inl (object ms)
      end
  | Unsupported kind => inr (errorString ("json: unsupported type: " ++ kind))
  end.

(** The name of the kind of a value in an [UnmarshalTypeError]. *)
Definition kind (v : value) : string :=
  match v with
  | null => "null"
  | boolean _ => "bool"
  | num (integer z) => "number " ++ NilZero.string_of_int (Z.to_int z)
  | num (fraction l) => "number " ++ l
  | str _ => "string"
  | array _ => "array"
  | object _ => "object"
  end.

Definition UnmarshalTypeError (v : value) (type : string) : error :=
  errorString ("json: cannot unmarshal " ++ kind v ++ " into Go " ++ type).

(** [b & caseMask], with [caseMask = ^byte(0x20)]. *)
Definition caseMask (b : ascii) : ascii :=
  match b with
  | Ascii b0 b1 b2 b3 b4 _ b6 b7 => Ascii b0 b1 b2 b3 b4 false b6 b7
  end.

(** [b < utf8.RuneSelf] *)
Definition below_RuneSelf (b : ascii) : bool :=
  match b with
  | Ascii _ _ _ _ _ _ _ b7 => negb b7
  end.

(** ['A' <= b && b <= 'Z'] *)
Definition upper_letter (b : ascii) : bool :=
  let n := nat_of_ascii b in (65 <=? n)%nat && (n <=? 90)%nat.

(** The UTF-8 bytes of the long s (U+017F) and of the Kelvin sign
    (U+212A). *)
Definition smallLongEss : string :=
  String (ascii_of_nat 197) (String (ascii_of_nat 191) EmptyString).

Definition kelvin : string :=
  String (ascii_of_nat 226)
    (String (ascii_of_nat 132) (String (ascii_of_nat 170) EmptyString)).

(** What follows the bytes of a rune at the head of [t], when [t] begins
    with them ([utf8.DecodeRune] and the test of the rune). *)
Fixpoint after_rune (rune t : string) : option string :=
  match rune with
  | EmptyString => Some t
  | String r rune' =>
      match t with
      | EmptyString => None
      | String b t' => if Ascii.eqb r b then after_rune rune' t' else None
      end
  end.

(** [equalFoldRight(s, t)], the folding [foldFunc] chooses for a field name
    of ASCII letters that has an s or a k: a letter of [s] matches either
    case of itself in [t], and s and k also match the long s and the
    Kelvin sign. *)
Fixpoint equalFoldRight (s t : string) : bool :=
  match s with
  | EmptyString =>
      match t with
      | EmptyString => true
      | String _ _ => false
      end
  | String sb s' =>
      match t with
      | EmptyString => false
      | String tb t' =>
          if below_RuneSelf tb then
            if Ascii.eqb sb tb then equalFoldRight s' t'
            else
              let sbUpper := caseMask sb in
              if upper_letter sbUpper then
                if Ascii.eqb sbUpper (caseMask tb) then equalFoldRight s' t'
                else false
              else false
          else if Ascii.eqb sb "s"%char || Ascii.eqb sb "S"%char then
            match after_rune smallLongEss t with
            | Some rest => equalFoldRight s' rest
            | None => false
            end
          else if Ascii.eqb sb "k"%char || Ascii.eqb sb "K"%char then
            match after_rune kelvin t with
            | Some rest => equalFoldRight s' rest
            | None => false
            end
          else false
      end
  end.

(** A member is stored in the field whose name equals its key or folds to
    it; an equal key folds as well. *)
Definition equalFold (name key : string) : bool :=
  equalFoldRight name key.

End json.

(** ** Package mar *)

Module mar.

(** [SigAlg] is a [uint32]. *)
Record Options : Type := {
  SigAlg : N
}.

Definition zero : Options := {| SigAlg := 0 |}.

(** The decoding of a member value into the field [SigAlg]: null leaves
    the field, a plain decimal within [uint32] is stored, anything else
    is a type error and leaves the field. *)
Definition decode_SigAlg (v : json.value) (options : Options)
  : Options * option error :=
  match v with
  | json.null => (options, None)
  | json.num (json.integer z) =>
      if (0 <=? z)%Z && (z <? 2 ^ 32)%Z
      then ({| SigAlg := Z.to_N z |}, None)
      else (options,
            Some (json.UnmarshalTypeError v
                    "struct field Options.sigalg of type uint32"))
  | _ => (options,
          Some (json.UnmarshalTypeError v
                  "struct field Options.sigalg of type uint32"))
  end.

(** The members of an object in order; the first error is kept and the
    decoding goes on. *)
Fixpoint decode_members (members : list (string * json.value))
    (options : Options) (saved : option error) : Options * option error :=
  match members with
  | [] => (options, saved)
  | (key, v) :: rest =>
      if json.equalFold "sigalg" key then
        let '(options, err) := decode_SigAlg v options in
        decode_members rest options
          (match saved with Some e => Some e | None => err end)
      else decode_members rest options saved
  end.

(** [json.Unmarshal(buf, &options)] *)
Definition Unmarshal (buf : json.value) (options : Options)
  : Options * option error :=
  match buf with
  | json.null => (options, None)
  | json.object members => decode_members members options None
  | _ => (options,
          Some (json.UnmarshalTypeError buf "value of type mar.Options"))
  end.

(** [GetOptions] returns [(options, err)]. *)
Definition GetOptions (input : any) : Options * option error :=
  let options := zero in
  match json.Marshal input with
  | inr err => (options, Some err)
  | inl buf => Unmarshal buf options
  end.

(** *** Vocabulary of the properties *)

(** A member value the field [SigAlg] cannot take. *)
Definition bad_SigAlg (v : json.value) : bool :=
  match v with
  | json.null => false
  | json.num (json.integer z) => negb ((0 <=? z)%Z && (z <? 2 ^ 32)%Z)
  | _ => true
  end.

(** A JSON text that does not have the shape of the options record: it is
    neither null nor an object, or it is an object with a member for
    [sigalg] that the field cannot take. *)
Definition misshapen (buf : json.value) : bool :=
  match buf with
  | json.null => false
  | json.object members =>
      existsb (fun m => json.equalFold "sigalg" (fst m) && bad_SigAlg (snd m))
              members
  | _ => true
  end.

(** An input that cannot be re-encoded into the options record: it has no
    JSON text, or its text is misshapen. *)
Definition incompatible (input : any) : Prop :=
  match json.Marshal input with
  | inr _ => True
  | inl buf => misshapen buf = true
  end.

(** The same in terms of the value alone. *)

(** A value [json.Marshal] refuses: an unsupported value, or a slice or a
    map that holds one. *)
Inductive refused : any -> Prop :=
| refused_here (kind : string) : refused (Unsupported kind)
| refused_elem (elems : list any) (v : any) :
    In v elems -> refused v -> refused (Slice elems)
| refused_entry (entries : list (string * any)) (key : string) (v : any) :
    In (key, v) entries -> refused v -> refused (Map entries).

(** The keys that name the field [SigAlg]: the letters of sigalg, each in
    either case, the s also as a long s. *)
Definition names_sigalg (key : string) : Prop :=
  exists s i g a l g',
    In s ["s"; "S"; json.smallLongEss] /\ In i ["i"; "I"] /\
    In g ["g"; "G"] /\ In a ["a"; "A"] /\ In l ["l"; "L"] /\
    In g' ["g"; "G"] /\
    key = (s ++ i ++ g ++ a ++ l ++ g')%string.

(** The values a [uint32] field takes: nil, and the whole numbers of its
    range. *)
Definition fits_uint32 (v : any) : Prop :=
  v = Nil \/ exists z, v = Integer z /\ (0 <= z < 2 ^ 32)%Z.

(** A value that cannot be re-encoded into the options record: one that
    has no JSON text; a boolean, a number, a string or a slice; or a map
    with an entry for [sigalg] whose value a [uint32] does not take. *)
Inductive not_Options : any -> Prop :=
| not_Options_refused (v : any) : refused v -> not_Options v
| not_Options_Bool (b : bool) : not_Options (Bool b)
| not_Options_Integer (z : Z) : not_Options (Integer z)
| not_Options_Fraction (literal : string) : not_Options (Fraction literal)
| not_Options_Str (s : string) : not_Options (Str s)
| not_Options_Slice (elems : list any) : not_Options (Slice elems)
| not_Options_member (entries : list (string * any)) (key : string)
    (v : any) :
    In (key, v) entries -> names_sigalg key -> ~ fits_uint32 v ->
    not_Options (Map entries).

End mar.

(** ** Example instances *)

Module example.

Import contentsignaturepki.

(** Hash functions that only have the right sizes; enough to run the
    signer. *)
#[export] Instance blank_hashes : Hashes :=
  {| sha256_New := fun _ => repeat x00 32;
     sha512_New384 := fun _ => repeat x00 48;
     sha512_New := fun _ => repeat x00 64;
     sha256_Size := fun _ => eq_refl;
     sha512_Size384 := fun _ => eq_refl;
     sha512_Size := fun _ => eq_refl |}.

(** A decoder that reads R from the first byte and S from the number of
    bytes that follow. *)
#[export] Instance short_asn1 : ASN1 :=
  {| asn1_Unmarshal := fun der =>
       match der with
       | [] => inr (errorString "asn1: syntax error: sequence truncated")
       | b :: rest =>
           inl {| asn1_R := Z.of_N (Byte.to_N b);
                  asn1_S := Z.of_nat (List.length rest) |}
       end |}.

(** A key that answers every digest, and a key on a device that fails. *)
Definition software_key : Signer :=
  {| Sign := fun digest => inl (x30 :: digest) |}.

Definition failing_key : Signer :=
  {| Sign := fun _ => inr (errorString "pkcs11: 0x30: CKR_DEVICE_ERROR") |}.

Definition conf0 : signer.Configuration :=
  {| signer.ID := "remote-settings";
     signer.Type_ := "contentsignaturepki";
     signer.Mode := "";
     signer.PrivateKey := "issuer-key";
     signer.PublicKey := "";
     signer.X5U := "https://cdn/old.chain";
     signer.Validity := 0;
     signer.ClockSkewTolerance := 0;
     signer.ChainUploadLocation := "https://cdn/";
     signer.CaCert := "";
     signer.DB := Some "postgres" |}.

(** A signer as [New] leaves it, with the given mode and issuer key. *)
Definition signer0 (mode : string) (key : Signer) : ContentSigner :=
  set_Configuration
    (signer.set_Mode mode (Configuration (new_ContentSigner conf0)))
    (set_issuer key (ecdsa_PublicKey "P-384") (new_ContentSigner conf0)).

Definition input0 : list byte := list_byte_of_string "AUTOGRAPH MONITORING".

(** The world is the record of the calls made to it. *)
Definition world : Type := list string.

Definition set_eeLabel (l : string) (s : ContentSigner) : ContentSigner :=
  {| Configuration := Configuration s; issuerPriv := issuerPriv s;
     eePriv := eePriv s; issuerPub := issuerPub s; eePub := eePub s;
     eeLabel := l; validity := validity s;
     clockSkewTolerance := clockSkewTolerance s;
     chainUploadLocation := chainUploadLocation s; chain := chain s;
     caCert := caCert s; db := db s |}.

(** Collaborators for an issuer key on [curve], a store that holds a
    suitable end-entity, an upload that always succeeds, and chain
    locations that can be retrieved when [reachable] says so. *)
Definition ext0 (curve : string) (reachable : string -> bool)
  : Collaborators world :=
  {| GetKeysAndRand := fun conf w =>
       (w ++ ["GetKeysAndRand"], inl (software_key, ecdsa_PublicKey curve));
     findEE := fun s conf w =>
       (w ++ ["findEE"], (set_eeLabel "rs-20190301" s, None));
     makeEE := fun s conf pub w =>
       (w ++ ["makeEE"], (set_eeLabel "rs-20190401" s, None));
     makeChainAndX5U := fun s w =>
       (w ++ ["makeChainAndX5U"],
        (set_Configuration
           (signer.set_X5U
              (chainUploadLocation s ++ eeLabel s ++ ".chain")%string
                           (Configuration s)) s,
         None));
     verifyX5U := fun x w =>
       (w ++ [("verifyX5U " ++ x)%string],
        if reachable x then None
        else Some (errorString ("failed to retrieve x5u from " ++ x)%string)) |}.

End example.

Module example_echo.

(** The first [n] bytes of the data, filled up with zero bytes. *)
Definition head (n : nat) (data : list byte) : list byte :=
  firstn n (data ++ repeat x00 n).

(** Hash functions of the right sizes that keep the head of what they
    hash, so that a digest shows what was hashed. *)
Definition echo_hashes : Hashes.
Proof.
  refine {| sha256_New := head 32;
            sha512_New384 := head 48;
            sha512_New := head 64 |};
    intros data; unfold head;
    rewrite length_firstn, length_app, repeat_length; lia.
Defined.

End example_echo.

Module chain.

Import contentsignaturepki.

Section Chain.

Context {world : Type}.

(** Modelled from the spec: [makeChainAndX5U] is declared outside the
    sources.  The construction has it regenerate the chain and X5U and
    re-verify: [regenerate] stands for what builds and publishes the
    certificate chain and leaves the new X5U in the signer, and the new
    X5U is verified before the call returns without error. *)
Definition makeChainAndX5U
    (regenerate : ContentSigner -> world -> world * (ContentSigner * option error))
    (verifyX5U : string -> world -> world * option error)
    (s : ContentSigner) (w : world)
  : world * (ContentSigner * option error) :=
  match regenerate s w with
  | (w1, (s1, Some err)) => (w1, (s1, Some err))
  | (w1, (s1, None)) =>
      match verifyX5U (X5U s1) w1 with
      | (w2, Some err) => (w2, (s1, Some err))
      | (w2, None) => (w2, (s1, None))
      end
  end.

End Chain.

(** In the example world: the chain goes to the upload location under the
    label of the end-entity. *)
Definition regenerate0 (s : ContentSigner) (w : example.world)
  : example.world * (ContentSigner * option error) :=
  (w ++ ["regenerate"],
   (set_Configuration
      (signer.set_X5U
         (chainUploadLocation s ++ eeLabel s ++ ".chain")%string
         (Configuration s)) s,
    None)).

(** The collaborators of the example world, with this
    [makeChainAndX5U]. *)
Definition ext1 (reachable : string -> bool)
  : Collaborators example.world :=
  {| GetKeysAndRand := GetKeysAndRand (example.ext0 "P-384" reachable);
     findEE := findEE (example.ext0 "P-384" reachable);
     makeEE := makeEE (example.ext0 "P-384" reachable);
     contentsignaturepki.makeChainAndX5U :=
       makeChainAndX5U regenerate0
         (verifyX5U (example.ext0 "P-384" reachable));
     verifyX5U := verifyX5U (example.ext0 "P-384" reachable) |}.

(** Every location but the configured one can be retrieved. *)
Definition only_new (x5u : string) : bool :=
  negb (String.eqb x5u "https://cdn/old.chain").

End chain.

(** ** Package database: the lock and the transaction as a whole *)

Module endentities_lock.

(** One row of the [endentities_lock] table, with the columns the
    statements of the package name. *)
Record row : Type := {
  id : N;
  is_locked : bool;
  freed_at : option Z
}.

End endentities_lock.

Module store.

Import database.

(** What a row is apart from its current flag. *)
Definition key_material (r : endentities.row)
  : N * option string * string * string * N * Z :=
  (endentities.id r, endentities.x5u r, endentities.label r,
   endentities.signer_id r, endentities.hsm_handle r,
   endentities.created_at r).

(** The store behind a [Handler]: the committed content of the two tables,
    the next ids, the clock, and the answers of the driver to the coming
    statements. *)
Record Handler : Type := {
  h_endentities : list endentities.row;
  h_locks : list endentities_lock.row;
  h_serial : N;
  h_lock_serial : N;
  h_now : Z;
  h_driver : list (option error)
}.

(** The [*Transaction] that [BeginEndEntityOperations] returns: the
    transaction on [endentities] together with its view of
    [endentities_lock]; [locks_saved] is the committed content of that
    table. *)
Record Operations : Type := {
  tx : Transaction;
  locks : list endentities_lock.row;
  locks_saved : list endentities_lock.row;
  lock_serial : N
}.

Definition with_tx (t : Transaction) (ops : Operations) : Operations :=
  {| tx := t; locks := locks ops; locks_saved := locks_saved ops;
     lock_serial := lock_serial ops |}.

(** [tx.Rollback()] on both tables. *)
Definition Rollback (ops : Operations) : Operations :=
  {| tx := database.Rollback (tx ops); locks := locks_saved ops;
     locks_saved := locks_saved ops; lock_serial := lock_serial ops |}.

(** [tx.Commit()]: when the driver accepts it, what the transaction sees
    becomes the committed content; the [sql.Tx] is done either way. *)
Definition Commit (ops : Operations) : Operations * option error :=
  match answer (tx ops) with
  | (t, Some e) => (with_tx t ops, Some e)
  | (t, None) =>
      ({| tx := {| ID := ID t; table := table t; saved := table t;
                   done := true; serial := serial t; now := now t;
                   driver := driver t |};
          locks := locks ops; locks_saved := locks ops;
          lock_serial := lock_serial ops |},
       None)
  end.

(** [db.Begin()] and the two statements of [BeginEndEntityOperations]: the
    lock of the table (which a single session always gets) and the
    insertion of the lock row, whose id is returned. *)
Definition BeginEndEntityOperations (db : Handler)
  : Handler * (option Operations * option error) :=
  match h_driver db with
  | Some err :: d =>
      ({| h_endentities := h_endentities db; h_locks := h_locks db;
          h_serial := h_serial db; h_lock_serial := h_lock_serial db;
          h_now := h_now db; h_driver := d |},
       (None, Some (errors.Wrap err "failed to create transaction")))
  | began =>
      let t := {| ID := 0; table := h_endentities db;
                  saved := h_endentities db; done := false;
                  serial := h_serial db; now := h_now db;
                  driver := tl began |} in
      let after (t : Transaction) : Handler :=
        {| h_endentities := h_endentities db; h_locks := h_locks db;
           h_serial := h_serial db; h_lock_serial := h_lock_serial db;
           h_now := h_now db; h_driver := driver t |} in
      match answer t with
      | (t, Some err) =>
          (after t,
           (None, Some (errors.Wrap err "failed to lock endentities table")))
      | (t, None) =>
          match answer t with
          | (t, Some err) =>
              (after t,
               (None,
                Some (errors.Wrap err "failed to lock endentities table")))
          | (t, None) =>
              let id := h_lock_serial db in
              (after t,
               (Some {| tx := {| ID := id; table := table t;
                                 saved := saved t; done := done t;
                                 serial := serial t; now := now t;
                                 driver := driver t |};
                        locks := h_locks db ++
                                 [ {| endentities_lock.id := id;
                                      endentities_lock.is_locked := true;
                                      endentities_lock.freed_at := None |} ];
                        locks_saved := h_locks db;
                        lock_serial := N.succ id |},
                None))
          end
      end
  end.

(** [UPDATE endentities_lock SET is_locked=FALSE, freed_at=NOW() WHERE
    id=$1] *)
Definition release (id : N) (at_ : Z) (r : endentities_lock.row)
  : endentities_lock.row :=
  if N.eqb (endentities_lock.id r) id then
    {| endentities_lock.id := endentities_lock.id r;
       endentities_lock.is_locked := false;
       endentities_lock.freed_at := Some at_ |}
  else r.

(** [End] releases the lock row and commits; either failure rolls back. *)
Definition End (ops : Operations) : Operations * option error :=
  match answer (tx ops) with
  | (t, Some err) =>
      (Rollback (with_tx t ops),
       Some (errors.Wrap err
               "failed to update is_current status of keys in database"))
  | (t, None) =>
      let ops :=
        {| tx := t;
           locks := map (release (ID t) (now t)) (locks ops);
           locks_saved := locks_saved ops;
           lock_serial := lock_serial ops |} in
      match Commit ops with
      | (ops, Some err) =>
          (Rollback ops,
           Some (errors.Wrap err "failed to commit transaction in database"))
      | (ops, None) => (ops, None)
      end
  end.

(** The methods of [database] on the returned transaction. *)
Definition InsertEE (x5u label signerID : string) (hsmHandle : N)
    (ops : Operations) : Operations * option error :=
  let '(t, err) := database.InsertEE x5u label signerID hsmHandle (tx ops) in
  (with_tx t ops, err).

Definition GetLabelOfLatestEE (signerID : string) (youngerThan : Z)
    (ops : Operations) : Operations * (string * string * option error) :=
  let '(t, r) := database.GetLabelOfLatestEE signerID youngerThan (tx ops) in
  (with_tx t ops, r).

(** The store once the transaction is over: the committed content of the
    tables, after [d] units of time. *)
Definition after (d : Z) (ops : Operations) : Handler :=
  {| h_endentities := saved (tx ops); h_locks := locks_saved ops;
     h_serial := serial (tx ops); h_lock_serial := lock_serial ops;
     h_now := now (tx ops) + d; h_driver := driver (tx ops) |}.

(** The calls of a list in order, stopping at the first error. *)
Fixpoint InsertEEs (signerID : string) (calls : list call)
    (ops : Operations) : Operations * option error :=
  match calls with
  | [] => (ops, None)
  | c :: rest =>
      match InsertEE (arg_x5u c) (arg_label c) signerID (arg_hsmHandle c)
                     (with_tx (elapse (delay c) (tx ops)) ops) with
      | (ops, Some err) => (ops, Some err)
      | (ops, None) => InsertEEs signerID rest ops
      end
  end.


(** An example store: the two rows of [tx0], one released lock. *)
Definition db0 : Handler :=
  {| h_endentities := table tx0;
     h_locks := [ {| endentities_lock.id := 1;
                     endentities_lock.is_locked := false;
                     endentities_lock.freed_at := Some 50%Z |} ];
     h_serial := 3; h_lock_serial := 2; h_now := 1000; h_driver := [] |}.

End store.

(** ** Package mar: the signer *)

(** A [crypto.PrivateKey] as the type switch of [mar.New] sees it: the four
    supported kinds, an ECDSA key with the name of its curve, and any other
    key with the name of its type. *)
Inductive PrivateKey : Type :=
| rsa_PrivateKey
| PKCS11PrivateKeyRSA
| ecdsa_PrivateKey (curve : string)
| PKCS11PrivateKeyECDSA (curve : string)
| other_PrivateKey (type : string).

(** The random source of the signer. *)
Inductive Reader : Type :=
| rand_Reader
| PKCS11RandReader.

(** What [mar.New] and the signing methods take from outside the
    repository: the key of a configuration ([conf.GetPrivateKey]), the
    encoding of public keys ([x509.MarshalPKIXPublicKey] and
    [base64.StdEncoding.EncodeToString]), and the MAR library with its
    signature algorithms, its hash and its signing primitive. *)
Class Margo : Type := {
  GetPrivateKey : signer.Configuration -> PrivateKey + error;
  MarshalPKIXPublicKey : PublicKey -> list byte + error;
  EncodeToString : list byte -> string;
  SigAlgRsaPkcs1Sha384 : N;
  SigAlgEcdsaP256Sha256 : N;
  SigAlgEcdsaP384Sha384 : N;
  margo_Hash : list byte -> N -> list byte + error;
  margo_Sign : PrivateKey -> Reader -> list byte -> N -> list byte + error
}.

(** The MAR library on files.  Modelled from the spec: [margo.File] is
    declared outside the repository; a MAR container has a signature block
    (the number of signatures and the signatures) and the rest, header and
    content. *)
Class MargoFile : Type := {
  rest_of_file : Type;
  file_signature : Type;
  margo_Unmarshal :
    list byte -> N * list file_signature * rest_of_file + error;
  PrepareSignature :
    N * list file_signature * rest_of_file -> PrivateKey -> PublicKey ->
    N * list file_signature * rest_of_file + error;
  FinalizeSignatures :
    N * list file_signature * rest_of_file ->
    N * list file_signature * rest_of_file + error;
  margo_Marshal : N * list file_signature * rest_of_file -> list byte + error
}.

Module mar_signer.

Import mar.

Definition Type_ : string := "mar".

(** The signer: the embedded [signer.Configuration] and its own fields.
    A signer that [New] returned has its keys and random source set. *)
Record MARSigner : Type := {
  Configuration : signer.Configuration;
  signingKey : PrivateKey;
  publicKey : PublicKey;
  rand : Reader;
  defaultSigAlg : N
}.

(** [Signature] is a MAR signature. *)
Record Signature : Type := {
  Data : list byte
}.

(** The public key of a private key ([Public()]). *)
Definition Public (key : PrivateKey) : PublicKey :=
  match key with
  | rsa_PrivateKey | PKCS11PrivateKeyRSA => rsa_PublicKey
  | ecdsa_PrivateKey curve | PKCS11PrivateKeyECDSA curve =>
      ecdsa_PublicKey curve
  | other_PrivateKey _ => other_PublicKey
  end.

Section Signer.

Context {margo : Margo}.

(** The configuration of the signer under construction: type, id and
    private key as [New] copies them, and the encoded public key. *)
Definition built (conf : signer.Configuration) (pub : string)
  : signer.Configuration :=
  {| signer.ID := signer.ID conf; signer.Type_ := signer.Type_ conf;
     signer.Mode := ""; signer.PrivateKey := signer.PrivateKey conf;
     signer.PublicKey := pub; signer.X5U := "";
     signer.Validity := 0; signer.ClockSkewTolerance := 0;
     signer.ChainUploadLocation := ""; signer.CaCert := "";
     signer.DB := None |}.

(** The default algorithm of an ECDSA key, by the name of its curve. *)
Definition ecdsa_default (name : string) : N + error :=
  if String.eqb name "P-256" then inl SigAlgEcdsaP256Sha256
  else if String.eqb name "P-384" then inl SigAlgEcdsaP384Sha384
  else inr (errorString
              (Sprintf "mar: elliptic curve %q is not supported"
                       [argString name])).

(** [New] initializes a mar signer using a configuration; it returns the
    signer with a nil error, or nil with the error. *)
Definition New (conf : signer.Configuration) : MARSigner + error :=
  if negb (String.eqb (signer.Type_ conf) Type_) then
    inr (errors.Errorf "mar: invalid type %q, must be %q"
                       [argString (signer.Type_ conf); argString Type_])
  else if String.eqb (signer.ID conf) "" then
    inr (errors.New "mar: missing signer ID in signer configuration")
  else if String.eqb (signer.PrivateKey conf) "" then
    inr (errors.New "mar: missing private key in signer configuration")
  else
    match GetPrivateKey conf with
    | inr err => inr (errors.Wrap err "mar: failed to parse private key")
    | inl key =>
        let pub := Public key in
        match key with
        | rsa_PrivateKey =>
            match MarshalPKIXPublicKey pub with
            | inr err =>
                inr (errors.Wrap err
                       "mar: failed to asn1 marshal rsa public key")
            | inl publicKeyBytes =>
                inl {| Configuration :=
                         built conf (EncodeToString publicKeyBytes);
                       signingKey := key; publicKey := pub;
                       rand := rand_Reader;
                       defaultSigAlg := SigAlgRsaPkcs1Sha384 |}
            end
        | PKCS11PrivateKeyRSA =>
            match MarshalPKIXPublicKey pub with
            | inr err =>
                inr (errors.Wrap err
                       "mar: failed to asn1 marshal crypto11 rsa public key")
            | inl publicKeyBytes =>
                inl {| Configuration :=
                         built conf (EncodeToString publicKeyBytes);
                       signingKey := key; publicKey := pub;
                       rand := PKCS11RandReader;
                       defaultSigAlg := SigAlgRsaPkcs1Sha384 |}
            end
        | ecdsa_PrivateKey name =>
            match MarshalPKIXPublicKey pub with
            | inr err =>
                inr (errors.Wrap err
                       "mar: failed to asn1 marshal ecdsa public key")
            | inl publicKeyBytes =>
                match ecdsa_default name with
                | inr err => inr err
                | inl alg =>
                    inl {| Configuration :=
                             built conf (EncodeToString publicKeyBytes);
                           signingKey := key; publicKey := pub;
                           rand := rand_Reader; defaultSigAlg := alg |}
                end
            end
        | PKCS11PrivateKeyECDSA name =>
            match MarshalPKIXPublicKey pub with
            | inr err =>
                inr (errors.Wrap err
                       "mar: failed to asn1 marshal crypto11 ecdsa public key")
            | inl publicKeyBytes =>
                match ecdsa_default name with
                | inr err => inr err
                | inl alg =>
                    inl {| Configuration :=
                             built conf (EncodeToString publicKeyBytes);
                           signingKey := key; publicKey := pub;
                           rand := PKCS11RandReader; defaultSigAlg := alg |}
                end
            end
        | other_PrivateKey type =>
            inr (errors.Errorf "mar: unsupported public key type %T"
                               [argString type])
        end
    end.

(** [Config] returns the configuration of the current signer. *)
Definition Config (s : MARSigner) : signer.Configuration :=
  {| signer.ID := signer.ID (Configuration s);
     signer.Type_ := signer.Type_ (Configuration s);
     signer.Mode := "";
     signer.PrivateKey := signer.PrivateKey (Configuration s);
     signer.PublicKey := signer.PublicKey (Configuration s);
     signer.X5U := ""; signer.Validity := 0;
     signer.ClockSkewTolerance := 0; signer.ChainUploadLocation := "";
     signer.CaCert := ""; signer.DB := None |}.

(** [if opt.SigAlg == 0 { opt.SigAlg = s.defaultSigAlg }] *)
Definition or_default (s : MARSigner) (opt : Options) : Options :=
  if N.eqb (SigAlg opt) 0 then {| SigAlg := defaultSigAlg s |} else opt.

(** [SignHash] signs the hash of the signable data of a MAR file. *)
Definition SignHash (s : MARSigner) (hashed : list byte) (options : any)
  : option Signature * option error :=
  match GetOptions options with
  | (opt, Some err) =>
      (None, Some (errors.Wrap err "mar: failed to get options"))
  | (opt, None) =>
      let opt := or_default s opt in
      match margo_Sign (signingKey s) (rand s) hashed (SigAlg opt) with
      | inr err => (None, Some (errors.Wrap err "mar: failed to sign"))
      | inl data => (Some {| Data := data |}, None)
      end
  end.

(** [SignData] hashes a MAR file marshalled for signature and signs the
    hash. *)
Definition SignData (s : MARSigner) (data : list byte) (options : any)
  : option Signature * option error :=
  match GetOptions options with
  | (opt, Some err) =>
      (None, Some (errors.Wrap err "mar: failed to get options"))
  | (opt, None) =>
      let opt := or_default s opt in
      match margo_Hash data (SigAlg opt) with
      | inr err => (None, Some (errors.Wrap err "mar: failed to hash input"))
      | inl hashed => SignHash s hashed options
      end
  end.

(** [Marshal] returns the base64 representation of a signature. *)
Definition Marshal (sig : Signature) : string * option error :=
  (EncodeToString (Data sig), None).

(** An [Options] value held in an [interface{}], as [json.Marshal] sees it
    through the tag of its field. *)
Definition any_of_Options (o : Options) : any :=
  Map [("sigalg", Integer (Z.of_N (SigAlg o)))].

(** [GetDefaultOptions] returns default options of the signer. *)
Definition GetDefaultOptions (s : MARSigner) : any :=
  any_of_Options {| SigAlg := defaultSigAlg s |}.

End Signer.

Section Files.

Context {margo : Margo} {files : MargoFile}.

(** [SignFile] takes a MAR file and returns a signed MAR file. *)
Definition SignFile (s : MARSigner) (input : list byte) (options : any)
  : option (list byte) * option error :=
  match margo_Unmarshal input with
  | inr err =>
      (None, Some (errors.Wrap err "mar: failed to unmarshal input file"))
  | inl (_, _, rest) =>
      let marFile := (0%N, [], rest) in
      match PrepareSignature marFile (signingKey s) (publicKey s) with
      | inr err =>
          (None, Some (errors.Wrap err "mar: failed to prepare signature"))
      | inl marFile =>
          match FinalizeSignatures marFile with
          | inr err =>
              (None,
               Some (errors.Wrap err "mar: failed to finalize signature"))
          | inl marFile =>
              match margo_Marshal marFile with
              | inr err =>
                  (None,
                   Some (errors.Wrap err "mar: failed to marshal signed file"))
              | inl output => (Some output, None)
              end
          end
      end
  end.

End Files.

End mar_signer.

Module mar_example.

(** A MAR library that hashes to as many zero bytes as the algorithm
    number says and signs by putting the algorithm number in front. *)
#[export] Instance margo0 : Margo :=
  {| GetPrivateKey := fun conf =>
       if String.eqb (signer.PrivateKey conf) "rsa" then inl rsa_PrivateKey
       else if String.eqb (signer.PrivateKey conf) "hsm-rsa"
            then inl PKCS11PrivateKeyRSA
       else if String.eqb (signer.PrivateKey conf) "dsa"
            then inl (other_PrivateKey "*dsa.PrivateKey")
       else inl (ecdsa_PrivateKey (signer.PrivateKey conf));
     MarshalPKIXPublicKey := fun pub =>
       match pub with
       | other_PublicKey =>
           inr (errorString "x509: unsupported public key type")
       | _ => inl [x30; x82]
       end;
     EncodeToString := fun _ => "MII=";
     SigAlgRsaPkcs1Sha384 := 2;
     SigAlgEcdsaP256Sha256 := 3;
     SigAlgEcdsaP384Sha384 := 4;
     margo_Hash := fun data alg =>
       if N.leb alg 4 then inl (repeat x00 (N.to_nat alg))
       else inr (errorString "unsupported signature algorithm");
     margo_Sign := fun key _ hashed alg =>
       if N.leb alg 4
       then inl (match Byte.of_N alg with Some b => b | None => x00 end
                 :: hashed)
       else inr (errorString "unsupported signature algorithm") |}.

Definition conf0 (key : string) : signer.Configuration :=
  {| signer.ID := "mar-release"; signer.Type_ := "mar"; signer.Mode := "";
     signer.PrivateKey := key; signer.PublicKey := ""; signer.X5U := "";
     signer.Validity := 0; signer.ClockSkewTolerance := 0;
     signer.ChainUploadLocation := ""; signer.CaCert := "";
     signer.DB := None |}.

Definition signer0 : mar_signer.MARSigner :=
  {| mar_signer.Configuration := conf0 "P-384";
     mar_signer.signingKey := ecdsa_PrivateKey "P-384";
     mar_signer.publicKey := ecdsa_PublicKey "P-384";
     mar_signer.rand := rand_Reader;
     mar_signer.defaultSigAlg := 4 |}.

(** A container format of one byte that counts the signatures, the
    signatures of one byte each, and the content. *)
#[export] Instance files0 : MargoFile :=
  {| rest_of_file := list byte;
     file_signature := byte;
     margo_Unmarshal := fun input =>
       match input with
       | [] => inr (errorString "mar: file too small")
       | n :: body =>
           let k := N.to_nat (Byte.to_N n) in
           inl (Byte.to_N n, firstn k body, skipn k body)
       end;
     PrepareSignature := fun f key pub =>
       match pub with
       | other_PublicKey => inr (errorString "mar: unsupported key")
       | _ => let '(n, sigs, rest) := f in inl (N.succ n, x00 :: sigs, rest)
       end;
     FinalizeSignatures := fun f =>
       let '(n, sigs, rest) := f in inl (n, map (fun _ => xff) sigs, rest);
     margo_Marshal := fun f =>
       let '(n, sigs, rest) := f in
       inl (match Byte.of_N n with Some b => b | None => xff end
            :: sigs ++ rest) |}.

End mar_example.

(** ** The monitor *)

Module monitor.

(** A signature response of the service. *)
Record signatureresponse : Type := {
  Ref : string;
  Type_ : string;
  Mode : string;
  SignerID : string;
  PublicKey : string;
  Signature : string;
  SignedFile : string;
  X5U : string
}.

Definition inputdata : string := "AUTOGRAPH MONITORING".

(** The type names of the signer packages that are not part of the
    sources, and the verification routines. *)
Class Verifiers : Type := {
  contentsignature_Type : string;
  xpi_Type : string;
  apk_Type : string;
  rsapss_Type : string;
  pgp_Type : string;
  gpg2_Type : string;
  verifyContentSignature : signatureresponse -> option error;
  contentsignaturepki_Verify : string -> string -> list byte -> option error;
  verifyXPISignature : string -> option error;
  verifyAPKSignature : string -> option error;
  verifyMARSignature : string -> string -> option error;
  verifyRsapssSignature : string -> string -> option error
}.

Section Handler.

Context {verifiers : Verifiers}.

(** The switch on the type of a response: [None] when the loop continues
    without a verdict (PGP), otherwise the error of the verification. *)
Definition verify (response : signatureresponse) : option (option error) :=
  let t := Type_ response in
  if String.eqb t contentsignature_Type then
    Some (verifyContentSignature response)
  else if String.eqb t contentsignaturepki.Type_ then
    Some (contentsignaturepki_Verify (X5U response) (Signature response)
            (list_byte_of_string inputdata))
  else if String.eqb t xpi_Type then
    Some (verifyXPISignature (Signature response))
  else if String.eqb t apk_Type then
    Some (verifyAPKSignature (Signature response))
  else if String.eqb t mar_signer.Type_ then
    Some (verifyMARSignature (Signature response) (PublicKey response))
  else if String.eqb t rsapss_Type then
    Some (verifyRsapssSignature (Signature response) (PublicKey response))
  else if String.eqb t pgp_Type || String.eqb t gpg2_Type then None
  else
    Some (Some (errors.Errorf "unknown signature type %q" [argString t])).

(** The loop over the responses, with the flag and the failures it
    collects. *)
Fixpoint collect (responses : list signatureresponse)
    (failed : bool) (failures : list error) : bool * list error :=
  match responses with
  | [] => (failed, failures)
  | response :: rest =>
      match verify response with
      | None => collect rest failed failures
      | Some (Some err) => collect rest true (failures ++ [err])
      | Some None => collect rest failed failures
      end
  end.

Definition newline : string := String (ascii_of_nat 10) EmptyString.

(** The loop that numbers the failures from 1. *)
Fixpoint enumerate (failures : list error) (i : Z) (failure : string)
  : string :=
  match failures with
  | [] => failure
  | fail :: rest =>
      enumerate rest (i + 1)
        (failure ++ Sprintf (newline ++ "%d. %s")
                            [argInt (i + 1); argString (Error fail)])
  end.

(** [Handler] from the decoded responses on (lines 134 to 181): it
    verifies all monitoring signatures. *)
Definition Handler_verify (responses : list signatureresponse)
  : option error :=
  let '(failed, failures) := collect responses false [] in
  if failed then
    Some (errors.Errorf
            (enumerate failures 0 "Errors found during monitoring:") [])
  else None.

End Handler.

(** The process of the monitor as far as [sendSoftNotification] touches
    it: the cache of the notifications sent, the clock, the two variables
    of the environment, the messages published with their topic, and what
    the notification service answers to the coming publications. *)
Record process : Type := {
  softNotifCache : list (string * Z);
  now : Z;
  LAMBDA_TASK_ROOT : string;
  AUTOGRAPH_SOFT_NOTIFICATION_SNS : string;
  published : list (string * string);
  sns : list (option error)
}.

(** [softNotifCache[id]] *)
Fixpoint lookup (id : string) (cache : list (string * Z)) : option Z :=
  match cache with
  | [] => None
  | (k, ts) :: rest => if String.eqb k id then Some ts else lookup id rest
  end.

(** [softNotifCache[id] = ts] *)
Fixpoint store (id : string) (ts : Z) (cache : list (string * Z))
  : list (string * Z) :=
  match cache with
  | [] => [(id, ts)]
  | (k, t) :: rest =>
      if String.eqb k id then (k, ts) :: rest else (k, t) :: store id ts rest
  end.

Definition time_Hour : Z := 3600 * 1000000000.

(** [sendSoftNotification] sends a message to a predefined topic. *)
Definition sendSoftNotification (id format : string) (a : list fmtarg)
    (p : process) : process * option error :=
  let silenced :=
    match lookup id (softNotifCache p) with
    | Some ts => (now p <? ts + 24 * time_Hour)%Z
    | None => false
    end in
  if silenced then (p, None)
  else if String.eqb (LAMBDA_TASK_ROOT p) ""
          || String.eqb (AUTOGRAPH_SOFT_NOTIFICATION_SNS p) "" then
    (p, None)
  else
    let message := Sprintf format a in
    let answer := match sns p with [] => None | e :: _ => e end in
    let p :=
      {| softNotifCache := softNotifCache p; now := now p;
         LAMBDA_TASK_ROOT := LAMBDA_TASK_ROOT p;
         AUTOGRAPH_SOFT_NOTIFICATION_SNS := AUTOGRAPH_SOFT_NOTIFICATION_SNS p;
         published := published p; sns := tl (sns p) |} in
    match answer with
    | Some err => (p, Some err)
    | None =>
        ({| softNotifCache := store id (now p) (softNotifCache p);
            now := now p;
            LAMBDA_TASK_ROOT := LAMBDA_TASK_ROOT p;
            AUTOGRAPH_SOFT_NOTIFICATION_SNS :=
              AUTOGRAPH_SOFT_NOTIFICATION_SNS p;
            published :=
              published p ++ [(AUTOGRAPH_SOFT_NOTIFICATION_SNS p, message)];
            sns := sns p |},
         None)
    end.

(** Time goes by. *)
Definition later (d : Z) (p : process) : process :=
  {| softNotifCache := softNotifCache p; now := now p + d;
     LAMBDA_TASK_ROOT := LAMBDA_TASK_ROOT p;
     AUTOGRAPH_SOFT_NOTIFICATION_SNS := AUTOGRAPH_SOFT_NOTIFICATION_SNS p;
     published := published p; sns := sns p |}.

(** Example verifiers that accept the signature [ok]. *)
#[export] Instance verifiers0 : Verifiers :=
  {| contentsignature_Type := "contentsignature";
     xpi_Type := "xpi"; apk_Type := "apk"; rsapss_Type := "rsapss";
     pgp_Type := "pgp"; gpg2_Type := "gpg2";
     verifyContentSignature := fun r =>
       if String.eqb (Signature r) "ok" then None
       else Some (errorString "signature verification failed");
     contentsignaturepki_Verify := fun x5u sig _ =>
       if String.eqb sig "ok" then None
       else Some (errorString "signature verification failed");
     verifyXPISignature := fun sig =>
       if String.eqb sig "ok" then None
       else Some (errorString "signature verification failed");
     verifyAPKSignature := fun sig =>
       if String.eqb sig "ok" then None
       else Some (errorString "signature verification failed");
     verifyMARSignature := fun sig _ =>
       if String.eqb sig "ok" then None
       else Some (errorString "signature verification failed");
     verifyRsapssSignature := fun sig _ =>
       if String.eqb sig "ok" then None
       else Some (errorString "signature verification failed") |}.

Definition response0 (type sig : string) : signatureresponse :=
  {| Ref := ""; Type_ := type; Mode := ""; SignerID := "signer";
     PublicKey := ""; Signature := sig; SignedFile := ""; X5U := "" |}.

Definition process0 : process :=
  {| softNotifCache := []; now := 1000;
     LAMBDA_TASK_ROOT := "/var/task";
     AUTOGRAPH_SOFT_NOTIFICATION_SNS := "arn:aws:sns:autograph";
     published := []; sns := [] |}.

End monitor.

(** * Properties *)

(** ** The end-entity store *)

Module database_facts.

Import endentities database.

Lemma answer_healthy tx :
  healthy tx ->
  exists tx', answer tx = (tx', None) /\ healthy tx' /\
              table tx' = table tx /\ now tx' = now tx /\
              serial tx' = serial tx /\ saved tx' = saved tx.
Proof.
  intros [Hd Hf]. unfold answer. rewrite Hd.
  destruct (driver tx) as [|a d] eqn:E.
  - exists tx. repeat split; auto. rewrite E. constructor.
  - inversion Hf; subst. exists (with_driver d tx).
    repeat split; auto.
Qed.

Lemma healthy_elapse d tx : healthy tx -> healthy (elapse d tx).
Proof. intros [Hd Hf]. split; assumption. Qed.

(** A successful insertion appends the row and demotes the other keys of
    the signer. *)
Lemma InsertEE_healthy x l s h tx :
  healthy tx ->
  exists tx',
    InsertEE x l s h tx = (tx', None) /\ healthy tx' /\
    now tx' = now tx /\
    table tx' =
      map (fun r => if other_key s l r then set_not_current r else r)
          (table tx ++ [inserted x l s h tx]).
Proof.
  intros H. unfold InsertEE, Exec.
  destruct (answer_healthy tx H) as (tx1 & E1 & H1 & T1 & N1 & S1 & _).
  rewrite E1.
  assert (H1' : healthy (apply (INSERT_INTO_endentities x l s h true) tx1)).
  { destruct H1 as [Hd Hf]. split; assumption. }
  destruct (answer_healthy _ H1') as (tx2 & E2 & H2 & T2 & N2 & S2 & _).
  rewrite E2. eexists. split; [reflexivity|].
  split; [destruct H2; split; assumption|].
  split; [simpl; rewrite N2; simpl; exact N1|].
  simpl. rewrite T2. simpl. unfold inserted. rewrite T1, N1, S1.
  reflexivity.
Qed.

Lemma demote_label s l r :
  label (if other_key s l r then set_not_current r else r) = label r.
Proof. destruct (other_key s l r); reflexivity. Qed.

Lemma demote_signer s l r :
  signer_id (if other_key s l r then set_not_current r else r) = signer_id r.
Proof. destruct (other_key s l r); reflexivity. Qed.

(** The update leaves no older row of the signer current when the label
    is new for the signer. *)
Lemma current_rows_demoted s l t :
  fresh s l t ->
  current_rows s
    (map (fun r => if other_key s l r then set_not_current r else r) t) = [].
Proof.
  induction t as [|r t IH]; intros Hf; [reflexivity|].
  assert (Ht : fresh s l t) by (intros r' Hr'; apply Hf; right; exact Hr').
  specialize (IH Ht). unfold current_rows in *. simpl. rewrite IH.
  unfold other_key.
  destruct (String.eqb (signer_id r) s) eqn:Es; simpl.
  - apply String.eqb_eq in Es.
    assert (Hl : label r <> l) by (apply Hf; [left; reflexivity|exact Es]).
    apply String.eqb_neq in Hl. rewrite Hl. simpl. reflexivity.
  - rewrite Es, andb_false_r. reflexivity.
Qed.

Lemma current_rows_after_insert s l t new :
  fresh s l t -> signer_id new = s -> label new = l ->
  is_current new = true ->
  current_rows s
    (map (fun r => if other_key s l r then set_not_current r else r)
         (t ++ [new])) = [new].
Proof.
  intros Hf Hs Hl Hc. rewrite map_app. unfold current_rows.
  rewrite filter_app.
  pose proof (current_rows_demoted s l t Hf) as Hd.
  unfold current_rows in Hd. rewrite Hd. simpl.
  unfold other_key. rewrite Hl, String.eqb_refl, andb_false_r.
  rewrite Hc, Hs, String.eqb_refl. reflexivity.
Qed.

Lemma fresh_after_insert s l l' t new :
  fresh s l' t -> label new = l -> l <> l' ->
  fresh s l'
    (map (fun r => if other_key s l r then set_not_current r else r)
         (t ++ [new])).
Proof.
  intros Hf Hl Hne r Hin Hs.
  apply in_map_iff in Hin. destruct Hin as (r0 & <- & Hin).
  rewrite demote_label. rewrite demote_signer in Hs.
  apply in_app_iff in Hin. destruct Hin as [Hin|[<-|[]]].
  - apply Hf; assumption.
  - rewrite Hl. exact Hne.
Qed.

Lemma demote_inserted s l t new :
  label new = l ->
  map (fun r => if other_key s l r then set_not_current r else r)
      (t ++ [new]) =
  map (fun r => if other_key s l r then set_not_current r else r) t
  ++ [new].
Proof.
  intros Hl. rewrite map_app. simpl. unfold other_key at 2.
  rewrite Hl, String.eqb_refl, andb_false_r. reflexivity.
Qed.

Lemma filter_qualifies s m t :
  filter (qualifies s m) t =
  filter (fun r => (m <? created_at r)%Z) (current_rows s t).
Proof.
  unfold current_rows, qualifies. induction t as [|r t IH]; [reflexivity|].
  simpl. destruct (is_current r && String.eqb (signer_id r) s); simpl.
  - rewrite IH. reflexivity.
  - exact IH.
Qed.

(** With a single current row young enough, the lookup returns it. *)
Lemma GetLabelOfLatestEE_single s y tx r :
  healthy tx -> current_rows s (table tx) = [r] ->
  (now tx - y < created_at r)%Z ->
  snd (GetLabelOfLatestEE s y tx) =
  (label r, match x5u r with Some v => v | None => "" end, None).
Proof.
  intros H Hc Hy. unfold GetLabelOfLatestEE, QueryRow_Scan.
  destruct (answer_healthy tx H) as (tx1 & E1 & _ & T1 & _).
  rewrite E1, T1, filter_qualifies, Hc. simpl.
  apply Z.ltb_lt in Hy. rewrite Hy. simpl. reflexivity.
Qed.

(** The state after the last call of a sequence of successful calls. *)
Lemma InsertEEs_last s before : forall tx c,
  healthy tx ->
  NoDup (map arg_label (before ++ [c])) ->
  (forall l, In l (map arg_label (before ++ [c])) -> fresh s l (table tx)) ->
  exists tx' errs older txb,
    InsertEEs s (before ++ [c]) tx = (tx', errs) /\
    Forall (fun e => e = None) errs /\ healthy tx' /\
    now tx' = now txb /\
    table tx' =
      older ++ [inserted (arg_x5u c) (arg_label c) s (arg_hsmHandle c) txb] /\
    current_rows s (table tx') =
      [inserted (arg_x5u c) (arg_label c) s (arg_hsmHandle c) txb].
Proof.
  induction before as [|c0 before IH]; intros tx c H Hnd Hfresh.
  - simpl.
    destruct (InsertEE_healthy (arg_x5u c) (arg_label c) s (arg_hsmHandle c)
                (elapse (delay c) tx) (healthy_elapse _ _ H))
      as (tx' & E & H' & N' & T').
    rewrite E.
    exists tx', [None]. eexists. exists (elapse (delay c) tx).
    split; [reflexivity|]. split; [repeat constructor|].
    split; [exact H'|]. split; [exact N'|].
    split; [rewrite T'; apply demote_inserted; reflexivity|].
    rewrite T'. apply current_rows_after_insert; try reflexivity.
    apply Hfresh. simpl. left. reflexivity.
  - simpl.
    destruct (InsertEE_healthy (arg_x5u c0) (arg_label c0) s
                (arg_hsmHandle c0) (elapse (delay c0) tx)
                (healthy_elapse _ _ H))
      as (tx1 & E & H1 & N1 & T1).
    rewrite E. simpl in Hnd. inversion Hnd as [|? ? Hnotin Hnd']; subst.
    destruct (IH tx1 c H1 Hnd') as
      (tx' & errs & older & txb & E' & He & H' & N' & T' & C').
    { intros l Hl. rewrite T1. apply fresh_after_insert.
      - apply Hfresh. simpl. right. exact Hl.
      - reflexivity.
      - intros Heq. apply Hnotin. rewrite Heq. exact Hl. }
    rewrite E'. exists tx', (None :: errs), older, txb.
    split; [reflexivity|]. split; [constructor; [reflexivity|exact He]|].
    split; [exact H'|]. split; [exact N'|]. split; assumption.
Qed.

(** C1. In a sequence of [InsertEE] calls for one signer with pairwise
    distinct labels (new for that signer), run in an open transaction
    whose statements the driver accepts, every call succeeds and after
    each call exactly one row of the signer is current: the row this call
    inserted, which is the last row of the table.  A lookup whose age
    bound exceeds the time gone by since that call returns the row's
    label and chain location. *)
Theorem InsertEE_sequence_one_current
    (signerID : string) (tx : Transaction)
    (before : list call) (c : call) (after : list call) :
  healthy tx ->
  NoDup (map arg_label (before ++ c :: after)) ->
  (forall l, In l (map arg_label (before ++ c :: after)) ->
             fresh signerID l (table tx)) ->
  exists tx' errs older r,
    InsertEEs signerID (before ++ [c]) tx = (tx', errs) /\
    Forall (fun e => e = None) errs /\
    table tx' = older ++ [r] /\
    current_rows signerID (table tx') = [r] /\
    is_current r = true /\ signer_id r = signerID /\
    label r = arg_label c /\ x5u r = Some (arg_x5u c) /\
    hsm_handle r = arg_hsmHandle c /\
    forall d youngerThan, (d < youngerThan)%Z ->
      snd (GetLabelOfLatestEE signerID youngerThan (elapse d tx')) =
      (arg_label c, arg_x5u c, None).
Proof.
  intros H Hnd Hfresh.
  assert (Hsplit : before ++ c :: after = (before ++ [c]) ++ after)
    by (rewrite <- app_assoc; reflexivity).
  rewrite Hsplit in Hnd, Hfresh. rewrite map_app in Hnd, Hfresh.
  destruct (InsertEEs_last signerID before tx c H) as
    (tx' & errs & older & txb & E & He & H' & N' & T' & C').
  { eapply NoDup_app_remove_r. exact Hnd. }
  { intros l Hl. apply Hfresh. apply in_app_iff. left. exact Hl. }
  exists tx', errs, older. eexists.
  split; [exact E|]. split; [exact He|]. split; [exact T'|].
  split; [exact C'|]. repeat (split; [reflexivity|]).
  intros d y Hd.
  rewrite (GetLabelOfLatestEE_single signerID y (elapse d tx') _
             (healthy_elapse _ _ H') C').
  - reflexivity.
  - simpl. rewrite N'. lia.
Qed.

(** The sequence [calls0] on the example state [tx0]. *)
Lemma InsertEE_sequence_one_current_witness :
  exists tx' errs older r,
    InsertEEs "remote-settings" calls0 tx0 = (tx', errs) /\
    Forall (fun e => e = None) errs /\
    table tx' = older ++ [r] /\
    current_rows "remote-settings" (table tx') = [r] /\
    is_current r = true /\ signer_id r = "remote-settings" /\
    label r = "rs-20190301" /\ x5u r = Some "https://cdn/b.chain" /\
    hsm_handle r = 22%N /\
    forall d youngerThan, (d < youngerThan)%Z ->
      snd (GetLabelOfLatestEE "remote-settings" youngerThan (elapse d tx')) =
      ("rs-20190301", "https://cdn/b.chain", None).
Proof.
  apply (InsertEE_sequence_one_current "remote-settings" tx0
           [ {| delay := 5%Z; arg_x5u := "https://cdn/a.chain";
                arg_label := "rs-20190201"; arg_hsmHandle := 21%N |} ]
           {| delay := 60%Z; arg_x5u := "https://cdn/b.chain";
              arg_label := "rs-20190301"; arg_hsmHandle := 22%N |}
           []).
  - split; [reflexivity|constructor].
  - simpl. repeat constructor; simpl; intuition discriminate.
  - simpl. intros l [<-|[<-|[]]] r [<-|[<-|[]]]; simpl;
      intros; discriminate.
Defined.

(** Without a qualifying row the lookup returns the distinguished
    error. *)
Lemma GetLabelOfLatestEE_no_row s y tx :
  healthy tx ->
  filter (qualifies s (now tx - y)) (table tx) = [] ->
  snd (GetLabelOfLatestEE s y tx) = ("", "", Some ErrNoSuitableEEFound).
Proof.
  intros H Hq. unfold GetLabelOfLatestEE, QueryRow_Scan.
  destruct (answer_healthy tx H) as (tx1 & E1 & _ & T1 & _).
  rewrite E1, T1, Hq. reflexivity.
Qed.

(** A query the driver refuses with anything but [sql.ErrNoRows] leaves
    the lookup with empty results and a nil error: the error of [Scan] is
    overwritten by the nil error of [nullableX5U.Value()]. *)
Lemma GetLabelOfLatestEE_refused s y e tx :
  done tx = false -> e <> ErrNoRows ->
  snd (GetLabelOfLatestEE s y (refused e tx)) = ("", "", None).
Proof.
  intros Hd He. unfold GetLabelOfLatestEE, QueryRow_Scan, answer, refused.
  simpl. rewrite Hd. simpl. destruct e; try reflexivity. contradiction.
Qed.

(** The same on a transaction that was rolled back: [sql.ErrTxDone] is
    dropped too. *)
Lemma GetLabelOfLatestEE_done s y tx :
  done tx = true ->
  snd (GetLabelOfLatestEE s y tx) = ("", "", None).
Proof.
  intros Hd. unfold GetLabelOfLatestEE, QueryRow_Scan, answer.
  rewrite Hd. reflexivity.
Qed.

(** C2. On the example state, a lookup whose query fails with a
    connection error returns the empty label, the empty chain location
    and a nil error, while a lookup for a signer without rows returns
    [ErrNoSuitableEEFound]. *)
Theorem GetLabelOfLatestEE_drops_query_error :
  snd (GetLabelOfLatestEE "remote-settings" 3600
         (refused (errorString "driver: bad connection") tx0))
  = ("", "", None)
  /\ snd (GetLabelOfLatestEE "absent" 3600 tx0)
     = ("", "", Some ErrNoSuitableEEFound).
Proof. split; reflexivity. Qed.

End database_facts.

(** ** The content-signature PKI signer *)

Module contentsignaturepki_facts.

Import contentsignaturepki.

Section Signing.

Context {hashes : Hashes} {asn1 : ASN1}.

(** The two [copy] calls fill the buffer with the prefix followed by
    the data. *)
Lemma templated_bytes (prefix data : list byte) :
  let templated := make (List.length prefix + List.length data) in
  let templated := copy templated 0 (List.length prefix) prefix in
  copy templated (List.length prefix) (List.length templated) data
  = prefix ++ data.
Proof.
  cbv zeta.
  assert (H1 : copy (make (List.length prefix + List.length data)) 0
                    (List.length prefix) prefix
               = prefix ++ repeat x00 (List.length data)).
  { unfold copy, make. rewrite Nat.sub_0_r, Nat.min_id, firstn_all.
    simpl. f_equal. rewrite repeat_app, skipn_app, repeat_length.
    rewrite Nat.sub_diag. simpl.
    rewrite skipn_all2 by (rewrite repeat_length; lia). reflexivity. }
  rewrite H1. unfold copy.
  rewrite length_app, repeat_length.
  replace (List.length prefix + List.length data - List.length prefix)%nat
    with (List.length data) by lia.
  rewrite Nat.min_id, firstn_all.
  rewrite firstn_app, firstn_all, Nat.sub_diag. simpl.
  rewrite app_nil_r.
  rewrite skipn_all2 by (rewrite length_app, repeat_length; lia).
  rewrite app_nil_r. reflexivity.
Qed.

Lemma makeTemplatedHash_eq (data : list byte) (curvename : string) :
  makeTemplatedHash data curvename =
  let templated := list_byte_of_string SignaturePrefix ++ data in
  if String.eqb curvename P384ECDSA then
    ("sha384", sha512_New384 templated)
  else if String.eqb curvename P521ECDSA then
    ("sha512", sha512_New templated)
  else ("sha256", sha256_New templated).
Proof.
  unfold makeTemplatedHash.
  pose proof (templated_bytes (list_byte_of_string SignaturePrefix) data)
    as Ht.
  cbv zeta in Ht |- *. rewrite Ht. reflexivity.
Qed.

(** Whatever the mode, the templated hash has one of the three sizes
    [SignHash] accepts. *)
Lemma makeTemplatedHash_size (data : list byte) (curvename : string) :
  let n := List.length (snd (makeTemplatedHash data curvename)) in
  n = 32%nat \/ n = 48%nat \/ n = 64%nat.
Proof.
  rewrite makeTemplatedHash_eq. cbv zeta.
  destruct (String.eqb curvename P384ECDSA);
    [|destruct (String.eqb curvename P521ECDSA)]; simpl.
  - right; left. apply sha512_Size384.
  - right; right. apply sha512_Size.
  - left. apply sha256_Size.
Qed.

Lemma Errorf_InvalidHashLength (n : Z) :
  errors.Errorf
    "contentsignaturepki: refusing to sign input hash. length %d, expected 32, 48 or 64"
    [argInt n]
  = InvalidHashLength n.
Proof. reflexivity. Qed.

Lemma Errorf_InvalidInput :
  errors.Errorf
    "contentsignaturepki: refusing to sign input data shorter than 10 bytes"
    []
  = InvalidInput.
Proof. reflexivity. Qed.

(** What [SignHash] does once the size check is passed. *)
Lemma SignHash_accepted s input options :
  let n := Z.of_nat (List.length input) in
  (n = 32 \/ n = 48 \/ n = 64)%Z ->
  SignHash s input options =
  match issuerPriv s with
  | None =>
      Panic "interface conversion: interface is nil, not crypto.Signer"
  | Some priv =>
      match Sign priv input with
      | inr err =>
          Return (None,
                  Some (errors.Wrap err
                          "contentsignaturepki: failed to sign hash"))
      | inl asn1Sig =>
          match asn1_Unmarshal asn1Sig with
          | inr err =>
              Return (None,
                      Some (errors.Wrap err
                              "contentsignaturepki: failed to parse signature"))
          | inl ecdsaSig =>
              Return (Some {| R := Some (asn1_R ecdsaSig);
                              S := Some (asn1_S ecdsaSig);
                              HashName := "";
                              sig_Mode := Mode s; sig_X5U := X5U s;
                              sig_ID := ID s;
                              Len := getSignatureLen (Mode s);
                              Finished := true |},
                      None)
          end
      end
  end.
Proof.
  cbv zeta. intros Hn. unfold SignHash.
  destruct Hn as [Hn|[Hn|Hn]]; rewrite Hn; reflexivity.
Qed.

Lemma SignHash_rejected s input options :
  let n := Z.of_nat (List.length input) in
  (n <> 32 /\ n <> 48 /\ n <> 64)%Z ->
  SignHash s input options = Return (None, Some (InvalidHashLength n)).
Proof.
  cbv zeta. intros (H32 & H48 & H64). unfold SignHash.
  apply Z.eqb_neq in H32, H48, H64. rewrite H32, H48, H64. simpl.
  rewrite Errorf_InvalidHashLength. reflexivity.
Qed.

(** No run of [SignHash] past the size check ends in the error of the
    size check. *)
Lemma SignHash_accepted_not_InvalidHashLength s input options m :
  let n := Z.of_nat (List.length input) in
  (n = 32 \/ n = 48 \/ n = 64)%Z ->
  SignHash s input options <> Return (None, Some (InvalidHashLength m)).
Proof.
  cbv zeta. intros Hn. rewrite (SignHash_accepted s input options Hn).
  unfold InvalidHashLength, errors.Wrap.
  destruct (issuerPriv s) as [priv|]; [|discriminate].
  destruct (Sign priv input) as [der|e]; [|discriminate].
  destruct (asn1_Unmarshal der); discriminate.
Qed.

(** C5. [SignHash] answers with the error of the size check exactly
    when the digest is not 32, 48 or 64 bytes long: every other length
    is refused with it, and a digest of one of the three lengths gets
    past the check. *)
Theorem SignHash_length_check
    (s : ContentSigner) (input : list byte) (options : any) :
  let n := Z.of_nat (List.length input) in
  SignHash s input options = Return (None, Some (InvalidHashLength n))
  <-> (n <> 32 /\ n <> 48 /\ n <> 64)%Z.
Proof.
  cbv zeta. split.
  - intros Hr.
    destruct (Z.eq_dec (Z.of_nat (List.length input)) 32) as [H32|H32];
      [exfalso; revert Hr;
       apply SignHash_accepted_not_InvalidHashLength; auto|].
    destruct (Z.eq_dec (Z.of_nat (List.length input)) 48) as [H48|H48];
      [exfalso; revert Hr;
       apply SignHash_accepted_not_InvalidHashLength; auto|].
    destruct (Z.eq_dec (Z.of_nat (List.length input)) 64) as [H64|H64];
      [exfalso; revert Hr;
       apply SignHash_accepted_not_InvalidHashLength; auto|].
    auto.
  - apply SignHash_rejected.
Qed.


Lemma SignData_short s input options :
  (Z.of_nat (List.length input) < 10)%Z ->
  SignData s input options = Return (None, Some InvalidInput).
Proof.
  intros Hn. unfold SignData. apply Z.ltb_lt in Hn. rewrite Hn.
  rewrite Errorf_InvalidInput. reflexivity.
Qed.

(** From 10 bytes on, [SignData] is [SignHash] on the templated hash
    followed by the assertion and [storeHashName]. *)
Lemma SignData_long s input options :
  (10 <= Z.of_nat (List.length input))%Z ->
  SignData s input options =
  match SignHash s (snd (makeTemplatedHash input (Mode s))) options with
  | Panic msg => Panic msg
  | Return (None, err) =>
      Panic "interface conversion: signer.Signature is nil, not *contentsignaturepki.ContentSignature"
  | Return (Some sig, err) =>
      Return (Some (storeHashName
                      (fst (makeTemplatedHash input (Mode s))) sig), err)
  end.
Proof.
  intros Hn. unfold SignData. apply Z.ltb_ge in Hn. rewrite Hn.
  destruct (makeTemplatedHash input (Mode s)) as [alg hash].
  reflexivity.
Qed.

(** When [SignHash] returns an error [SignData] aborts: the nil
    signature is asserted to [*ContentSignature] before the error is
    returned. *)
Lemma SignData_aborts_on_error s input options err :
  (10 <= Z.of_nat (List.length input))%Z ->
  SignHash s (snd (makeTemplatedHash input (Mode s))) options
  = Return (None, Some err) ->
  SignData s input options =
  Panic "interface conversion: signer.Signature is nil, not *contentsignaturepki.ContentSignature".
Proof.
  intros Hn He. rewrite SignData_long by exact Hn. rewrite He.
  reflexivity.
Qed.

(** Called on its own, [SignHash] returns the failure of the signing
    primitive as an error. *)
Lemma SignHash_returns_signing_error s input options key err :
  (List.length input = 32 \/ List.length input = 48
   \/ List.length input = 64)%nat ->
  issuerPriv s = Some key -> Sign key input = inr err ->
  SignHash s input options =
  Return (None,
          Some (withMessage err "contentsignaturepki: failed to sign hash")).
Proof.
  intros Hn Hk Hs. rewrite SignHash_accepted by lia.
  rewrite Hk, Hs. reflexivity.
Qed.

Lemma spec_hash_makeTemplatedHash (data : list byte) (mode alg : string)
    (H : list byte -> list byte) :
  spec_hash mode = Some (alg, H) ->
  makeTemplatedHash data mode =
  (alg, H (list_byte_of_string SignaturePrefix ++ data)).
Proof.
  unfold spec_hash. rewrite makeTemplatedHash_eq. cbv zeta.
  destruct (String.eqb mode P256ECDSA) eqn:E256.
  - apply String.eqb_eq in E256. subst mode.
    intros Hs. inversion Hs; subst. reflexivity.
  - destruct (String.eqb mode P384ECDSA).
    + intros Hs. inversion Hs; subst. reflexivity.
    + destruct (String.eqb mode P521ECDSA); [|discriminate].
      intros Hs. inversion Hs; subst. reflexivity.
Qed.

(** Every signature [SignData] returns carries the algorithm name of
    the templated hash. *)
Lemma SignData_records_hash_name s input options sig err :
  (10 <= Z.of_nat (List.length input))%Z ->
  SignData s input options = Return (sig, err) ->
  exists csig,
    sig = Some csig /\
    HashName csig = fst (makeTemplatedHash input (Mode s)).
Proof.
  intros Hn. rewrite SignData_long by exact Hn.
  destruct (SignHash s (snd (makeTemplatedHash input (Mode s))) options)
    as [[[csig|] e]|msg]; try discriminate.
  intros Hr. inversion Hr; subst. eexists. split; reflexivity.
Qed.

(** C4. [SignData] refuses an input shorter than 10 bytes with the
    error of the input check.  For an input of at least 10 bytes, the
    digest handed to [SignHash] is the hash of the 19 bytes
    [Content-Signature:] and zero followed by the input, taken with
    SHA-256 in mode p256ecdsa, SHA-384 in mode p384ecdsa and SHA-512 in
    mode p521ecdsa; every signature [SignData] returns carries the name
    of that hash (sha256, sha384, sha512); and when the issuer key signs
    the digest and the DER signature parses, [SignData] returns such a
    signature with a nil error. *)
Theorem SignData_templated_hash
    (s : ContentSigner) (input : list byte) (options : any) :
  let prefix :=
    [x43; x6f; x6e; x74; x65; x6e; x74; x2d; x53; x69; x67; x6e; x61; x74;
     x75; x72; x65; x3a; x00] in
  ((Z.of_nat (List.length input) < 10)%Z ->
   SignData s input options = Return (None, Some InvalidInput))
  /\
  ((10 <= Z.of_nat (List.length input))%Z ->
   forall (alg : string) (H : list byte -> list byte),
     (Mode s = "p256ecdsa" /\ alg = "sha256" /\ H = sha256_New) \/
     (Mode s = "p384ecdsa" /\ alg = "sha384" /\ H = sha512_New384) \/
     (Mode s = "p521ecdsa" /\ alg = "sha512" /\ H = sha512_New) ->
     let digest := H (prefix ++ input) in
     makeTemplatedHash input (Mode s) = (alg, digest) /\
     (forall sig err,
        SignData s input options = Return (sig, err) ->
        exists csig, sig = Some csig /\ HashName csig = alg) /\
     (forall key der parsed,
        issuerPriv s = Some key ->
        Sign key digest = inl der ->
        asn1_Unmarshal der = inl parsed ->
        exists csig,
          SignData s input options = Return (Some csig, None) /\
          HashName csig = alg /\ sig_Mode csig = Mode s /\
          R csig = Some (asn1_R parsed) /\
          S csig = Some (asn1_S parsed) /\ Finished csig = true)).
Proof.
  intros prefix. split; [apply SignData_short|].
  intros Hn alg H Hmode digest.
  assert (Hspec : spec_hash (Mode s) = Some (alg, H)).
  { destruct Hmode as [(-> & -> & ->)|[(-> & -> & ->)|(-> & -> & ->)]];
      reflexivity. }
  pose proof (spec_hash_makeTemplatedHash input _ _ _ Hspec) as Hm.
  change (list_byte_of_string SignaturePrefix) with prefix in Hm.
  fold digest in Hm. split; [exact Hm|]. split.
  - intros sig err Hr.
    destruct (SignData_records_hash_name s input options sig err Hn Hr)
      as (csig & -> & Hh).
    exists csig. split; [reflexivity|]. rewrite Hh, Hm. reflexivity.
  - intros key der parsed Hk Hs Hp.
    rewrite SignData_long by exact Hn. rewrite Hm. simpl.
    assert (Hlen : (Z.of_nat (List.length digest) = 32
                    \/ Z.of_nat (List.length digest) = 48
                    \/ Z.of_nat (List.length digest) = 64)%Z).
    { pose proof (makeTemplatedHash_size input (Mode s)) as Hsz.
      cbv zeta in Hsz. rewrite Hm in Hsz. simpl in Hsz. lia. }
    rewrite (SignHash_accepted s digest options Hlen).
    rewrite Hk, Hs, Hp. eexists. split; [reflexivity|].
    simpl. repeat split; reflexivity.
Qed.

(** [SignHash] reads the mode only to fill the fields of the
    signature: whether it returns a signature does not depend on the
    mode. *)
Lemma SignHash_any_mode s input options mode :
  (exists sig, SignHash s input options = Return (Some sig, None)) <->
  (exists sig,
     SignHash (with_Mode mode s) input options = Return (Some sig, None)).
Proof.
  unfold SignHash. simpl.
  destruct (negb (Z.of_nat (List.length input) =? 32)%Z
            && negb (Z.of_nat (List.length input) =? 48)%Z
            && negb (Z.of_nat (List.length input) =? 64)%Z).
  - split; intros [sig Hs]; discriminate.
  - destruct (issuerPriv s) as [priv|].
    + destruct (Sign priv input) as [der|e].
      * destruct (asn1_Unmarshal der).
        -- split; intros _; eexists; reflexivity.
        -- split; intros [sig Hs]; discriminate.
      * split; intros [sig Hs]; discriminate.
    + split; intros [sig Hs]; discriminate.
Qed.

(** C10. In every mode other than p384ecdsa and p521ecdsa the templated
    hash is the SHA-256 of the prefix followed by the data under the
    name sha256; it has 32 bytes, [SignHash] does not refuse it for its
    length and returns a signature for it exactly when it does so in
    mode p256ecdsa; and for an input of at least 10 bytes whose digest
    the issuer key signs, [SignData] returns a signature that records
    sha256 and the signer's mode. *)
Theorem unknown_mode_uses_sha256
    (s : ContentSigner) (input : list byte) (options : any) :
  Mode s <> P384ECDSA -> Mode s <> P521ECDSA ->
  let digest :=
    sha256_New (list_byte_of_string SignaturePrefix ++ input) in
  makeTemplatedHash input (Mode s) = ("sha256", digest) /\
  List.length digest = 32%nat /\
  (forall n,
     SignHash s digest options
     <> Return (None, Some (InvalidHashLength n))) /\
  ((exists sig, SignHash s digest options = Return (Some sig, None)) <->
   (exists sig,
      SignHash (with_Mode P256ECDSA s) digest options
      = Return (Some sig, None))) /\
  (forall key der parsed,
     (10 <= Z.of_nat (List.length input))%Z ->
     issuerPriv s = Some key ->
     Sign key digest = inl der ->
     asn1_Unmarshal der = inl parsed ->
     exists csig,
       SignData s input options = Return (Some csig, None) /\
       HashName csig = "sha256" /\ sig_Mode csig = Mode s /\
       Len csig = getSignatureLen (Mode s)).
Proof.
  intros H384 H521 digest.
  assert (Hm : makeTemplatedHash input (Mode s) = ("sha256", digest)).
  { rewrite makeTemplatedHash_eq. cbv zeta.
    apply String.eqb_neq in H384, H521. rewrite H384, H521.
    reflexivity. }
  assert (Hsz : List.length digest = 32%nat) by apply sha256_Size.
  assert (Hlen : (Z.of_nat (List.length digest) = 32
                  \/ Z.of_nat (List.length digest) = 48
                  \/ Z.of_nat (List.length digest) = 64)%Z) by lia.
  split; [exact Hm|]. split; [exact Hsz|]. split.
  { intros n. apply SignHash_accepted_not_InvalidHashLength.
    exact Hlen. }
  split; [apply SignHash_any_mode|].
  intros key der parsed Hn Hk Hs Hp.
  rewrite SignData_long by exact Hn. rewrite Hm. simpl.
  rewrite (SignHash_accepted s digest options Hlen).
  rewrite Hk, Hs, Hp. eexists. split; [reflexivity|].
  simpl. repeat split; reflexivity.
Qed.

End Signing.

Import example.


(** The example signer in mode p521ecdsa on the example input, with hash
    functions that keep the head of what they hash: the digest is the
    prefix, the input and zero bytes up to 64. *)
Lemma SignData_templated_hash_witness :
  @makeTemplatedHash example_echo.echo_hashes input0 "p521ecdsa"
  = ("sha512",
     list_byte_of_string "Content-Signature:" ++ [x00]
     ++ list_byte_of_string "AUTOGRAPH MONITORING" ++ repeat x00 25)
  /\
  exists csig,
    @SignData example_echo.echo_hashes short_asn1
      (signer0 P521ECDSA software_key) input0 Nil
    = Return (Some csig, None) /\
    HashName csig = "sha512" /\ sig_Mode csig = "p521ecdsa".
Proof.
  destruct (@SignData_templated_hash example_echo.echo_hashes short_asn1
              (signer0 P521ECDSA software_key) input0 Nil) as [_ Hlong].
  destruct (Hlong ltac:(simpl; lia) "sha512"
              (@sha512_New example_echo.echo_hashes)
              (or_intror (or_intror (conj eq_refl (conj eq_refl eq_refl)))))
    as (Hm & _ & Hready).
  split; [exact Hm|].
  destruct (Hready software_key
              (x30 :: list_byte_of_string "Content-Signature:" ++ [x00]
               ++ list_byte_of_string "AUTOGRAPH MONITORING"
               ++ repeat x00 25)
              {| asn1_R := 48; asn1_S := 64 |} eq_refl eq_refl eq_refl)
    as (csig & Hr & Hh & Hmode & _).
  exists csig. repeat split; assumption.
Defined.

(** The example signer with the empty mode on the example input. *)
Lemma unknown_mode_uses_sha256_witness :
  exists csig,
    SignData (signer0 "" software_key) input0 Nil
    = Return (Some csig, None) /\
    HashName csig = "sha256" /\ sig_Mode csig = "" /\ Len csig = (-1)%Z.
Proof.
  destruct (unknown_mode_uses_sha256 (signer0 "" software_key) input0 Nil)
    as (_ & _ & _ & _ & Hready).
  - discriminate.
  - discriminate.
  - destruct (Hready software_key (x30 :: repeat x00 32)
                {| asn1_R := 48; asn1_S := 32 |}
                ltac:(simpl; lia) eq_refl eq_refl eq_refl)
      as (csig & Hr & Hh & Hm & Hl).
    exists csig. repeat split; assumption.
Defined.

(** *** Construction *)

Section Construction.

Context {world : Type} (ext : Collaborators world).

(** The steps of [New] up to the mode, for a configuration that passes
    the checks and an ECDSA issuer key. *)
Lemma New_issuer_ecdsa conf w w1 priv name :
  signer.Type_ conf = Type_ ->
  signer.ID conf <> "" -> signer.PrivateKey conf <> "" ->
  GetKeysAndRand ext conf w = (w1, inl (priv, ecdsa_PublicKey name)) ->
  New_issuer ext conf w =
  (w1,
   Ok (with_Mode
         (if String.eqb name "P-256" then P256ECDSA
          else if String.eqb name "P-384" then P384ECDSA
          else if String.eqb name "P-521" then P521ECDSA
          else "")
         (set_issuer priv (ecdsa_PublicKey name) (new_ContentSigner conf)),
       if (signer.Validity conf =? 0)%Z
       then signer.set_Validity (720 * time_Hour) conf else conf)).
Proof.
  intros Ht Hi Hp Hk. unfold New_issuer.
  rewrite Ht, String.eqb_refl. cbn [negb].
  apply String.eqb_neq in Hi, Hp. rewrite Hi, Hp.
  unfold bind, call. rewrite Hk. reflexivity.
Qed.

(** C7, as the code has it. For a configuration that passes the checks
    and whose issuer key is an ECDSA key on a curve other than P-256,
    P-384 and P-521, [New] does not fail on account of the curve: the
    mode of the signer becomes the empty string and construction goes
    on; when the end-entity is found and its chain location verifies,
    [New] returns the signer. *)
Theorem New_unknown_curve_goes_on
    (conf : signer.Configuration) (w w1 : world)
    (priv : Signer) (name : string) :
  signer.Type_ conf = Type_ ->
  signer.ID conf <> "" -> signer.PrivateKey conf <> "" ->
  GetKeysAndRand ext conf w = (w1, inl (priv, ecdsa_PublicKey name)) ->
  name <> "P-256" -> name <> "P-384" -> name <> "P-521" ->
  exists s1 conf1,
    New_issuer ext conf w = (w1, Ok (s1, conf1)) /\
    Mode s1 = "" /\
    issuerPub s1 = Some (ecdsa_PublicKey name) /\
    forall w2 s2 w3,
      findEE ext s1 conf1 w1 = (w2, (s2, None)) ->
      verifyX5U ext (X5U s2) w2 = (w3, None) ->
      New ext conf w = (w3, Ok s2).
Proof.
  intros Ht Hi Hp Hk H256 H384 H521.
  pose proof (New_issuer_ecdsa conf w w1 priv name Ht Hi Hp Hk) as Hn.
  apply String.eqb_neq in H256, H384, H521.
  rewrite H256, H384, H521 in Hn.
  eexists. eexists. split; [exact Hn|].
  split; [reflexivity|]. split; [reflexivity|].
  intros w2 s2 w3 Hf Hv.
  unfold New, bind at 1. rewrite Hn.
  unfold bind at 1. unfold New_endentity, bind at 1. unfold call at 1.
  rewrite Hf. unfold ret. unfold New_x5u, bind, call. rewrite Hv.
  reflexivity.
Qed.

(** When the chain location could not be retrieved and a new chain is
    made, [New] returns the signer as [makeChainAndX5U] left it, in the
    world as [makeChainAndX5U] left it: no call follows. *)
Lemma New_x5u_regenerates s w w1 err s2 w2 :
  verifyX5U ext (X5U s) w = (w1, Some err) ->
  String.prefix "failed to retrieve x5u" (Error err) = true ->
  makeChainAndX5U ext s w1 = (w2, (s2, None)) ->
  New_x5u ext s w = (w2, Ok s2).
Proof.
  intros Hv Hp Hm. unfold New_x5u, bind, call. rewrite Hv, Hp, Hm.
  reflexivity.
Qed.

(** Any other failure of the verification ends the construction. *)
Lemma New_x5u_other_failure s w w1 err :
  verifyX5U ext (X5U s) w = (w1, Some err) ->
  String.prefix "failed to retrieve x5u" (Error err) = false ->
  New_x5u ext s w =
  (w1, Fail (withMessage err "contentsignaturepki: failed to verify x5u")).
Proof.
  intros Hv Hp. unfold New_x5u, bind, call. rewrite Hv, Hp.
  reflexivity.
Qed.

End Construction.

(** An issuer key on the curve P-224, in the example world. *)
Lemma New_unknown_curve_goes_on_witness :
  exists s,
    New (ext0 "P-224" (fun _ => true)) conf0 []
    = (["GetKeysAndRand"; "findEE"; "verifyX5U https://cdn/old.chain"],
       Ok s)
    /\ Mode s = "".
Proof.
  destruct (New_unknown_curve_goes_on
              (ext0 "P-224" (fun _ => true)) conf0 [] ["GetKeysAndRand"]
              software_key "P-224")
    as (s1 & conf1 & Hn & Hm & Hpub & Hgo); try reflexivity;
    try discriminate.
  vm_compute in Hn. injection Hn as Hs1 Hc1. subst s1 conf1.
  eexists. split.
  - eapply Hgo; reflexivity.
  - reflexivity.
Defined.

(** C7. Construction with an issuer key on the curve P-224 does not end in
    an error: the statement that every such construction fails is false. *)
Lemma New_unknown_curve_counterexample :
  ~ (exists w err,
       New (ext0 "P-224" (fun _ => true)) conf0 [] = (w, Fail err)).
Proof.
  intros (w & err & H). vm_compute in H. discriminate H.
Qed.

(** C8. With [makeChainAndX5U] as the spec has it (regenerate, then verify
    the new X5U), once [New] has the signer with its end-entity and the
    verification of its X5U fails: when the error says that the X5U could
    not be retrieved, [New] returns a signer only after the chain and X5U
    were regenerated and the verification of the regenerated X5U, done
    after the regeneration, returned nil; it returns that signer when this
    second verification passes and an error when it fails.  When the first
    verification fails for any other reason, [New] returns an error and no
    signer, and nothing is regenerated. *)
Theorem New_regenerates_and_verifies_again
    {world : Type} (ext : Collaborators world)
    (regenerate : ContentSigner -> world -> world * (ContentSigner * option error))
    (conf conf1 : signer.Configuration) (w0 wa w w1 : world)
    (s1 s : ContentSigner) (err : error) :
  (forall s w,
     makeChainAndX5U ext s w
     = chain.makeChainAndX5U regenerate (verifyX5U ext) s w) ->
  New_issuer ext conf w0 = (wa, Ok (s1, conf1)) ->
  New_endentity ext s1 conf1 wa = (w, Ok s) ->
  verifyX5U ext (X5U s) w = (w1, Some err) ->
  (String.prefix "failed to retrieve x5u" (Error err) = true ->
   (forall w' s',
      New ext conf w0 = (w', Ok s') ->
      exists w2,
        regenerate s w1 = (w2, (s', None)) /\
        verifyX5U ext (X5U s') w2 = (w', None))
   /\
   (forall w2 s2 w3,
      regenerate s w1 = (w2, (s2, None)) ->
      verifyX5U ext (X5U s2) w2 = (w3, None) ->
      New ext conf w0 = (w3, Ok s2))
   /\
   (forall w2 s2 w3 err2,
      regenerate s w1 = (w2, (s2, None)) ->
      verifyX5U ext (X5U s2) w2 = (w3, Some err2) ->
      New ext conf w0 =
      (w3,
       Fail (withMessage err2
               "contentsignaturepki: failed to make chain and x5u for end-entity"))))
  /\
  (String.prefix "failed to retrieve x5u" (Error err) = false ->
   New ext conf w0 =
   (w1, Fail (withMessage err "contentsignaturepki: failed to verify x5u"))).
Proof.
  intros Hspec Hi He Hv.
  assert (Hnew : New ext conf w0 = New_x5u ext s w).
  { unfold New, bind at 1. rewrite Hi. unfold bind. rewrite He.
    reflexivity. }
  rewrite Hnew. split.
  - intros Hp.
    assert (Hx : New_x5u ext s w =
                 match chain.makeChainAndX5U regenerate (verifyX5U ext) s w1
                 with
                 | (w2, (s2, Some err2)) =>
                     (w2,
                      Fail (withMessage err2
                              "contentsignaturepki: failed to make chain and x5u for end-entity"))
                 | (w2, (s2, None)) => (w2, Ok s2)
                 end).
    { unfold New_x5u, bind, call. rewrite Hv, Hp, Hspec.
      destruct (chain.makeChainAndX5U regenerate (verifyX5U ext) s w1)
        as [w2 [s2 [e2|]]]; reflexivity. }
    rewrite Hx. unfold chain.makeChainAndX5U. split; [|split].
    + intros w' s'.
      destruct (regenerate s w1) as [w2 [s2 [e2|]]];
        [intros H; discriminate H|].
      destruct (verifyX5U ext (X5U s2) w2) as [w3 [e3|]] eqn:Ev;
        intros H; inversion H; subst.
      exists w2. split; [reflexivity|exact Ev].
    + intros w2 s2 w3 Hr Hv2. rewrite Hr, Hv2. reflexivity.
    + intros w2 s2 w3 err2 Hr Hv2. rewrite Hr, Hv2. reflexivity.
  - intros Hp. unfold New_x5u, bind, call. rewrite Hv, Hp. reflexivity.
Qed.

(** In the example world the configured X5U cannot be retrieved and the
    regenerated one can: [New] verifies, regenerates, verifies again and
    returns the signer with the new X5U. *)
Lemma New_regenerates_and_verifies_again_witness :
  exists s',
    New (chain.ext1 chain.only_new) conf0 []
    = (["GetKeysAndRand"; "findEE"; "verifyX5U https://cdn/old.chain";
        "regenerate"; "verifyX5U https://cdn/rs-20190301.chain"],
       Ok s')
    /\ X5U s' = "https://cdn/rs-20190301.chain".
Proof.
  destruct (New_regenerates_and_verifies_again
              (chain.ext1 chain.only_new) chain.regenerate0
              conf0 (signer.set_Validity (720 * time_Hour) conf0)
              [] ["GetKeysAndRand"] ["GetKeysAndRand"; "findEE"]
              ["GetKeysAndRand"; "findEE"; "verifyX5U https://cdn/old.chain"]
              (with_Mode P384ECDSA
                 (set_issuer software_key (ecdsa_PublicKey "P-384")
                    (new_ContentSigner conf0)))
              (set_eeLabel "rs-20190301"
                 (with_Mode P384ECDSA
                    (set_issuer software_key (ecdsa_PublicKey "P-384")
                       (new_ContentSigner conf0))))
              (errorString "failed to retrieve x5u from https://cdn/old.chain")
              (fun _ _ => eq_refl) eq_refl eq_refl eq_refl)
    as [Hretrieve _].
  destruct (Hretrieve eq_refl) as (_ & Hpass & _).
  eexists. split.
  - eapply Hpass; reflexivity.
  - reflexivity.
Defined.

(** C3. With an issuer key whose device fails, [SignHash] on the
    templated hash of the example input returns the error, and
    [SignData] on the example input aborts instead of returning it. *)
Theorem SignData_signing_failure_aborts :
  SignHash (signer0 P384ECDSA failing_key)
           (snd (makeTemplatedHash input0 P384ECDSA)) Nil
  = Return (None,
            Some (withMessage
                    (errorString "pkcs11: 0x30: CKR_DEVICE_ERROR")
                    "contentsignaturepki: failed to sign hash"))
  /\ SignData (signer0 P384ECDSA failing_key) input0 Nil
     = Panic "interface conversion: signer.Signature is nil, not *contentsignaturepki.ContentSignature".
Proof. split; reflexivity. Qed.

End contentsignaturepki_facts.

(** ** The options of the MAR signer *)

Module mar_facts.

Import mar.

Lemma decode_SigAlg_error v options :
  snd (decode_SigAlg v options) = None <-> bad_SigAlg v = false.
Proof.
  destruct v as [| b | [z|l] | s | elems | members]; cbn [decode_SigAlg bad_SigAlg];
    try (split; intros; reflexivity);
    try (split; intros; discriminate).
  destruct ((0 <=? z)%Z && (z <? 2 ^ 32)%Z); simpl;
    split; intros; try reflexivity; discriminate.
Qed.

(** The members decode without error exactly when no error was saved and
    no member for [sigalg] is bad. *)
Lemma decode_members_error members : forall options saved,
  snd (decode_members members options saved) = None <->
  saved = None /\
  existsb (fun m => json.equalFold "sigalg" (fst m) && bad_SigAlg (snd m))
          members = false.
Proof.
  induction members as [|[key v] rest IH]; intros options saved.
  - simpl. split; [intros H; split; [exact H|reflexivity]|intros [H _]; exact H].
  - cbn [decode_members existsb fst snd].
    destruct (json.equalFold "sigalg" key); cbn [andb orb].
    + destruct (decode_SigAlg v options) as [options' err] eqn:Ed.
      rewrite IH.
      pose proof (decode_SigAlg_error v options) as Hv.
      rewrite Ed in Hv. simpl in Hv.
      destruct saved as [e|].
      * split; intros [H _]; discriminate.
      * destruct (bad_SigAlg v); simpl.
        -- split; intros [H1 H2]; try discriminate.
           apply Hv in H1. discriminate.
        -- assert (err = None) as -> by (apply Hv; reflexivity).
           reflexivity.
    + apply IH.
Qed.

Lemma Unmarshal_error buf options :
  snd (Unmarshal buf options) = None <-> misshapen buf = false.
Proof.
  destruct buf as [| b | n | s | elems | members];
    cbn [Unmarshal misshapen snd];
    try (split; intros; reflexivity);
    try (split; intros; discriminate).
  rewrite decode_members_error. split; [intros [_ H]; exact H|auto].
Qed.

(** [GetOptions] returns an error exactly for the inputs [json.Marshal]
    refuses and those whose JSON text is misshapen. *)
Lemma GetOptions_error_iff_incompatible (input : any) :
  incompatible input <-> exists err, snd (GetOptions input) = Some err.
Proof.
  unfold incompatible, GetOptions.
  destruct (json.Marshal input) as [buf|e].
  - pose proof (Unmarshal_error buf zero) as Hu.
    destruct (snd (Unmarshal buf zero)) as [err|].
    + split; [intros _; exists err; reflexivity|].
      intros _. destruct (misshapen buf); [reflexivity|].
      destruct Hu as [_ Hu]. specialize (Hu eq_refl). discriminate.
    + split.
      * intros Hm. destruct Hu as [Hu _]. rewrite (Hu eq_refl) in Hm.
        discriminate.
      * intros [err Herr]. discriminate.
  - simpl. split; [intros _; exists e; reflexivity|intros _; exact I].
Qed.

(** Induction on values, through slices and maps. *)
Lemma any_induction (P : any -> Prop) :
  P Nil -> (forall b, P (Bool b)) -> (forall z, P (Integer z)) ->
  (forall l, P (Fraction l)) -> (forall s, P (Str s)) ->
  (forall elems, Forall P elems -> P (Slice elems)) ->
  (forall entries, Forall (fun e => P (snd e)) entries -> P (Map entries)) ->
  (forall kind, P (Unsupported kind)) ->
  forall v, P v.
Proof.
  intros HNil HBool HInt HFrac HStr HSlice HMap HUns.
  fix IH 1. intros v. destruct v as [|b|z|l|s|elems|entries|kind].
  - exact HNil.
  - apply HBool.
  - apply HInt.
  - apply HFrac.
  - apply HStr.
  - apply HSlice. induction elems as [|x rest IHrest]; constructor.
    + apply IH.
    + exact IHrest.
  - apply HMap. induction entries as [|[k x] rest IHrest]; constructor.
    + apply IH.
    + exact IHrest.
  - apply HUns.
Qed.

(** The text of a slice: the texts of its elements, or the error of the
    first element that has none. *)
Lemma Marshal_Slice elems :
  match json.Marshal (Slice elems) with
  | inr e => exists v, In v elems /\ json.Marshal v = inr e
  | inl buf =>
      exists js, buf = json.array js /\
                 Forall2 (fun v j => json.Marshal v = inl j) elems js
  end.
Proof.
  induction elems as [|x rest IH].
  - simpl. exists []. split; [reflexivity|constructor].
  - simpl in IH |- *.
    destruct (json.Marshal x) as [jx|e] eqn:Ex.
    + match goal with
      | |- context [match ?f rest with _ => _ end] =>
          destruct (f rest) as [jrest|e]
      end.
      * destruct IH as (js & Hjs & Hall). inversion Hjs; subst.
        exists (jx :: js). split; [reflexivity|]. constructor; assumption.
      * destruct IH as (v & Hin & Hv). exists v. split; [right|]; assumption.
    + exists x. split; [left; reflexivity|exact Ex].
Qed.

Lemma Marshal_Map entries :
  match json.Marshal (Map entries) with
  | inr e => exists k v, In (k, v) entries /\ json.Marshal v = inr e
  | inl buf =>
      exists ms, buf = json.object ms /\
                 Forall2 (fun e m => fst m = fst e /\
                                     json.Marshal (snd e) = inl (snd m))
                         entries ms
  end.
Proof.
  induction entries as [|[k x] rest IH].
  - simpl. exists []. split; [reflexivity|constructor].
  - simpl in IH |- *.
    destruct (json.Marshal x) as [jx|e] eqn:Ex.
    + match goal with
      | |- context [match ?f rest with _ => _ end] =>
          destruct (f rest) as [jrest|e]
      end.
      * destruct IH as (ms & Hms & Hall). inversion Hms; subst.
        exists ((k, jx) :: ms). split; [reflexivity|].
        constructor; [split; [reflexivity|exact Ex]|exact Hall].
      * destruct IH as (k' & v & Hin & Hv). exists k', v.
        split; [right|]; assumption.
    + exists k, x. split; [left; reflexivity|exact Ex].
Qed.

(** [json.Marshal] fails exactly on the refused values. *)
Lemma Marshal_error_refused v :
  (exists e, json.Marshal v = inr e) <-> refused v.
Proof.
  split.
  - revert v. apply (any_induction
      (fun v => (exists e, json.Marshal v = inr e) -> refused v));
      try (intros; match goal with H : exists _, _ |- _ =>
                     destruct H as [e He]; discriminate He end).
    + intros elems IH [e He].
      pose proof (Marshal_Slice elems) as Hs. rewrite He in Hs.
      destruct Hs as (v & Hin & Hv).
      rewrite Forall_forall in IH.
      apply (refused_elem elems v Hin). apply IH; eauto.
    + intros entries IH [e He].
      pose proof (Marshal_Map entries) as Hs. rewrite He in Hs.
      destruct Hs as (k & v & Hin & Hv).
      rewrite Forall_forall in IH.
      apply (refused_entry entries k v Hin). apply (IH (k, v) Hin); eauto.
    + intros kind _. constructor.
  - intros Hr. induction Hr as [kind|elems v Hin _ IH|entries k v Hin _ IH].
    + eexists. reflexivity.
    + destruct IH as [e He].
      pose proof (Marshal_Slice elems) as Hs.
      destruct (json.Marshal (Slice elems)) as [buf|e']; [|eauto].
      destruct Hs as (js & _ & Hall). exfalso.
      clear - Hall Hin He. induction Hall as [|x j xs js Hx _ IHall].
      * destruct Hin.
      * destruct Hin as [<-|Hin]; [congruence|auto].
    + destruct IH as [e He].
      pose proof (Marshal_Map entries) as Hs.
      destruct (json.Marshal (Map entries)) as [buf|e']; [|eauto].
      destruct Hs as (ms & _ & Hall). exfalso.
      clear - Hall Hin He. induction Hall as [|x m xs ms [_ Hx] _ IHall].
      * destruct Hin.
      * destruct Hin as [Heq|Hin]; [subst x; simpl in Hx; congruence|auto].
Qed.

(** One letter of the field name against the head of the key. *)
Ltac fold_head H t :=
  let tb := fresh "tb" in
  let t' := fresh "t" in
  destruct t as [|tb t']; [discriminate H|];
  destruct tb as [[|] [|] [|] [|] [|] [|] [|] [|]];
  cbn in H; try discriminate H.

Ltac fold_found H :=
  match goal with
  | |- exists p t0, _ /\ String ?c ?t' = _ /\ _ =>
      exists (String c EmptyString), t';
      split; [simpl; tauto|split; [reflexivity|exact H]]
  end.

Lemma fold_i s' t :
  json.equalFoldRight (String "i" s') t = true ->
  exists p t', In p ["i"; "I"] /\ t = (p ++ t')%string /\
               json.equalFoldRight s' t' = true.
Proof. intros H. fold_head H t; fold_found H. Qed.

Lemma fold_g s' t :
  json.equalFoldRight (String "g" s') t = true ->
  exists p t', In p ["g"; "G"] /\ t = (p ++ t')%string /\
               json.equalFoldRight s' t' = true.
Proof. intros H. fold_head H t; fold_found H. Qed.

Lemma fold_a s' t :
  json.equalFoldRight (String "a" s') t = true ->
  exists p t', In p ["a"; "A"] /\ t = (p ++ t')%string /\
               json.equalFoldRight s' t' = true.
Proof. intros H. fold_head H t; fold_found H. Qed.

Lemma fold_l s' t :
  json.equalFoldRight (String "l" s') t = true ->
  exists p t', In p ["l"; "L"] /\ t = (p ++ t')%string /\
               json.equalFoldRight s' t' = true.
Proof. intros H. fold_head H t; fold_found H. Qed.

Lemma fold_s s' t :
  json.equalFoldRight (String "s" s') t = true ->
  exists p t', In p ["s"; "S"; json.smallLongEss] /\ t = (p ++ t')%string /\
               json.equalFoldRight s' t' = true.
Proof.
  intros H. fold_head H t; try fold_found H.
  fold_head H t0.
  exists json.smallLongEss, t. split; [simpl; tauto|].
  split; [reflexivity|exact H].
Qed.

(** The keys that fold to sigalg are the 96 spellings of the name. *)
Lemma equalFold_names_sigalg key :
  json.equalFold "sigalg" key = true <-> names_sigalg key.
Proof.
  unfold json.equalFold, names_sigalg. split.
  - intros H.
    apply fold_s in H. destruct H as (p1 & t1 & H1 & -> & H).
    apply fold_i in H. destruct H as (p2 & t2 & H2 & -> & H).
    apply fold_g in H. destruct H as (p3 & t3 & H3 & -> & H).
    apply fold_a in H. destruct H as (p4 & t4 & H4 & -> & H).
    apply fold_l in H. destruct H as (p5 & t5 & H5 & -> & H).
    apply fold_g in H. destruct H as (p6 & t6 & H6 & -> & H).
    destruct t6; [|discriminate H].
    exists p1, p2, p3, p4, p5, p6. repeat (split; [assumption|]).
    simpl in H6. destruct H6 as [<-|[<-|[]]]; reflexivity.
  - intros (s & i & g & a & l & g' & Hs & Hi & Hg & Ha & Hl & Hg' & ->).
    simpl in Hs, Hi, Hg, Ha, Hl, Hg'.
    repeat match goal with
           | H : _ \/ _ |- _ => destruct H
           | H : False |- _ => destruct H
           end; subst; reflexivity.
Qed.

(** The text of a value a [uint32] field takes is one the field takes. *)
Lemma bad_SigAlg_fits v j :
  json.Marshal v = inl j -> (bad_SigAlg j = false <-> fits_uint32 v).
Proof.
  intros Hm. unfold fits_uint32.
  destruct v as [|b|z|l|s|elems|entries|kind]; simpl in Hm.
  - inversion Hm; subst. simpl. split; auto.
  - inversion Hm; subst. simpl. split; [discriminate|].
    intros [H|(z & H & _)]; discriminate H.
  - inversion Hm; subst. simpl. split.
    + intros Hb. right. exists z. split; [reflexivity|].
      apply negb_false_iff, andb_true_iff in Hb. destruct Hb as [H0 H1].
      apply Z.leb_le in H0. apply Z.ltb_lt in H1. lia.
    + intros [H|(z' & H & Hr)]; [discriminate H|]. inversion H; subst.
      apply negb_false_iff, andb_true_iff.
      split; [apply Z.leb_le|apply Z.ltb_lt]; lia.
  - inversion Hm; subst. simpl. split; [discriminate|].
    intros [H|(z & H & _)]; discriminate H.
  - inversion Hm; subst. simpl. split; [discriminate|].
    intros [H|(z & H & _)]; discriminate H.
  - pose proof (Marshal_Slice elems) as Hs. simpl in Hs. rewrite Hm in Hs.
    destruct Hs as (js & -> & _). simpl. split; [discriminate|].
    intros [H|(z & H & _)]; discriminate H.
  - pose proof (Marshal_Map entries) as Hs. simpl in Hs. rewrite Hm in Hs.
    destruct Hs as (ms & -> & _). simpl. split; [discriminate|].
    intros [H|(z & H & _)]; discriminate H.
  - discriminate Hm.
Qed.

(** The two readings of an input that cannot be re-encoded agree. *)
Lemma not_Options_incompatible input :
  not_Options input <-> incompatible input.
Proof.
  unfold incompatible. split.
  - intros Hn. destruct Hn as [v Hr|b|z|l|s|elems|entries key v Hin Hk Hv].
    + apply Marshal_error_refused in Hr. destruct Hr as [e He].
      rewrite He. exact I.
    + reflexivity.
    + reflexivity.
    + reflexivity.
    + reflexivity.
    + pose proof (Marshal_Slice elems) as Hs.
      destruct (json.Marshal (Slice elems)) as [buf|e]; [|exact I].
      destruct Hs as (js & -> & _). reflexivity.
    + pose proof (Marshal_Map entries) as Hs.
      destruct (json.Marshal (Map entries)) as [buf|e]; [|exact I].
      destruct Hs as (ms & -> & Hall). cbn [misshapen].
      apply existsb_exists.
      clear - Hall Hin Hk Hv.
      induction Hall as [|x m xs ms [Hkey Hx] _ IHall]; [destruct Hin|].
      destruct Hin as [->|Hin].
      * exists m. split; [left; reflexivity|]. simpl in Hkey, Hx.
        rewrite Hkey. apply equalFold_names_sigalg in Hk. rewrite Hk.
        cbn [andb].
        destruct (bad_SigAlg (snd m)) eqn:Eb; [reflexivity|].
        exfalso. apply Hv. apply (bad_SigAlg_fits v (snd m) Hx). exact Eb.
      * destruct (IHall Hin) as (m' & Hm' & Hb). exists m'.
        split; [right; exact Hm'|exact Hb].
  - destruct (json.Marshal input) as [buf|e] eqn:Em.
    + intros Hmis.
      destruct input as [|b|z|l|s|elems|entries|kind];
        try (constructor; fail).
      * simpl in Em. inversion Em; subst. discriminate Hmis.
      * pose proof (Marshal_Map entries) as Hs. rewrite Em in Hs.
        destruct Hs as (ms & -> & Hall). cbn [misshapen] in Hmis.
        apply existsb_exists in Hmis. destruct Hmis as (m & Hin & Hb).
        apply andb_true_iff in Hb. destruct Hb as [Hk Hbad].
        clear Em.
        induction Hall as [|x m0 xs ms [Hkey Hx] _ IHall]; [destruct Hin|].
        destruct Hin as [->|Hin].
        -- destruct x as [k v]. simpl in Hkey, Hx.
           apply (not_Options_member _ k v); [left; reflexivity| |].
           ++ apply equalFold_names_sigalg. rewrite <- Hkey. exact Hk.
           ++ intros Hf. apply (bad_SigAlg_fits v (snd m) Hx) in Hf.
              rewrite Hf in Hbad. discriminate Hbad.
        -- specialize (IHall Hin).
           inversion IHall as [v Hr| | | | | |entries' key v Hin' Hk' Hv'];
             subst.
           ++ inversion Hr as [| |entries' key v' Hin' Hr']; subst.
              apply not_Options_refused.
              apply (refused_entry _ key v'); [right; exact Hin'|exact Hr'].
           ++ apply (not_Options_member _ key v);
                [right; exact Hin'|exact Hk'|exact Hv'].
      * discriminate Em.
    + intros _. apply not_Options_refused.
      apply Marshal_error_refused. eauto.
Qed.

(** C9. [GetOptions] of nil returns the zero options and a nil error.
    [GetOptions] returns an error for every input that cannot be
    re-encoded into the options record, and for no other: the values
    [json.Marshal] refuses; the booleans, numbers, strings and slices; and
    the maps with an entry whose key spells sigalg (in any case of the
    letters, the s also as a long s) and whose value is neither nil nor a
    whole number within [uint32]. *)
Theorem GetOptions_nil_and_not_Options :
  GetOptions Nil = (zero, None) /\
  forall input : any,
    not_Options input <-> exists err, snd (GetOptions input) = Some err.
Proof.
  split; [reflexivity|].
  intros input. rewrite not_Options_incompatible.
  apply GetOptions_error_iff_incompatible.
Qed.

(** A map whose key for the algorithm is written with a long s and whose
    value is a string. *)
Lemma GetOptions_nil_and_not_Options_witness :
  exists err,
    snd (GetOptions (Map [("other", Nil);
                          ((json.smallLongEss ++ "IGalg")%string, Str "3")]))
    = Some err.
Proof.
  apply (proj2 GetOptions_nil_and_not_Options).
  apply (not_Options_member _ (json.smallLongEss ++ "IGalg")%string (Str "3")).
  - right. left. reflexivity.
  - exists json.smallLongEss, "I", "G", "a", "l", "g". simpl. tauto.
  - intros [H|(z & H & _)]; discriminate H.
Defined.

(** Some inputs: a string and a [sigalg] that is a string or too large
    are refused; a [sigalg] within [uint32] is stored, whatever the case
    of the key. *)
Example GetOptions_string :
  GetOptions (Str "sha384") =
  (zero,
   Some (errorString
           "json: cannot unmarshal string into Go value of type mar.Options")).
Proof. reflexivity. Qed.

Example GetOptions_sigalg_string :
  GetOptions (Map [("sigalg", Str "2")]) =
  (zero,
   Some (errorString
           "json: cannot unmarshal string into Go struct field Options.sigalg of type uint32")).
Proof. reflexivity. Qed.

Example GetOptions_sigalg_overflow :
  snd (GetOptions (Map [("sigalg", Integer 4294967296)])) =
  Some (errorString
          "json: cannot unmarshal number 4294967296 into Go struct field Options.sigalg of type uint32").
Proof. reflexivity. Qed.

Example GetOptions_sigalg :
  GetOptions (Map [("SigAlg", Integer 2); ("other", Slice [Nil])]) =
  ({| SigAlg := 2 |}, None).
Proof. reflexivity. Qed.

Example GetOptions_long_s :
  GetOptions (Map [((json.smallLongEss ++ "igalg")%string, Integer 3)]) =
  ({| SigAlg := 3 |}, None).
Proof. reflexivity. Qed.

Example GetOptions_unsupported :
  snd (GetOptions (Slice [Integer 1; Unsupported "chan int"])) =
  Some (errorString "json: unsupported type: chan int").
Proof. reflexivity. Qed.

End mar_facts.

(** ** More on the end-entity store *)

Module store_facts.

Import database.

(** The driver's answer leaves the tables, the clock and the next id. *)
Lemma answer_same t t1 a :
  answer t = (t1, a) ->
  table t1 = table t /\ saved t1 = saved t /\ now t1 = now t /\
  serial t1 = serial t /\ done t1 = done t /\ ID t1 = ID t /\
  (a = None -> done t = false).
Proof.
  unfold answer. destruct (done t) eqn:Hd.
  - intros H. inversion H; subst. repeat split; auto. discriminate.
  - destruct (driver t) as [|a0 d]; intros H; inversion H; subst;
      repeat split; auto.
Qed.

(** What a successful [InsertEE] did. *)
Lemma InsertEE_success x l s h t t' :
  InsertEE x l s h t = (t', None) ->
  done t = false /\ done t' = false /\ saved t' = saved t /\
  now t' = now t /\
  table t' =
    map (fun r => if other_key s l r then set_not_current r else r)
        (table t ++ [inserted x l s h t]).
Proof.
  unfold InsertEE, Exec.
  destruct (answer t) as [t1 [e|]] eqn:E1; [intros H; discriminate H|].
  destruct (answer (apply (INSERT_INTO_endentities x l s h true) t1))
    as [t2 [e|]] eqn:E2; [intros H; discriminate H|].
  intros H. inversion H; subst. clear H.
  apply answer_same in E1, E2. simpl in E2.
  destruct E1 as (T1 & S1 & N1 & R1 & D1 & _ & F1).
  destruct E2 as (T2 & S2 & N2 & R2 & D2 & _ & _).
  specialize (F1 eq_refl). simpl.
  rewrite T2, S2, N2, D2, S1, N1, D1. unfold inserted.
  rewrite T1, R1. auto.
Qed.

(** X1. Whenever [InsertEE] returns an error, the transaction is rolled
    back: it is done, it shows the content the table had when the
    transaction began, and the error wraps its cause.  A failure of the
    second statement leaves no trace of the first. *)
Theorem InsertEE_error_rolls_back
    (x5u label signerID : string) (hsmHandle : N)
    (t t' : Transaction) (err : error) :
  InsertEE x5u label signerID hsmHandle t = (t', Some err) ->
  done t' = true /\ table t' = saved t /\ saved t' = saved t /\
  exists cause msg, err = withMessage cause msg.
Proof.
  unfold InsertEE, Exec.
  destruct (answer t) as [t1 [e|]] eqn:E1.
  - intros H. inversion H; subst. apply answer_same in E1.
    destruct E1 as (_ & S1 & _). simpl. rewrite S1.
    repeat split; eauto.
  - destruct (answer (apply (INSERT_INTO_endentities x5u label signerID
                               hsmHandle true) t1))
      as [t2 [e|]] eqn:E2; [|intros H; discriminate H].
    intros H. inversion H; subst.
    apply answer_same in E1, E2. simpl in E2.
    destruct E1 as (_ & S1 & _). destruct E2 as (_ & S2 & _).
    simpl. rewrite S2, S1. repeat split; eauto.
Qed.

(** The update is refused after the insertion was accepted. *)
Lemma InsertEE_error_rolls_back_witness :
  exists t' err,
    InsertEE "https://cdn/a.chain" "rs-20190201" "remote-settings" 21
      (with_driver [None; Some (errorString "driver: bad connection")] tx0)
    = (t', Some err)
    /\ done t' = true /\ table t' = [].
Proof.
  eexists. eexists. split; [reflexivity|].
  destruct (InsertEE_error_rolls_back
              "https://cdn/a.chain" "rs-20190201" "remote-settings" 21
              (with_driver [None; Some (errorString "driver: bad connection")]
                           tx0)
              _ _ eq_refl) as (Hd & Ht & _).
  split; [exact Hd|exact Ht].
Defined.

(** X2. A successful [InsertEE] leaves the rows of every other signer as
    they were, flags included. *)
Theorem InsertEE_keeps_other_signers
    (x5u label signerID : string) (hsmHandle : N) (t t' : Transaction) :
  InsertEE x5u label signerID hsmHandle t = (t', None) ->
  filter (fun r => negb (String.eqb (endentities.signer_id r) signerID))
         (table t')
  = filter (fun r => negb (String.eqb (endentities.signer_id r) signerID))
           (table t).
Proof.
  intros H. apply InsertEE_success in H.
  destruct H as (_ & _ & _ & _ & ->).
  rewrite map_app, filter_app.
  assert (Hnew :
    filter (fun r => negb (String.eqb (endentities.signer_id r) signerID))
           (map (fun r => if other_key signerID label r
                          then set_not_current r else r)
                [inserted x5u label signerID hsmHandle t]) = []).
  { simpl. rewrite database_facts.demote_signer. simpl.
    rewrite String.eqb_refl. reflexivity. }
  rewrite Hnew, app_nil_r.
  induction (table t) as [|r rest IH]; [reflexivity|].
  simpl. rewrite database_facts.demote_signer.
  destruct (String.eqb (endentities.signer_id r) signerID) eqn:Es; simpl.
  - exact IH.
  - unfold other_key at 1. rewrite Es. simpl. f_equal. exact IH.
Qed.

Lemma InsertEE_keeps_other_signers_witness :
  filter (fun r => negb (String.eqb (endentities.signer_id r) "remote-settings"))
         (table
            (fst (InsertEE "https://cdn/a.chain" "rs-20190201"
                           "remote-settings" 21 tx0)))
  = filter (fun r => negb (String.eqb (endentities.signer_id r)
                                      "remote-settings"))
           (table tx0).
Proof.
  apply (InsertEE_keeps_other_signers
           "https://cdn/a.chain" "rs-20190201" "remote-settings" 21 tx0).
  reflexivity.
Defined.

Lemma key_material_demote s l r :
  store.key_material (if other_key s l r then set_not_current r else r)
  = store.key_material r.
Proof. destruct (other_key s l r); reflexivity. Qed.

(** X3. A successful [InsertEE] deletes nothing and rewrites no key: apart
    from the current flag the older rows are what they were, followed by
    the new row, and no older row that was not current becomes current. *)
Theorem InsertEE_keeps_history
    (x5u label signerID : string) (hsmHandle : N) (t t' : Transaction) :
  InsertEE x5u label signerID hsmHandle t = (t', None) ->
  map store.key_material (table t')
  = map store.key_material (table t)
    ++ [store.key_material (inserted x5u label signerID hsmHandle t)]
  /\ Forall2 (fun r r' => endentities.is_current r' = true ->
                          endentities.is_current r = true)
             (table t) (firstn (List.length (table t)) (table t')).
Proof.
  intros H. apply InsertEE_success in H.
  destruct H as (_ & _ & _ & _ & ->). split.
  - rewrite map_map, map_app. simpl. rewrite key_material_demote.
    f_equal. apply map_ext. intros r. apply key_material_demote.
  - rewrite map_app, firstn_app, length_map, Nat.sub_diag. simpl.
    rewrite app_nil_r.
    rewrite firstn_all2 by (rewrite length_map; apply Nat.le_refl).
    induction (table t) as [|r rest IH]; simpl; constructor; [|exact IH].
    destruct (other_key signerID label r); simpl; [discriminate|auto].
Qed.

Lemma InsertEE_keeps_history_witness :
  map store.key_material
      (table (fst (InsertEE "https://cdn/a.chain" "rs-20190201"
                            "remote-settings" 21 tx0)))
  = map store.key_material (table tx0)
    ++ [(3%N, Some "https://cdn/a.chain", "rs-20190201", "remote-settings",
         21%N, 1000%Z)].
Proof.
  apply (InsertEE_keeps_history
           "https://cdn/a.chain" "rs-20190201" "remote-settings" 21 tx0 _
           eq_refl).
Defined.

(** [newest] picks a row of the list with the greatest stamp. *)
Lemma newest_greatest rows :
  match newest rows with
  | None => rows = []
  | Some r =>
      In r rows /\
      forall r', In r' rows ->
                 (endentities.created_at r' <= endentities.created_at r)%Z
  end.
Proof.
  induction rows as [|r rest IH]; [reflexivity|].
  simpl. destruct (newest rest) as [r0|].
  - destruct IH as [Hin Hmax].
    destruct (endentities.created_at r <? endentities.created_at r0)%Z eqn:E.
    + apply Z.ltb_lt in E. split; [right; exact Hin|].
      intros r' [<-|Hr']; [lia|apply Hmax; exact Hr'].
    + apply Z.ltb_ge in E. split; [left; reflexivity|].
      intros r' [<-|Hr']; [lia|]. specialize (Hmax r' Hr'). lia.
  - subst rest. split; [left; reflexivity|].
    intros r' [<-|[]]. lia.
Qed.

(** X4. On an open transaction whose query the driver accepts,
    [GetLabelOfLatestEE] returns [ErrNoSuitableEEFound] when no row of the
    signer is current and younger than the bound; otherwise it returns the
    label and chain location (empty when null) of such a row, one with the
    greatest creation time among them, and a nil error. *)
Theorem GetLabelOfLatestEE_newest
    (signerID : string) (youngerThan : Z) (t : Transaction) :
  healthy t ->
  let q := filter (qualifies signerID (now t - youngerThan)) (table t) in
  (q = [] /\
   snd (GetLabelOfLatestEE signerID youngerThan t)
   = ("", "", Some ErrNoSuitableEEFound))
  \/
  (exists r,
     In r (table t) /\ endentities.is_current r = true /\
     endentities.signer_id r = signerID /\
     (now t - youngerThan < endentities.created_at r)%Z /\
     (forall r', In r' q ->
        (endentities.created_at r' <= endentities.created_at r)%Z) /\
     snd (GetLabelOfLatestEE signerID youngerThan t)
     = (endentities.label r,
        match endentities.x5u r with Some v => v | None => "" end,
        None)).
Proof.
  intros H q.
  unfold GetLabelOfLatestEE, QueryRow_Scan.
  destruct (database_facts.answer_healthy t H) as (t1 & E1 & _ & T1 & _).
  rewrite E1, T1. fold q.
  pose proof (newest_greatest q) as Hn.
  destruct (newest q) as [r|].
  - right. destruct Hn as [Hin Hmax]. exists r.
    unfold q in Hin. apply filter_In in Hin. destruct Hin as [Hin Hq].
    unfold qualifies in Hq.
    apply andb_true_iff in Hq. destruct Hq as [Hq Hage].
    apply andb_true_iff in Hq. destruct Hq as [Hcur Hsig].
    apply String.eqb_eq in Hsig. apply Z.ltb_lt in Hage.
    repeat (split; [assumption|]). reflexivity.
  - left. split; [exact Hn|reflexivity].
Qed.

Lemma GetLabelOfLatestEE_newest_witness :
  snd (GetLabelOfLatestEE "normandy" 900 tx0)
  = ("normandy-20190102", "https://cdn/normandy.chain", None).
Proof.
  destruct (GetLabelOfLatestEE_newest "normandy" 900 tx0) as [[Hq _]|Hr].
  - split; [reflexivity|constructor].
  - discriminate Hq.
  - destruct Hr as (r & Hin & _ & Hs & _ & _ & ->).
    destruct Hin as [<-|[<-|[]]]; [discriminate Hs|reflexivity].
Defined.

(** *** The transaction as a whole *)

(** Whatever [InsertEE] returns, the content saved at the beginning stays;
    an error leaves the transaction done. *)
Lemma InsertEE_saved x l s h t t' e :
  InsertEE x l s h t = (t', e) ->
  saved t' = saved t /\ (e <> None -> done t' = true).
Proof.
  unfold InsertEE, Exec.
  destruct (answer t) as [t1 [e1|]] eqn:E1.
  - intros H. inversion H; subst. apply answer_same in E1.
    destruct E1 as (_ & S1 & _). simpl. auto.
  - destruct (answer (apply (INSERT_INTO_endentities x l s h true) t1))
      as [t2 [e2|]] eqn:E2; intros H; inversion H; subst;
      apply answer_same in E1, E2; simpl in E2;
      destruct E1 as (_ & S1 & _); destruct E2 as (_ & S2 & _); simpl.
    + rewrite S2, S1. auto.
    + rewrite S2, S1. split; [reflexivity|]. intros Hn. contradiction.
Qed.

Lemma store_InsertEEs_saved s calls : forall ops ops1 e1,
  store.InsertEEs s calls ops = (ops1, e1) ->
  saved (store.tx ops1) = saved (store.tx ops) /\
  store.locks_saved ops1 = store.locks_saved ops /\
  (e1 <> None -> done (store.tx ops1) = true).
Proof.
  induction calls as [|c rest IH]; intros ops ops1 e1; simpl.
  - intros H. inversion H; subst. repeat split. intros Hn. contradiction.
  - unfold store.InsertEE. simpl.
    destruct (InsertEE (arg_x5u c) (arg_label c) s (arg_hsmHandle c)
                (elapse (delay c) (store.tx ops))) as [t e] eqn:E.
    apply InsertEE_saved in E. destruct E as [Hs Hd]. simpl in Hs.
    destruct e as [err|].
    + intros H. inversion H; subst. simpl. repeat split; auto.
    + intros H. apply IH in H. simpl in H.
      destruct H as (H1 & H2 & H3). rewrite H1, H2. auto.
Qed.

(** Whenever [End] returns an error nothing is committed: the
    committed content of both tables is what it was, and the transaction is
    done. *)
Theorem End_error_commits_nothing (ops ops' : store.Operations) (err : error) :
  store.End ops = (ops', Some err) ->
  saved (store.tx ops') = saved (store.tx ops) /\
  store.locks_saved ops' = store.locks_saved ops /\
  done (store.tx ops') = true.
Proof.
  unfold store.End, store.Commit.
  destruct (answer (store.tx ops)) as [t1 [e1|]] eqn:E1.
  - intros H. inversion H; subst. apply answer_same in E1.
    destruct E1 as (_ & S1 & _). simpl. auto.
  - simpl. destruct (answer t1) as [t2 [e2|]] eqn:E2;
      intros H; inversion H; subst.
    apply answer_same in E1, E2.
    destruct E1 as (_ & S1 & _). destruct E2 as (_ & S2 & _).
    simpl. rewrite S2, S1. auto.
Qed.

(** The commit is refused. *)
Lemma End_error_commits_nothing_witness :
  exists ops' err,
    store.End
      {| store.tx :=
           with_driver [None; Some (errorString "driver: bad connection")]
             (fst (InsertEE "https://cdn/a.chain" "rs-20190201"
                            "remote-settings" 21 tx0));
         store.locks := []; store.locks_saved := [];
         store.lock_serial := 1 |}
    = (ops', Some err)
    /\ saved (store.tx ops') = [] /\ done (store.tx ops') = true.
Proof.
  eexists. eexists. split; [reflexivity|].
  destruct (End_error_commits_nothing
              {| store.tx :=
                   with_driver
                     [None; Some (errorString "driver: bad connection")]
                     (fst (InsertEE "https://cdn/a.chain" "rs-20190201"
                                    "remote-settings" 21 tx0));
                 store.locks := []; store.locks_saved := [];
                 store.lock_serial := 1 |}
              _ _ eq_refl) as (Hs & _ & Hd).
  split; [exact Hs|exact Hd].
Defined.

(** What [BeginEndEntityOperations] returns when it succeeds. *)
Lemma Begin_success db db' ops :
  store.BeginEndEntityOperations db = (db', (Some ops, None)) ->
  table (store.tx ops) = store.h_endentities db /\
  saved (store.tx ops) = store.h_endentities db /\
  done (store.tx ops) = false /\
  now (store.tx ops) = store.h_now db /\
  ID (store.tx ops) = store.h_lock_serial db /\
  store.locks_saved ops = store.h_locks db /\
  store.locks ops =
    store.h_locks db ++
    [ {| endentities_lock.id := store.h_lock_serial db;
         endentities_lock.is_locked := true;
         endentities_lock.freed_at := None |} ].
Proof.
  unfold store.BeginEndEntityOperations, answer.
  destruct (store.h_driver db) as [|[e1|] [|[e2|] [|[e3|] d]]]; simpl;
    intros H; inversion H; subst; simpl; tauto.
Qed.

(** X5. A transaction is all or nothing.  For a transaction that
    [BeginEndEntityOperations] opened and in which a list of [InsertEE]
    calls ran up to the first error: if one of these calls failed, [End]
    fails as well; and whenever [End] fails, the store holds exactly the
    two tables it held before the transaction began. *)
Theorem transaction_all_or_nothing
    (db db' : store.Handler) (ops ops1 ops2 : store.Operations)
    (signerID : string) (calls : list call) (e1 e2 : option error) :
  store.BeginEndEntityOperations db = (db', (Some ops, None)) ->
  store.InsertEEs signerID calls ops = (ops1, e1) ->
  store.End ops1 = (ops2, e2) ->
  (e1 <> None -> e2 <> None) /\
  (e2 <> None ->
   store.h_endentities (store.after 0 ops2) = store.h_endentities db /\
   store.h_locks (store.after 0 ops2) = store.h_locks db).
Proof.
  intros Hb Hi He.
  apply Begin_success in Hb. destruct Hb as (_ & Hs & _ & _ & _ & Hl & _).
  apply store_InsertEEs_saved in Hi. destruct Hi as (Hs1 & Hl1 & Hd1).
  split.
  - intros Hn. specialize (Hd1 Hn). revert He.
    unfold store.End, answer. rewrite Hd1. intros H. inversion H.
    discriminate.
  - intros Hn. destruct e2 as [err|]; [|contradiction].
    apply End_error_commits_nothing in He. destruct He as (Hs2 & Hl2 & _).
    simpl. rewrite Hs2, Hl2, Hs1, Hl1. auto.
Qed.

(** The second insertion of the transaction is refused on the example
    store. *)
Lemma transaction_all_or_nothing_witness :
  exists ops ops1 ops2 e1 e2 db',
    store.BeginEndEntityOperations
      {| store.h_endentities := store.h_endentities store.db0;
         store.h_locks := store.h_locks store.db0;
         store.h_serial := 3; store.h_lock_serial := 2;
         store.h_now := 1000;
         store.h_driver :=
           [None; None; None; None; None;
            Some (errorString "driver: bad connection")] |}
    = (db', (Some ops, None)) /\
    store.InsertEEs "remote-settings" calls0 ops = (ops1, Some e1) /\
    store.End ops1 = (ops2, Some e2) /\
    store.h_endentities (store.after 0 ops2)
    = store.h_endentities store.db0 /\
    store.h_locks (store.after 0 ops2) = store.h_locks store.db0.
Proof.
  do 6 eexists.
  split; [reflexivity|]. split; [reflexivity|]. split; [reflexivity|].
  eapply (transaction_all_or_nothing
            {| store.h_endentities := store.h_endentities store.db0;
               store.h_locks := store.h_locks store.db0;
               store.h_serial := 3; store.h_lock_serial := 2;
               store.h_now := 1000;
               store.h_driver :=
                 [None; None; None; None; None;
                  Some (errorString "driver: bad connection")] |}
            _ _ _ _ "remote-settings" calls0 _ _ eq_refl eq_refl eq_refl).
  discriminate.
Defined.



(** What [End] commits when it succeeds. *)
Lemma End_success ops ops' :
  store.End ops = (ops', None) ->
  saved (store.tx ops') = table (store.tx ops) /\
  store.locks_saved ops' =
    map (store.release (ID (store.tx ops)) (now (store.tx ops)))
        (store.locks ops) /\
  now (store.tx ops') = now (store.tx ops) /\
  done (store.tx ops') = true.
Proof.
  unfold store.End, store.Commit.
  destruct (answer (store.tx ops)) as [t1 [e1|]] eqn:E1;
    [intros H; discriminate H|].
  simpl. destruct (answer t1) as [t2 [e2|]] eqn:E2;
    intros H; inversion H; subst.
  apply answer_same in E1, E2.
  destruct E1 as (T1 & _ & N1 & _ & _ & I1 & _).
  destruct E2 as (T2 & _ & N2 & _ & _ & _ & _).
  simpl. rewrite T2, T1, N2, N1, I1. auto.
Qed.




(** The store answers no failure. *)
Lemma Begin_healthy db :
  Forall (fun a => a = None) (store.h_driver db) ->
  exists db' ops,
    store.BeginEndEntityOperations db = (db', (Some ops, None)) /\
    healthy (store.tx ops).
Proof.
  intros Hf. unfold store.BeginEndEntityOperations, answer.
  destruct (store.h_driver db) as [|a1 [|a2 [|a3 d]]]; simpl;
    repeat match goal with
           | H : Forall _ (_ :: _) |- _ => inversion H; subst; clear H
           end;
    simpl; do 2 eexists; (split; [reflexivity|]); split; simpl; auto.
Qed.

Lemma End_healthy ops :
  healthy (store.tx ops) ->
  exists ops', store.End ops = (ops', None) /\
               Forall (fun a => a = None) (driver (store.tx ops')).
Proof.
  intros H. unfold store.End, store.Commit.
  destruct (database_facts.answer_healthy _ H)
    as (t1 & E1 & H1 & _).
  rewrite E1. simpl.
  destruct (database_facts.answer_healthy _ H1)
    as (t2 & E2 & H2 & _).
  rewrite E2. eexists. split; [reflexivity|]. simpl. apply H2.
Qed.

(** X7. What one transaction commits the next one finds.  On a store whose
    driver refuses nothing, a transaction that inserts an end-entity under
    a label new for the signer and ends is followed by a transaction in
    which [GetLabelOfLatestEE], with a bound above the time gone by,
    returns that label and chain location. *)
Theorem committed_end_entity_is_found
    (db : store.Handler) (x5u label signerID : string) (hsmHandle : N)
    (d youngerThan : Z) :
  Forall (fun a => a = None) (store.h_driver db) ->
  fresh signerID label (store.h_endentities db) ->
  (d < youngerThan)%Z ->
  exists db1 ops1 ops2 ops3 db2 ops4,
    store.BeginEndEntityOperations db = (db1, (Some ops1, None)) /\
    store.InsertEE x5u label signerID hsmHandle ops1 = (ops2, None) /\
    store.End ops2 = (ops3, None) /\
    store.BeginEndEntityOperations (store.after d ops3)
    = (db2, (Some ops4, None)) /\
    snd (store.GetLabelOfLatestEE signerID youngerThan ops4)
    = (label, x5u, None).
Proof.
  intros Hf Hfresh Hd.
  destruct (Begin_healthy db Hf) as (db1 & ops1 & Hb & H1).
  pose proof (Begin_success _ _ _ Hb) as (T1 & _ & _ & N1 & _).
  destruct (database_facts.InsertEE_healthy x5u label signerID hsmHandle
              (store.tx ops1) H1) as (t2 & Hi & H2 & N2 & T2).
  destruct (End_healthy (store.with_tx t2 ops1) H2) as (ops3 & He & Hf3).
  pose proof (End_success _ _ He) as (S3 & _ & N3 & _).
  destruct (Begin_healthy (store.after d ops3) Hf3)
    as (db2 & ops4 & Hb4 & H4).
  pose proof (Begin_success _ _ _ Hb4) as (T4 & _ & _ & N4 & _).
  exists db1, ops1, (store.with_tx t2 ops1), ops3, db2, ops4.
  split; [exact Hb|]. split.
  { unfold store.InsertEE. rewrite Hi. reflexivity. }
  split; [exact He|]. split; [exact Hb4|].
  unfold store.GetLabelOfLatestEE.
  destruct (GetLabelOfLatestEE signerID youngerThan (store.tx ops4))
    as [t5 r] eqn:Eg. simpl.
  change r with (snd (t5, r)). rewrite <- Eg.
  rewrite (database_facts.GetLabelOfLatestEE_single signerID youngerThan
             (store.tx ops4)
             (inserted x5u label signerID hsmHandle (store.tx ops1)) H4).
  - reflexivity.
  - rewrite T4. simpl. rewrite S3. simpl. rewrite T2.
    apply database_facts.current_rows_after_insert; try reflexivity.
    rewrite T1. exact Hfresh.
  - rewrite N4. simpl. rewrite N3. simpl. rewrite N2. lia.
Qed.

Lemma committed_end_entity_is_found_witness :
  exists db1 ops1 ops2 ops3 db2 ops4,
    store.BeginEndEntityOperations store.db0 = (db1, (Some ops1, None)) /\
    store.InsertEE "https://cdn/a.chain" "rs-20190201" "remote-settings" 21
                   ops1 = (ops2, None) /\
    store.End ops2 = (ops3, None) /\
    store.BeginEndEntityOperations (store.after 86400 ops3)
    = (db2, (Some ops4, None)) /\
    snd (store.GetLabelOfLatestEE "remote-settings" 100000 ops4)
    = ("rs-20190201", "https://cdn/a.chain", None).
Proof.
  apply (committed_end_entity_is_found
           store.db0 "https://cdn/a.chain" "rs-20190201" "remote-settings"
           21 86400 100000).
  - constructor.
  - intros r [<-|[<-|[]]]; simpl; intros; discriminate.
  - lia.
Defined.

End store_facts.

(** ** More on the content-signature PKI signer *)

Module contentsignaturepki_more.

Import contentsignaturepki.

Section Signing.

Context {hashes : Hashes} {asn1 : ASN1}.

(** X8. [SignHash] returns either a finished signature with R and S set
    and a nil error, or a nil signature and an error, never both or
    neither; and it aborts exactly when the digest has an accepted size and
    the signer holds no issuer key. *)
Theorem SignHash_signature_or_error
    (s : ContentSigner) (input : list byte) (options : any) :
  (forall sig err,
     SignHash s input options = Return (sig, err) ->
     (sig = None /\ err <> None) \/
     (exists csig,
        sig = Some csig /\ err = None /\ Finished csig = true /\
        R csig <> None /\ S csig <> None))
  /\
  ((exists msg, SignHash s input options = Panic msg) <->
   (issuerPriv s = None /\
    let n := Z.of_nat (List.length input) in
    (n = 32 \/ n = 48 \/ n = 64)%Z)).
Proof.
  unfold SignHash.
  destruct (Z.eqb_spec (Z.of_nat (List.length input)) 32) as [H32|H32];
    destruct (Z.eqb_spec (Z.of_nat (List.length input)) 48) as [H48|H48];
    destruct (Z.eqb_spec (Z.of_nat (List.length input)) 64) as [H64|H64];
    simpl; try lia;
    try (destruct (issuerPriv s) as [priv|];
         [destruct (Sign priv input) as [der|e];
          [destruct (asn1_Unmarshal der) as [parsed|e]|]|]);
    (split;
     [intros sig err H; inversion H; subst;
      solve [left; split; [reflexivity|discriminate]
            |right; eexists; repeat split; simpl; discriminate]
     |split;
      [intros [msg H]; solve [discriminate H | split; [reflexivity|lia]]
      |intros [Hk Hn]; solve [discriminate Hk | eexists; reflexivity | lia]]]).
Qed.

(** X9. The only error [SignData] ever returns is the one for an input
    shorter than 10 bytes; from 10 bytes on it returns a signature with a
    nil error or aborts. *)
Theorem SignData_only_error
    (s : ContentSigner) (input : list byte) (options : any)
    (sig : option ContentSignature) (err : error) :
  SignData s input options = Return (sig, Some err) ->
  (Z.of_nat (List.length input) < 10)%Z /\ sig = None /\ err = InvalidInput.
Proof.
  destruct (Z.lt_ge_cases (Z.of_nat (List.length input)) 10) as [Hn|Hn].
  - rewrite (contentsignaturepki_facts.SignData_short s input options Hn).
    intros H. inversion H; subst. auto.
  - rewrite (contentsignaturepki_facts.SignData_long s input options Hn).
    destruct (SignHash s (snd (makeTemplatedHash input (Mode s))) options)
      as [[[csig|] e]|msg] eqn:Eh; try discriminate.
    intros H. inversion H; subst.
    pose proof (contentsignaturepki_facts.makeTemplatedHash_size
                  input (Mode s)) as Hsz. cbv zeta in Hsz.
    rewrite contentsignaturepki_facts.SignHash_accepted in Eh by lia.
    destruct (issuerPriv s) as [priv|]; [|discriminate Eh].
    destruct (Sign priv _) as [der|e0]; [|discriminate Eh].
    destruct (asn1_Unmarshal der); discriminate Eh.
Qed.


(** X11. From the curve of the issuer key to the sizes: the mode
    [getModeFromCurve] derives gives signatures of 64, 96 and 132 bytes
    over digests of 32, 48 and 64 bytes for P-256, P-384 and P-521, and a
    length of -1 over a digest of 32 bytes for every other curve. *)
Theorem sizes_by_curve
    (s : ContentSigner) (name : string) (data : list byte) :
  issuerPub s = Some (ecdsa_PublicKey name) ->
  exists mode,
    getModeFromCurve s = Return mode /\
    (getSignatureLen mode,
     Z.of_nat (List.length (snd (makeTemplatedHash data mode))))
    = (if String.eqb name "P-256" then (64, 32)
       else if String.eqb name "P-384" then (96, 48)
       else if String.eqb name "P-521" then (132, 64)
       else (-1, 32))%Z.
Proof.
  intros Hp. unfold getModeFromCurve. rewrite Hp.
  eexists. split; [reflexivity|].
  rewrite contentsignaturepki_facts.makeTemplatedHash_eq. cbv zeta.
  destruct (String.eqb name "P-256");
    [|destruct (String.eqb name "P-384");
      [|destruct (String.eqb name "P-521")]]; simpl;
    rewrite ?sha256_Size, ?sha512_Size384, ?sha512_Size; reflexivity.
Qed.

End Signing.

Section Construction.

Context {world : Type}.

(** X12. A configuration with another type, without signer id or without
    private key is refused before anything else happens: [New] returns an
    error in the world it was called in, the same error whatever the
    collaborators are, and checks the type first, then the id, then the
    key. *)
Theorem New_refuses_configuration
    (ext ext' : Collaborators world) (conf : signer.Configuration)
    (w : world) :
  signer.Type_ conf <> Type_ \/ signer.ID conf = ""
  \/ signer.PrivateKey conf = "" ->
  New ext conf w = New ext' conf w /\
  New ext conf w =
  (w,
   Fail
     (if negb (String.eqb (signer.Type_ conf) Type_) then
        errorString
          (Sprintf "contentsignaturepki: invalid type %q, must be %q"
                   [argString (signer.Type_ conf); argString Type_])
      else if String.eqb (signer.ID conf) "" then
        errorString
          "contentsignaturepki: missing signer ID in signer configuration"
      else
        errorString
          "contentsignaturepki: missing private key in signer configuration")).
Proof.
  intros H. unfold New, bind, New_issuer, fail.
  destruct (String.eqb_spec (signer.Type_ conf) Type_) as [Et|Et]; simpl.
  - destruct (String.eqb_spec (signer.ID conf) "") as [Ei|Ei]; simpl.
    + split; reflexivity.
    + destruct (String.eqb_spec (signer.PrivateKey conf) "") as [Ep|Ep].
      * split; reflexivity.
      * tauto.
  - split; reflexivity.
Qed.

(** X13. [New] never aborts: the mode is derived from the curve only after
    the issuer key was found to be an ECDSA key. *)
Theorem New_never_aborts
    (ext : Collaborators world) (conf : signer.Configuration) (w : world)
    (msg : string) :
  snd (New ext conf w) <> Abort msg.
Proof.
  unfold New, bind, New_issuer, New_endentity, New_x5u, call, ret, fail,
    of_outcome, getModeFromCurve, bind.
  destruct (negb (String.eqb (signer.Type_ conf) Type_));
    [simpl; discriminate|].
  destruct (String.eqb (signer.ID conf) ""); [simpl; discriminate|].
  destruct (String.eqb (signer.PrivateKey conf) ""); [simpl; discriminate|].
  destruct (GetKeysAndRand ext conf w) as [w1 [[priv pub]|e]];
    [|simpl; discriminate].
  destruct pub as [name| |]; simpl; try discriminate.
  destruct (findEE ext _ _ w1) as [w2 [s2 [e2|]]].
  - destruct e2; simpl; try discriminate.
    destruct (makeEE ext s2 _ _ w2) as [w3 [s3 [e3|]]];
      [simpl; discriminate|].
    destruct (makeChainAndX5U ext s3 w3) as [w4 [s4 [e4|]]];
      [simpl; discriminate|].
    destruct (verifyX5U ext (X5U s4) w4) as [w5 [e5|]];
      [|simpl; discriminate].
    destruct (String.prefix "failed to retrieve x5u" (Error e5));
      [|simpl; discriminate].
    destruct (makeChainAndX5U ext s4 w5) as [w6 [s6 [e6|]]]; simpl;
      discriminate.
  - destruct (verifyX5U ext (X5U s2) w2) as [w5 [e5|]];
      [|simpl; discriminate].
    destruct (String.prefix "failed to retrieve x5u" (Error e5));
      [|simpl; discriminate].
    destruct (makeChainAndX5U ext s2 w5) as [w6 [s6 [e6|]]]; simpl;
      discriminate.
Qed.

(** X14. An issuer key that is not an ECDSA key ends the construction
    right after the keys were loaded, and a failure to load the keys ends
    it with the error wrapped under the name of the key. *)
Theorem New_needs_ecdsa_issuer
    (ext : Collaborators world) (conf : signer.Configuration)
    (w w1 : world) (keys : Signer * PublicKey + error) :
  signer.Type_ conf = Type_ ->
  signer.ID conf <> "" -> signer.PrivateKey conf <> "" ->
  GetKeysAndRand ext conf w = (w1, keys) ->
  match keys with
  | inl (_, ecdsa_PublicKey _) => True
  | inl (_, _) =>
      New ext conf w =
      (w1,
       Fail (errorString
               "contentsignaturepki: invalid key for CA cert, must be ecdsa"))
  | inr err =>
      New ext conf w =
      (w1,
       Fail (withMessage err
               (Sprintf "contentsignaturepki: failed to retrieve signer %q"
                        [argString (signer.PrivateKey conf)])))
  end.
Proof.
  intros Ht Hi Hp Hk. unfold New, bind at 1, New_issuer.
  rewrite Ht, String.eqb_refl. cbn [negb].
  apply String.eqb_neq in Hi, Hp. rewrite Hi, Hp.
  unfold bind, call. rewrite Hk.
  destruct keys as [[priv [name| |]]|err]; try exact I; reflexivity.
Qed.

(** X15. The default validity of 30 days is given to the collaborators
    but not kept in the signer: for a configuration without validity that
    passes the checks, the configuration handed on to [findEE] and
    [makeEE] has a validity of 720 hours while the [validity] of the signer
    stays 0; a configured validity reaches both unchanged. *)
Theorem New_default_validity
    (ext : Collaborators world) (conf : signer.Configuration)
    (w w1 : world) (priv : Signer) (name : string) :
  signer.Type_ conf = Type_ ->
  signer.ID conf <> "" -> signer.PrivateKey conf <> "" ->
  GetKeysAndRand ext conf w = (w1, inl (priv, ecdsa_PublicKey name)) ->
  exists s1 conf1,
    New_issuer ext conf w = (w1, Ok (s1, conf1)) /\
    New ext conf w = bind world (New_endentity ext s1 conf1) (New_x5u ext) w1 /\
    validity s1 = signer.Validity conf /\
    signer.Validity conf1 =
      (if (signer.Validity conf =? 0)%Z then 2592000000000000
       else signer.Validity conf)%Z.
Proof.
  intros Ht Hi Hp Hk.
  pose proof (contentsignaturepki_facts.New_issuer_ecdsa
                ext conf w w1 priv name Ht Hi Hp Hk) as Hn.
  eexists. eexists. split; [exact Hn|]. split.
  - unfold New, bind at 1. rewrite Hn. reflexivity.
  - split; [reflexivity|].
    destruct (signer.Validity conf =? 0)%Z; reflexivity.
Qed.

(** X16. An error of [findEE] other than [ErrNoSuitableEEFound] ends the
    construction in the world as [findEE] left it; no end-entity is made
    and nothing is verified. *)
Theorem New_lookup_error_is_fatal
    (ext : Collaborators world) (conf : signer.Configuration)
    (w w1 w2 : world) (priv : Signer) (name : string)
    (s2 : ContentSigner) (err : error) :
  signer.Type_ conf = Type_ ->
  signer.ID conf <> "" -> signer.PrivateKey conf <> "" ->
  GetKeysAndRand ext conf w = (w1, inl (priv, ecdsa_PublicKey name)) ->
  (forall s1 conf1,
     New_issuer ext conf w = (w1, Ok (s1, conf1)) ->
     findEE ext s1 conf1 w1 = (w2, (s2, Some err))) ->
  err <> ErrNoSuitableEEFound ->
  New ext conf w =
  (w2,
   Fail (withMessage err
           "contentsignaturepki: failed to find suitable end-entity")).
Proof.
  intros Ht Hi Hp Hk Hf Hne.
  pose proof (contentsignaturepki_facts.New_issuer_ecdsa
                ext conf w w1 priv name Ht Hi Hp Hk) as Hn.
  specialize (Hf _ _ Hn).
  unfold New, bind at 1. rewrite Hn.
  unfold bind at 1, New_endentity, bind at 1, call at 1. rewrite Hf.
  destruct err; try reflexivity. contradiction.
Qed.

End Construction.

Import example.

Lemma SignData_only_error_witness :
  SignData (signer0 P384ECDSA software_key)
           (list_byte_of_string "too short") Nil
  = Return (None, Some InvalidInput).
Proof.
  destruct (SignData_only_error
              (signer0 P384ECDSA software_key)
              (list_byte_of_string "too short") Nil None InvalidInput
              eq_refl) as (_ & _ & _).
  reflexivity.
Defined.

Lemma sizes_by_curve_witness :
  exists mode,
    getModeFromCurve (signer0 "" software_key) = Return mode /\
    (getSignatureLen mode,
     Z.of_nat (List.length (snd (makeTemplatedHash input0 mode))))
    = (96, 48)%Z.
Proof.
  apply (sizes_by_curve (signer0 "" software_key) "P-384" input0).
  reflexivity.
Defined.

Lemma New_refuses_configuration_witness :
  New (ext0 "P-384" (fun _ => true)) (signer.set_Mode "" signer.zero) []
  = ([],
     Fail (errorString
             (Sprintf "contentsignaturepki: invalid type %q, must be %q"
                      [argString ""; argString Type_]))).
Proof.
  destruct (New_refuses_configuration
              (ext0 "P-384" (fun _ => true)) (ext0 "P-224" (fun _ => false))
              (signer.set_Mode "" signer.zero) [])
    as [_ H].
  - left. discriminate.
  - exact H.
Defined.

(** Collaborators of the example world whose issuer key is an RSA key. *)
Lemma New_needs_ecdsa_issuer_witness :
  New {| GetKeysAndRand := fun _ w =>
           (w ++ ["GetKeysAndRand"], inl (software_key, rsa_PublicKey));
         findEE := findEE (ext0 "P-384" (fun _ => true));
         makeEE := makeEE (ext0 "P-384" (fun _ => true));
         makeChainAndX5U := makeChainAndX5U (ext0 "P-384" (fun _ => true));
         verifyX5U := verifyX5U (ext0 "P-384" (fun _ => true)) |}
      conf0 []
  = (["GetKeysAndRand"],
     Fail (errorString
             "contentsignaturepki: invalid key for CA cert, must be ecdsa")).
Proof.
  exact (New_needs_ecdsa_issuer
           {| GetKeysAndRand := fun _ w =>
                (w ++ ["GetKeysAndRand"], inl (software_key, rsa_PublicKey));
              findEE := findEE (ext0 "P-384" (fun _ => true));
              makeEE := makeEE (ext0 "P-384" (fun _ => true));
              makeChainAndX5U :=
                makeChainAndX5U (ext0 "P-384" (fun _ => true));
              verifyX5U := verifyX5U (ext0 "P-384" (fun _ => true)) |}
           conf0 [] ["GetKeysAndRand"] (inl (software_key, rsa_PublicKey))
           eq_refl ltac:(discriminate) ltac:(discriminate) eq_refl).
Defined.

Lemma New_default_validity_witness :
  exists s1 conf1,
    New_issuer (ext0 "P-384" (fun _ => true)) conf0 []
    = (["GetKeysAndRand"], Ok (s1, conf1)) /\
    validity s1 = 0%Z /\ signer.Validity conf1 = 2592000000000000%Z.
Proof.
  destruct (New_default_validity
              (ext0 "P-384" (fun _ => true)) conf0 [] ["GetKeysAndRand"]
              software_key "P-384" eq_refl ltac:(discriminate)
              ltac:(discriminate) eq_refl)
    as (s1 & conf1 & Hn & _ & Hv & Hc).
  exists s1, conf1. split; [exact Hn|]. split; [exact Hv|exact Hc].
Defined.

(** Collaborators of the example world whose store cannot be reached. *)
Lemma New_lookup_error_is_fatal_witness :
  New {| GetKeysAndRand := GetKeysAndRand (ext0 "P-384" (fun _ => true));
         findEE := fun s _ w =>
           (w ++ ["findEE"],
            (s, Some (errorString "failed to create transaction")));
         makeEE := makeEE (ext0 "P-384" (fun _ => true));
         makeChainAndX5U := makeChainAndX5U (ext0 "P-384" (fun _ => true));
         verifyX5U := verifyX5U (ext0 "P-384" (fun _ => true)) |}
      conf0 []
  = (["GetKeysAndRand"; "findEE"],
     Fail (withMessage (errorString "failed to create transaction")
             "contentsignaturepki: failed to find suitable end-entity")).
Proof.
  eapply (New_lookup_error_is_fatal
            {| GetKeysAndRand := GetKeysAndRand (ext0 "P-384" (fun _ => true));
               findEE := fun s _ w =>
                 (w ++ ["findEE"],
                  (s, Some (errorString "failed to create transaction")));
               makeEE := makeEE (ext0 "P-384" (fun _ => true));
               makeChainAndX5U :=
                 makeChainAndX5U (ext0 "P-384" (fun _ => true));
               verifyX5U := verifyX5U (ext0 "P-384" (fun _ => true)) |}
            conf0 [] ["GetKeysAndRand"] _ software_key "P-384").
  - reflexivity.
  - discriminate.
  - discriminate.
  - reflexivity.
  - intros s1 conf1 H. vm_compute in H. inversion H; subst. reflexivity.
  - discriminate.
Defined.

End contentsignaturepki_more.

(** ** The MAR signer *)

Module mar_signer_facts.

Import mar mar_signer.

Section Signer.

Context {margo : Margo}.

(** X17. Every signer [mar.New] returns comes from a configuration of type
    mar with an id and a private key, holds the key of the configuration
    and its public key, and has the default algorithm and random source of
    its kind of key: RSA PKCS1 SHA-384 for an RSA key, ECDSA P-256 SHA-256
    or ECDSA P-384 SHA-384 for an ECDSA key on P-256 or P-384, with the
    PKCS11 random source for a key in an HSM.  No signer is returned for an
    ECDSA key on another curve or for another kind of key. *)
Theorem New_supported_keys (conf : signer.Configuration) (s : MARSigner) :
  New conf = inl s ->
  signer.Type_ conf = "mar" /\ signer.ID conf <> ""
  /\ signer.PrivateKey conf <> "" /\
  GetPrivateKey conf = inl (signingKey s) /\
  publicKey s = Public (signingKey s) /\
  signer.ID (Configuration s) = signer.ID conf /\
  match signingKey s with
  | rsa_PrivateKey =>
      defaultSigAlg s = SigAlgRsaPkcs1Sha384 /\ rand s = rand_Reader
  | PKCS11PrivateKeyRSA =>
      defaultSigAlg s = SigAlgRsaPkcs1Sha384 /\ rand s = PKCS11RandReader
  | ecdsa_PrivateKey name =>
      rand s = rand_Reader /\
      ((name = "P-256" /\ defaultSigAlg s = SigAlgEcdsaP256Sha256) \/
       (name = "P-384" /\ defaultSigAlg s = SigAlgEcdsaP384Sha384))
  | PKCS11PrivateKeyECDSA name =>
      rand s = PKCS11RandReader /\
      ((name = "P-256" /\ defaultSigAlg s = SigAlgEcdsaP256Sha256) \/
       (name = "P-384" /\ defaultSigAlg s = SigAlgEcdsaP384Sha384))
  | other_PrivateKey _ => False
  end.
Proof.
  unfold New, ecdsa_default.
  destruct (String.eqb_spec (signer.Type_ conf) Type_) as [Et|Et];
    [|intros H; discriminate H]. simpl negb. cbv iota.
  destruct (String.eqb_spec (signer.ID conf) "") as [Ei|Ei];
    [intros H; discriminate H|].
  destruct (String.eqb_spec (signer.PrivateKey conf) "") as [Ep|Ep];
    [intros H; discriminate H|].
  destruct (GetPrivateKey conf) as [key|e]; [|intros H; discriminate H].
  destruct key as [| |name|name|type]; simpl;
    try (destruct (MarshalPKIXPublicKey _) as [bytes|e];
         [|intros H; discriminate H]);
    try (destruct (String.eqb_spec name "P-256") as [E256|E256];
         [|destruct (String.eqb_spec name "P-384") as [E384|E384]]);
    intros H; inversion H; subst; simpl; repeat split; auto.
Qed.

(** X18. [SignData] hashes and signs with one algorithm: the one of the
    options when they name one, the default of the signer when they name
    none or zero.  The hash error and the signing error come back wrapped,
    without a signature. *)
Theorem SignData_one_algorithm
    (s : MARSigner) (data : list byte) (options : any) (opt : Options) :
  GetOptions options = (opt, None) ->
  let alg :=
    if N.eqb (SigAlg opt) 0 then defaultSigAlg s else SigAlg opt in
  SignData s data options =
  match margo_Hash data alg with
  | inr err => (None, Some (withMessage err "mar: failed to hash input"))
  | inl hashed =>
      match margo_Sign (signingKey s) (rand s) hashed alg with
      | inr err => (None, Some (withMessage err "mar: failed to sign"))
      | inl sig => (Some {| Data := sig |}, None)
      end
  end.
Proof.
  intros Ho alg. unfold SignData, SignHash, or_default. rewrite Ho.
  subst alg. destruct (N.eqb (SigAlg opt) 0); simpl;
    destruct (margo_Hash data _); reflexivity.
Qed.

(** X19. Options that cannot be re-encoded stop both signing methods: each
    returns no signature and the error of [GetOptions] wrapped, whatever
    the key, the data and the MAR library are. *)
Theorem bad_options_stop_signing
    (s : MARSigner) (bytes : list byte) (options : any) :
  incompatible options ->
  exists err,
    snd (GetOptions options) = Some err /\
    SignHash s bytes options =
      (None, Some (withMessage err "mar: failed to get options")) /\
    SignData s bytes options =
      (None, Some (withMessage err "mar: failed to get options")).
Proof.
  unfold incompatible, SignHash, SignData, GetOptions.
  destruct (json.Marshal options) as [buf|e].
  - intros Hm. pose proof (mar_facts.Unmarshal_error buf zero) as Hu.
    destruct (Unmarshal buf zero) as [opt [err|]]; simpl in Hu.
    + exists err. repeat split.
    + destruct Hu as [Hu _]. rewrite (Hu eq_refl) in Hm. discriminate Hm.
  - intros _. exists e. repeat split.
Qed.

(** X20. The default options of a signer select its default algorithm:
    [GetOptions] reads them back as they are, and signing with them is
    signing without options. *)
Theorem default_options_round_trip
    (s : MARSigner) (bytes : list byte) :
  (defaultSigAlg s < 2 ^ 32)%N ->
  GetOptions (GetDefaultOptions s) = ({| SigAlg := defaultSigAlg s |}, None)
  /\ SignHash s bytes (GetDefaultOptions s) = SignHash s bytes Nil
  /\ SignData s bytes (GetDefaultOptions s) = SignData s bytes Nil.
Proof.
  intros Hr.
  assert (Hg : GetOptions (GetDefaultOptions s)
               = ({| SigAlg := defaultSigAlg s |}, None)).
  { assert (Hd : decode_SigAlg
                   (json.num (json.integer (Z.of_N (defaultSigAlg s)))) zero
                 = ({| SigAlg := defaultSigAlg s |}, None)).
    { unfold decode_SigAlg.
      assert (Hb : ((0 <=? Z.of_N (defaultSigAlg s))%Z
                    && (Z.of_N (defaultSigAlg s) <? 2 ^ 32)%Z) = true).
      { apply andb_true_iff. split; [apply Z.leb_le; lia|].
        apply Z.ltb_lt. change (2 ^ 32)%Z with (Z.of_N (2 ^ 32)). lia. }
      rewrite Hb, N2Z.id. reflexivity. }
    unfold GetOptions, GetDefaultOptions, any_of_Options.
    cbn -[decode_SigAlg]. rewrite Hd. reflexivity. }
  split; [exact Hg|].
  unfold SignData, SignHash. rewrite Hg.
  change (GetOptions Nil) with (zero, @None error).
  unfold or_default. simpl.
  destruct (N.eqb (defaultSigAlg s) 0) eqn:E; split; reflexivity.
Qed.

(** X21. Options without a member for [sigalg] select the default
    algorithm of the signer and raise no error: a misspelt member is
    ignored. *)
Theorem options_without_sigalg
    (s : MARSigner) (bytes : list byte) (options : any)
    (members : list (string * json.value)) :
  json.Marshal options = inl (json.object members) ->
  Forall (fun m => json.equalFold "sigalg" (fst m) = false) members ->
  GetOptions options = (zero, None)
  /\ SignHash s bytes options = SignHash s bytes Nil
  /\ SignData s bytes options = SignData s bytes Nil.
Proof.
  intros Hm Hf.
  assert (Hg : GetOptions options = (zero, None)).
  { unfold GetOptions. rewrite Hm. simpl. clear Hm.
    induction Hf as [|[k v] rest Hk _ IH]; [reflexivity|].
    simpl in Hk |- *. rewrite Hk. exact IH. }
  split; [exact Hg|].
  unfold SignData, SignHash. rewrite Hg.
  change (GetOptions Nil) with (zero, @None error). split; reflexivity.
Qed.

End Signer.

Section Files.

Context {margo : Margo} {files : MargoFile}.

(** [SignFile] makes the signatures anew: two inputs that parse to
    the same file apart from their signature blocks give the same result,
    whatever the options are. *)
Theorem SignFile_discards_signatures
    (s : MARSigner) (input1 input2 : list byte) (options1 options2 : any)
    (n1 n2 : N) (sigs1 sigs2 : list file_signature) (rest : rest_of_file) :
  margo_Unmarshal input1 = inl (n1, sigs1, rest) ->
  margo_Unmarshal input2 = inl (n2, sigs2, rest) ->
  SignFile s input1 options1 = SignFile s input2 options2.
Proof.
  intros H1 H2. unfold SignFile. rewrite H1, H2. reflexivity.
Qed.

(** [SignFile] returns either a file and a nil error or no file and
    an error that wraps the error of the stage that failed. *)
Theorem SignFile_file_or_error
    (s : MARSigner) (input : list byte) (options : any) :
  (exists output, SignFile s input options = (Some output, None)) \/
  (exists cause msg,
     SignFile s input options = (None, Some (withMessage cause msg))).
Proof.
  unfold SignFile.
  destruct (margo_Unmarshal input) as [[[n sigs] rest]|e];
    [|right; eauto].
  destruct (PrepareSignature _ _ _) as [f1|e]; [|right; eauto].
  destruct (FinalizeSignatures f1) as [f2|e]; [|right; eauto].
  destruct (margo_Marshal f2) as [out|e]; [left; eauto|right; eauto].
Qed.

End Files.

Import mar_example.

Lemma New_supported_keys_witness :
  exists s, New (conf0 "P-384") = inl s /\ defaultSigAlg s = 4%N.
Proof.
  assert (E : exists s, New (conf0 "P-384") = inl s)
    by (eexists; reflexivity).
  destruct E as [s E]. exists s. split; [exact E|].
  destruct (New_supported_keys (conf0 "P-384") s E)
    as (_ & _ & _ & Hk & _ & _ & Hs).
  simpl in Hk. inversion Hk as [Hkey]. rewrite <- Hkey in Hs.
  destruct Hs as [_ [[E256 _]|[_ H]]].
  - discriminate E256.
  - exact H.
Defined.

Lemma SignData_one_algorithm_witness :
  SignData signer0 [x4d; x41; x52] (Map [("sigalg", Integer 3)])
  = (Some {| Data := [x03; x00; x00; x00] |}, None).
Proof.
  exact (SignData_one_algorithm signer0 [x4d; x41; x52]
           (Map [("sigalg", Integer 3)]) {| SigAlg := 3 |} eq_refl).
Defined.

Lemma bad_options_stop_signing_witness :
  exists err,
    SignHash signer0 [x00] (Str "sha384")
    = (None, Some (withMessage err "mar: failed to get options")).
Proof.
  destruct (bad_options_stop_signing signer0 [x00] (Str "sha384"))
    as (err & _ & H & _).
  - reflexivity.
  - exists err. exact H.
Defined.

Lemma default_options_round_trip_witness :
  GetOptions (GetDefaultOptions signer0) = ({| SigAlg := 4 |}, None).
Proof.
  destruct (default_options_round_trip signer0 []) as (H & _ & _).
  - reflexivity.
  - exact H.
Defined.

Lemma options_without_sigalg_witness :
  GetOptions (Map [("sig_alg", Integer 3)]) = (zero, None).
Proof.
  destruct (options_without_sigalg signer0 [] (Map [("sig_alg", Integer 3)])
              [("sig_alg", json.num (json.integer 3))] eq_refl)
    as (H & _ & _).
  - repeat constructor.
  - exact H.
Defined.

Lemma SignFile_discards_signatures_witness :
  SignFile signer0 [x01; xaa; x4d; x41; x52] Nil
  = SignFile signer0 [x00; x4d; x41; x52] Nil.
Proof.
  apply (@SignFile_discards_signatures files0
           signer0 [x01; xaa; x4d; x41; x52] [x00; x4d; x41; x52] Nil Nil
           1 0 [xaa] [] [x4d; x41; x52]); reflexivity.
Defined.

End mar_signer_facts.

(** ** The monitor *)

Module monitor_facts.

Import monitor.

Section Handler.

Context {verifiers : Verifiers}.

(** The errors of the responses that fail, in the order of the
    responses. *)
Lemma collect_spec responses : forall failed failures,
  collect responses failed failures =
  (failed || existsb (fun r => match verify r with
                               | Some (Some _) => true
                               | _ => false
                               end) responses,
   failures ++ flat_map (fun r => match verify r with
                                  | Some (Some err) => [err]
                                  | _ => []
                                  end) responses).
Proof.
  induction responses as [|r rest IH]; intros failed failures; simpl.
  - rewrite orb_false_r, app_nil_r. reflexivity.
  - destruct (verify r) as [[err|]|]; rewrite IH; simpl.
    + rewrite orb_true_r, <- app_assoc. reflexivity.
    + reflexivity.
    + reflexivity.
Qed.

(** X22. The monitor passes exactly when no response fails its
    verification: one failing response makes the whole run fail, wherever
    it stands, and the failures collected are the errors of the failing
    responses in their order, none lost and none repeated. *)
Theorem Handler_verify_passes (responses : list signatureresponse) :
  (Handler_verify responses = None <->
   Forall (fun r => forall err, verify r <> Some (Some err)) responses)
  /\
  snd (collect responses false [])
  = flat_map (fun r => match verify r with
                       | Some (Some err) => [err]
                       | _ => []
                       end) responses.
Proof.
  unfold Handler_verify. rewrite collect_spec. simpl. split; [|reflexivity].
  destruct (existsb _ responses) eqn:E.
  - split; [intros H; discriminate H|].
    intros Hf. apply existsb_exists in E. destruct E as (r & Hin & Hr).
    rewrite Forall_forall in Hf. specialize (Hf r Hin).
    destruct (verify r) as [[err|]|]; try discriminate Hr.
    exfalso. exact (Hf err eq_refl).
  - split; [|reflexivity]. intros _. apply Forall_forall. intros r Hin err Hv.
    assert (Hex : existsb (fun r => match verify r with
                                    | Some (Some _) => true
                                    | _ => false
                                    end) responses = true).
    { apply existsb_exists. exists r. rewrite Hv. auto. }
    rewrite Hex in E. discriminate E.
Qed.

(** X23. A response whose type is none of the eight known types makes the
    run fail. *)
Theorem unknown_type_fails
    (responses : list signatureresponse) (r : signatureresponse) :
  In r responses ->
  ~ In (Type_ r)
       [contentsignature_Type; contentsignaturepki.Type_; xpi_Type;
        apk_Type; mar_signer.Type_; rsapss_Type; pgp_Type; gpg2_Type] ->
  exists err, Handler_verify responses = Some err.
Proof.
  intros Hin Hn. unfold Handler_verify. rewrite collect_spec. simpl.
  assert (Hv : verify r =
               Some (Some (errors.Errorf "unknown signature type %q"
                                         [argString (Type_ r)]))).
  { unfold verify. simpl in Hn.
    repeat match goal with
           | |- context [String.eqb ?a ?b] =>
               let E := fresh "E" in
               destruct (String.eqb_spec a b) as [E|E];
               [exfalso; apply Hn; rewrite E; tauto|]
           end.
    reflexivity. }
  assert (Hex : existsb (fun r => match verify r with
                                  | Some (Some _) => true
                                  | _ => false
                                  end) responses = true).
  { apply existsb_exists. exists r. rewrite Hv. auto. }
  rewrite Hex. eexists. reflexivity.
Qed.

(** X24. The responses of the PGP signers are not verified: a response of
    type pgp or gpg2 (a type that is none of the six verified ones) changes
    nothing in the result, whatever its signature is. *)
Theorem pgp_is_skipped
    (before after : list signatureresponse) (r : signatureresponse) :
  Type_ r = pgp_Type \/ Type_ r = gpg2_Type ->
  ~ In (Type_ r)
       [contentsignature_Type; contentsignaturepki.Type_; xpi_Type;
        apk_Type; mar_signer.Type_; rsapss_Type] ->
  Handler_verify (before ++ r :: after) = Handler_verify (before ++ after).
Proof.
  intros Ht Hn.
  assert (Hv : verify r = None).
  { unfold verify. simpl in Hn.
    do 6 match goal with
         | |- context [String.eqb ?a ?b] =>
             let E := fresh "E" in
             destruct (String.eqb_spec a b) as [E|E];
             [exfalso; apply Hn; rewrite E; tauto|]
         end.
    destruct Ht as [-> | ->]; rewrite String.eqb_refl;
      rewrite ?orb_true_r; reflexivity. }
  unfold Handler_verify. rewrite !collect_spec. simpl.
  rewrite !existsb_app, !flat_map_app. simpl. rewrite Hv. reflexivity.
Qed.

End Handler.

(** What a call that published did. *)
Lemma sendSoftNotification_published id format a p p1 e :
  sendSoftNotification id format a p = (p1, e) ->
  published p1 <> published p ->
  e = None /\
  softNotifCache p1 = store id (now p) (softNotifCache p) /\
  now p1 = now p /\
  LAMBDA_TASK_ROOT p1 = LAMBDA_TASK_ROOT p /\
  AUTOGRAPH_SOFT_NOTIFICATION_SNS p1 = AUTOGRAPH_SOFT_NOTIFICATION_SNS p /\
  String.eqb (LAMBDA_TASK_ROOT p) ""
  || String.eqb (AUTOGRAPH_SOFT_NOTIFICATION_SNS p) "" = false /\
  published p1 =
    published p ++ [(AUTOGRAPH_SOFT_NOTIFICATION_SNS p, Sprintf format a)].
Proof.
  unfold sendSoftNotification.
  destruct (match lookup id (softNotifCache p) with
            | Some ts => (now p <? ts + 24 * time_Hour)%Z
            | None => false
            end).
  { intros H Hp. inversion H; subst. contradiction. }
  destruct (String.eqb (LAMBDA_TASK_ROOT p) ""
            || String.eqb (AUTOGRAPH_SOFT_NOTIFICATION_SNS p) "") eqn:Ee.
  { intros H Hp. inversion H; subst. contradiction. }
  destruct (match sns p with [] => None | e0 :: _ => e0 end) as [err|];
    intros H Hp; inversion H; subst; simpl in *.
  - contradiction.
  - repeat split; reflexivity.
Qed.

Lemma lookup_store id ts cache : lookup id (store id ts cache) = Some ts.
Proof.
  induction cache as [|[k t] rest IH]; simpl.
  - rewrite String.eqb_refl. reflexivity.
  - destruct (String.eqb k id) eqn:E; simpl; rewrite E; [reflexivity|exact IH].
Qed.

(** X25. A notification that was published is not repeated for 24 hours:
    every call for the same id before that time returns nil and changes
    nothing, whatever its message is; the first call for it after 24 hours
    that the notification service accepts is published. *)
Theorem notification_once_a_day
    (id format format' : string) (a a' : list fmtarg)
    (p p1 : process) (e : option error) (d : Z) :
  sendSoftNotification id format a p = (p1, e) ->
  published p1 <> published p ->
  ((d < 24 * time_Hour)%Z ->
   sendSoftNotification id format' a' (later d p1) = (later d p1, None))
  /\
  ((24 * time_Hour <= d)%Z ->
   hd None (sns p1) = None ->
   published (fst (sendSoftNotification id format' a' (later d p1)))
   = published p1
     ++ [(AUTOGRAPH_SOFT_NOTIFICATION_SNS p, Sprintf format' a')]).
Proof.
  intros Hs Hp.
  destruct (sendSoftNotification_published _ _ _ _ _ _ Hs Hp)
    as (_ & Hc & Hn & Hl & Ht & He & _).
  unfold sendSoftNotification. cbn [later softNotifCache now LAMBDA_TASK_ROOT
    AUTOGRAPH_SOFT_NOTIFICATION_SNS published sns].
  rewrite Hc, lookup_store, Hn, Hl, Ht, He. split.
  - intros Hd.
    assert (Hlt : (now p + d <? now p + 24 * time_Hour)%Z = true)
      by (apply Z.ltb_lt; lia).
    rewrite Hlt. reflexivity.
  - intros Hd Ha.
    assert (Hge : (now p + d <? now p + 24 * time_Hour)%Z = false)
      by (apply Z.ltb_ge; lia).
    rewrite Hge. unfold hd in Ha.
    destruct (sns p1) as [|a0 rest]; subst; reflexivity.
Qed.

(** Outside of the lambda environment, or without a topic, nothing is
    published and nothing is remembered: the call returns nil and leaves
    the process as it is. *)
Theorem notification_needs_lambda
    (id format : string) (a : list fmtarg) (p : process) :
  LAMBDA_TASK_ROOT p = "" \/ AUTOGRAPH_SOFT_NOTIFICATION_SNS p = "" ->
  sendSoftNotification id format a p = (p, None).
Proof.
  intros H. unfold sendSoftNotification.
  destruct (match lookup id (softNotifCache p) with
            | Some ts => (now p <? ts + 24 * time_Hour)%Z
            | None => false
            end); [reflexivity|].
  destruct H as [-> | ->]; simpl; rewrite ?orb_true_r; reflexivity.
Qed.

(** X26. A publication that fails is returned as an error and is not
    remembered: the cache and the published messages stay as they
    were, so the next call tries again. *)
Theorem failed_notification_not_cached
    (id format : string) (a : list fmtarg) (p p1 : process) (err : error) :
  sendSoftNotification id format a p = (p1, Some err) ->
  softNotifCache p1 = softNotifCache p /\ published p1 = published p /\
  hd None (sns p) = Some err.
Proof.
  unfold sendSoftNotification.
  destruct (match lookup id (softNotifCache p) with
            | Some ts => (now p <? ts + 24 * time_Hour)%Z
            | None => false
            end); [intros H; discriminate H|].
  destruct (String.eqb (LAMBDA_TASK_ROOT p) ""
            || String.eqb (AUTOGRAPH_SOFT_NOTIFICATION_SNS p) "");
    [intros H; discriminate H|].
  destruct (sns p) as [|[e0|] rest]; simpl; intros H; inversion H; subst;
    simpl; auto.
Qed.

Lemma unknown_type_fails_witness :
  exists err,
    Handler_verify [response0 "mar" "ok"; response0 "xpi2" "ok"] = Some err.
Proof.
  apply (unknown_type_fails
           [response0 "mar" "ok"; response0 "xpi2" "ok"]
           (response0 "xpi2" "ok")).
  - right. left. reflexivity.
  - simpl. intuition discriminate.
Defined.

Lemma pgp_is_skipped_witness :
  Handler_verify [response0 "mar" "ok"; response0 "gpg2" "bad";
                  response0 "apk" "ok"]
  = Handler_verify [response0 "mar" "ok"; response0 "apk" "ok"].
Proof.
  apply (pgp_is_skipped [response0 "mar" "ok"] [response0 "apk" "ok"]
           (response0 "gpg2" "bad")).
  - right. reflexivity.
  - simpl. intuition discriminate.
Defined.

Lemma notification_once_a_day_witness :
  sendSoftNotification "expiring-cert" "again" []
    (later 3600000000000
       (fst (sendSoftNotification "expiring-cert" "certificate %s expires"
               [argString "normandy"] process0)))
  = (later 3600000000000
       (fst (sendSoftNotification "expiring-cert" "certificate %s expires"
               [argString "normandy"] process0)),
     None).
Proof.
  destruct (notification_once_a_day
              "expiring-cert" "certificate %s expires" "again"
              [argString "normandy"] [] process0 _ None 3600000000000
              eq_refl) as [H _].
  - discriminate.
  - apply H. reflexivity.
Defined.

Lemma notification_needs_lambda_witness :
  sendSoftNotification "expiring-cert" "certificate %s expires"
    [argString "normandy"]
    {| softNotifCache := []; now := 1000; LAMBDA_TASK_ROOT := "";
       AUTOGRAPH_SOFT_NOTIFICATION_SNS := "arn:aws:sns:autograph";
       published := []; sns := [] |}
  = ({| softNotifCache := []; now := 1000; LAMBDA_TASK_ROOT := "";
        AUTOGRAPH_SOFT_NOTIFICATION_SNS := "arn:aws:sns:autograph";
        published := []; sns := [] |}, None).
Proof.
  apply notification_needs_lambda. left. reflexivity.
Defined.

Lemma failed_notification_not_cached_witness :
  exists p1,
    sendSoftNotification "expiring-cert" "certificate %s expires"
      [argString "normandy"]
      {| softNotifCache := []; now := 1000;
         LAMBDA_TASK_ROOT := "/var/task";
         AUTOGRAPH_SOFT_NOTIFICATION_SNS := "arn:aws:sns:autograph";
         published := [];
         sns := [Some (errorString "RequestError: send request failed")] |}
    = (p1, Some (errorString "RequestError: send request failed"))
    /\ softNotifCache p1 = [] /\ published p1 = [].
Proof.
  eexists. split; [reflexivity|].
  destruct (failed_notification_not_cached
              "expiring-cert" "certificate %s expires"
              [argString "normandy"]
              {| softNotifCache := []; now := 1000;
                 LAMBDA_TASK_ROOT := "/var/task";
                 AUTOGRAPH_SOFT_NOTIFICATION_SNS := "arn:aws:sns:autograph";
                 published := [];
                 sns := [Some (errorString
                                 "RequestError: send request failed")] |}
              _ _ eq_refl) as (Hc & Hp & _).
  split; [exact Hc|exact Hp].
Defined.

End monitor_facts.
